(** * City data analysis dashboard: resolver, fetchers, crime parser, reconciliation

    A shallow embedding of the data pipeline of the repository:
    - [utils/area_converter.py]  (county FIPS lookup, target-area resolution),
    - [data_collection/census_data.py] and [data_collection/bls_data.py]
      (time-series fetch loops and trend analysis),
    - [data_collection/crime_data.py] (crime table parser, crime scraper),
    - [analysis/data_analysis.py] (merge of the tables),
    - [utils/input_handler.py] (title case of city names, prompt loops).

    Network access is an explicit oracle argument; Python dictionaries are
    insertion-ordered association lists; values read from the APIs are
    decimal numbers, kept as rationals, and the growth formulas are
    evaluated over the reals. *)

From Stdlib Require Import String Ascii List ZArith QArith Bool Lia.
From Stdlib Require Import DecimalString DecimalPos.
From Stdlib Require Import Permutation Sorted.
From Stdlib Require Import Reals Lra.
Import ListNotations.

Close Scope Q_scope.
Close Scope R_scope.
Open Scope string_scope.
Open Scope list_scope.

(* ================================================================== *)
(** * Python primitives *)
(* ================================================================== *)

Module Py.

(** Outcome of a call that may raise. *)
Inductive outcome (E A : Type) : Type :=
| Return (a : A)
| Raise (e : E).
Arguments Return {E A} a.
Arguments Raise {E A} e.

Definition bind {E A B : Type} (m : outcome E A) (k : A -> outcome E B)
  : outcome E B :=
  match m with
  | Return a => k a
  | Raise e => Raise e
  end.

(** ** str *)

Definition is_upper (c : ascii) : bool :=
  let n := nat_of_ascii c in (65 <=? n)%nat && (n <=? 90)%nat.

Definition lower_char (c : ascii) : ascii :=
  if is_upper c then ascii_of_nat (nat_of_ascii c + 32) else c.

(** [s.lower()] of ASCII text: the letters A-Z are changed, every other
    character is left as it is. *)
Fixpoint lower (s : string) : string :=
  match s with
  | EmptyString => EmptyString
  | String c r => String (lower_char c) (lower r)
  end.

Definition is_space (c : ascii) : bool :=
  let n := nat_of_ascii c in
  ((9 <=? n)%nat && (n <=? 13)%nat) || ((28 <=? n)%nat && (n <=? 32)%nat).

Fixpoint lstrip (s : string) : string :=
  match s with
  | EmptyString => EmptyString
  | String c r => if is_space c then lstrip r else s
  end.

(** Drops the trailing run of characters satisfying [p]. *)
Fixpoint rstrip_with (p : ascii -> bool) (s : string) : string :=
  match s with
  | EmptyString => EmptyString
  | String c r =>
      match rstrip_with p r with
      | EmptyString => if p c then EmptyString else String c EmptyString
      | r' => String c r'
      end
  end.

Definition rstrip : string -> string := rstrip_with is_space.

(** [s.strip()] *)
Definition strip (s : string) : string := rstrip (lstrip s).

(** [s.startswith(p)] *)
Fixpoint startswith (p s : string) : bool :=
  match p, s with
  | EmptyString, _ => true
  | String a p', String b s' => Ascii.eqb a b && startswith p' s'
  | String _ _, EmptyString => false
  end.

(** [sub in s] *)
Fixpoint contains (sub s : string) : bool :=
  startswith sub s ||
  match s with
  | EmptyString => false
  | String _ r => contains sub r
  end.

(** [s.endswith(p)] *)
Fixpoint endswith (p s : string) : bool :=
  String.eqb p s ||
  match s with
  | EmptyString => false
  | String _ r => endswith p r
  end.

(** Worker of [replace]: [skip] characters of a matched occurrence are
    still to be dropped. *)
Fixpoint replace_from (old new : string) (skip : nat) (s : string) : string :=
  match s with
  | EmptyString => EmptyString
  | String c r =>
      match skip with
      | S k => replace_from old new k r
      | O =>
          if startswith old s
          then new ++ replace_from old new (String.length old - 1) r
          else String c (replace_from old new 0 r)
      end
  end.

(** [s.replace(old, new)] for a non-empty [old]: every occurrence, left to
    right, without overlap. *)
Definition replace (old new s : string) : string := replace_from old new 0 s.

(** Worker of [split]: [cur] is the piece read so far. *)
Fixpoint split_from (sep : string) (skip : nat) (cur : string) (s : string)
  : list string :=
  match s with
  | EmptyString => [cur]
  | String c r =>
      match skip with
      | S k => split_from sep k cur r
      | O =>
          if startswith sep s
          then cur :: split_from sep (String.length sep - 1) EmptyString r
          else split_from sep 0 (cur ++ String c EmptyString) r
      end
  end.

(** [s.split(sep)] for a non-empty [sep]. *)
Definition split (sep s : string) : list string := split_from sep 0 EmptyString s.

Definition is_digit (c : ascii) : bool :=
  let n := nat_of_ascii c in (48 <=? n)%nat && (n <=? 57)%nat.

Fixpoint all_chars (p : ascii -> bool) (s : string) : bool :=
  match s with
  | EmptyString => true
  | String c r => p c && all_chars p r
  end.

(** [s.isdigit()] *)
Definition isdigit (s : string) : bool :=
  match s with
  | EmptyString => false
  | _ => all_chars is_digit s
  end.

(** [str(n)] for an integer. *)
Definition str_of_int (n : Z) : string := NilZero.string_of_int (Z.to_int n).

Definition digit_value (c : ascii) : Z := Z.of_nat (nat_of_ascii c - 48).

(** Value of a run of decimal digits, read after the digits in [acc]. *)
Fixpoint digits_value (acc : Z) (s : string) : Z :=
  match s with
  | EmptyString => acc
  | String c r => digits_value (10 * acc + digit_value c) r
  end.

Definition split_sign (s : string) : bool * string :=
  match s with
  | String "-" r => (true, r)
  | String "+" r => (false, r)
  | _ => (false, s)
  end.

(** [int(s)] for decimal notation: optional blanks around, optional sign,
    digits. [None] is a raised [ValueError]. *)
Definition int_of_str (s : string) : option Z :=
  let '(neg, d) := split_sign (strip s) in
  if isdigit d
  then Some (if neg then - digits_value 0 d else digits_value 0 d)%Z
  else None.

Fixpoint pow10 (n : nat) : positive :=
  match n with
  | O => 1%positive
  | S k => (10 * pow10 k)%positive
  end.

(** [float(s)] for plain decimal notation: optional blanks around,
    optional sign, digits with at most one point and at least one digit.
    The value is the decimal number itself. [None] is a raised
    [ValueError]; exponents, [inf] and [nan] are not modelled. *)
Definition float_of_str (s : string) : option Q :=
  let '(neg, d) := split_sign (strip s) in
  match split "." d with
  | [ip] =>
      if isdigit ip
      then Some (inject_Z (if neg then - digits_value 0 ip else digits_value 0 ip))
      else None
  | [ip; fp] =>
      if all_chars is_digit ip && all_chars is_digit fp
         && negb (String.eqb (ip ++ fp) "")
      then
        let n := digits_value 0 (ip ++ fp) in
        Some (Qmake (if neg then - n else n) (pow10 (String.length fp)))
      else None
  | _ => None
  end.

(** ** dict: insertion-ordered, keyed by strings *)

Definition dict (V : Type) : Type := list (string * V).

Fixpoint dict_get {V : Type} (d : dict V) (k : string) : option V :=
  match d with
  | [] => None
  | (k', v) :: r => if String.eqb k' k then Some v else dict_get r k
  end.

Definition dict_mem {V : Type} (d : dict V) (k : string) : bool :=
  match dict_get d k with Some _ => true | None => false end.

(** [d[k] = v]: an existing key keeps its position, a new key goes last. *)
Fixpoint dict_set {V : Type} (d : dict V) (k : string) (v : V) : dict V :=
  match d with
  | [] => [(k, v)]
  | (k', v') :: r =>
      if String.eqb k' k then (k', v) :: r else (k', v') :: dict_set r k v
  end.

Definition dict_values {V : Type} (d : dict V) : list V := map snd d.

(** [range(a, b)] *)
Definition range (a b : Z) : list Z :=
  map (fun i => (a + Z.of_nat i)%Z) (seq 0 (Z.to_nat (b - a))).

End Py.

(* ================================================================== *)
(** * The network, as an oracle *)
(* ================================================================== *)

Module Net.

(** What a fetched document holds, as far as the code looks at it:
    the breadcrumb of a city page (each entry with the text of its link,
    when it has one), or the rows of a JSON table. *)
Inductive body : Type :=
| Html (breadcrumb : option (list (option string)))
| Json (data : list (list string))
| Malformed.

(** Result of [requests.get(url)]: the request itself fails, or a
    response with a status code comes back. *)
Inductive response : Type :=
| ConnectionError
| Response (status_code : Z) (content : body).

Definition web : Type := string -> response.

(** [response.raise_for_status()] raises for 4xx and 5xx. *)
Definition is_http_error (status_code : Z) : bool :=
  ((400 <=? status_code) && (status_code <? 600))%Z.

End Net.

(* ================================================================== *)
(** * utils/area_converter.py *)
(* ================================================================== *)

Module area_converter.
Import Py Net.

(** Cleaning applied to the query: [replace(' County', '').strip()]. *)
Definition clean_query (county_name : string) : string :=
  strip (replace " County" "" county_name).

(** Cleaning applied to a candidate:
    [name.split(',')[0].replace(' County', '').strip()]. *)
Definition clean_candidate (name : string) : string :=
  strip (replace " County" "" (hd "" (split "," name))).

Definition exact_match (county_name clean_name : string) : bool :=
  String.eqb (lower county_name) (lower clean_name).

Definition partial_match (county_name clean_name : string) : bool :=
  contains (lower county_name) (lower clean_name)
  || contains (lower clean_name) (lower county_name).

(** The [for county in counties] loop; [county_name] is already cleaned.
    [Raise tt] is an [IndexError] on a row that is too short. *)
Fixpoint match_county (county_name : string) (counties : list (list string))
  : outcome unit string :=
  match counties with
  | [] => Return "000"
  | county :: rest =>
      match nth_error county 0 with
      | None => Raise tt
      | Some name =>
          let clean_name := clean_candidate name in
          if exact_match county_name clean_name then
            match nth_error county 2 with
            | Some code => Return code
            | None => Raise tt
            end
          else if partial_match county_name clean_name then
            match nth_error county 2 with
            | Some code => Return code
            | None => Raise tt
            end
          else match_county county_name rest
      end
  end.

Definition county_list_url (state_fips census_api_key : string) : string :=
  "https://api.census.gov/data/2010/dec/sf1?get=NAME&for=county:*&in=state:"
  ++ state_fips ++ "&key=" ++ census_api_key.

(** Body of the [try] block of [get_county_fips_code]. *)
Definition county_fips_lookup (w : web) (state_fips county_name census_api_key : string)
  : outcome unit string :=
  let county_name := clean_query county_name in
  match w (county_list_url state_fips census_api_key) with
  | ConnectionError => Raise tt
  | Response status_code content =>
      if is_http_error status_code then Raise tt
      else
        match content with
        | Json (headers :: counties) => match_county county_name counties
        | _ => Raise tt
        end
  end.

(** [get_county_fips_code]: the [except Exception] arm returns ['000']. *)
Definition get_county_fips_code (w : web) (state_fips county_name census_api_key : string)
  : string :=
  match county_fips_lookup w state_fips county_name census_api_key with
  | Return code => code
  | Raise _ => "000"
  end.

Definition state_mapping : dict string :=
  [ ("AL", "Alabama"); ("AK", "Alaska"); ("AZ", "Arizona"); ("AR", "Arkansas");
    ("CA", "California"); ("CO", "Colorado"); ("CT", "Connecticut"); ("DE", "Delaware");
    ("FL", "Florida"); ("GA", "Georgia"); ("HI", "Hawaii"); ("ID", "Idaho");
    ("IL", "Illinois"); ("IN", "Indiana"); ("IA", "Iowa"); ("KS", "Kansas");
    ("KY", "Kentucky"); ("LA", "Louisiana"); ("ME", "Maine"); ("MD", "Maryland");
    ("MA", "Massachusetts"); ("MI", "Michigan"); ("MN", "Minnesota"); ("MS", "Mississippi");
    ("MO", "Missouri"); ("MT", "Montana"); ("NE", "Nebraska"); ("NV", "Nevada");
    ("NH", "New-Hampshire"); ("NJ", "New-Jersey"); ("NM", "New-Mexico"); ("NY", "New-York");
    ("NC", "North-Carolina"); ("ND", "North-Dakota"); ("OH", "Ohio"); ("OK", "Oklahoma");
    ("OR", "Oregon"); ("PA", "Pennsylvania"); ("RI", "Rhode-Island"); ("SC", "South-Carolina");
    ("SD", "South-Dakota"); ("TN", "Tennessee"); ("TX", "Texas"); ("UT", "Utah");
    ("VT", "Vermont"); ("VA", "Virginia"); ("WA", "Washington"); ("WV", "West-Virginia");
    ("WI", "Wisconsin"); ("WY", "Wyoming"); ("DC", "District-of-Columbia") ].

Definition state_fips : dict string :=
  [ ("AL", "01"); ("AK", "02"); ("AZ", "04"); ("AR", "05"); ("CA", "06"); ("CO", "08");
    ("CT", "09"); ("DE", "10"); ("FL", "12"); ("GA", "13"); ("HI", "15"); ("ID", "16");
    ("IL", "17"); ("IN", "18"); ("IA", "19"); ("KS", "20"); ("KY", "21"); ("LA", "22");
    ("ME", "23"); ("MD", "24"); ("MA", "25"); ("MI", "26"); ("MN", "27"); ("MS", "28");
    ("MO", "29"); ("MT", "30"); ("NE", "31"); ("NV", "32"); ("NH", "33"); ("NJ", "34");
    ("NM", "35"); ("NY", "36"); ("NC", "37"); ("ND", "38"); ("OH", "39"); ("OK", "40");
    ("OR", "41"); ("PA", "42"); ("RI", "44"); ("SC", "45"); ("SD", "46"); ("TN", "47");
    ("TX", "48"); ("UT", "49"); ("VT", "50"); ("VA", "51"); ("WA", "53"); ("WV", "54");
    ("WI", "55"); ("WY", "56"); ("DC", "11") ].

(** One entry of [target_areas]. *)
Record area_info : Type := mk_area {
  state : string;
  county : string;
  fips_state : string;
  fips_county : string;
  city : string
}.

Inductive scrape_cause : Type :=
| CouldNotFindCountyInfo   (* breadcrumb missing, too short, or without link *)
| RequestException.        (* the request itself failed *)

(** The [ValueError]s that leave [convert_input_to_target_areas]. *)
Inductive ValueError : Type :=
| CityNotFound (city state : string)
| HTTPErrorFor (city state : string) (status_code : Z)
| ErrorScraping (city state : string) (cause : scrape_cause)
| NoValidCities.

Definition census_key : string := "856e29b65185c3bc832572b45af9ff5e93758ce6".

Definition area_id_of (city state : string) : string :=
  replace " " "_" (lower city) ++ "_" ++ lower state.

Definition city_url (city state_name : string) : string :=
  "https://www.city-data.com/city/" ++ replace " " "-" city ++ "-" ++ state_name ++ ".html".

(** The county of a fetched city page: the link text of the third
    breadcrumb entry. *)
Definition county_of_page (content : body) : option string :=
  match content with
  | Html (Some list_items) =>
      match nth_error list_items 2 with
      | Some (Some link_text) => Some (strip link_text)
      | _ => None
      end
  | _ => None
  end.

(** One pass of the [for _, row in input_df.iterrows()] loop. *)
Definition convert_row (w : web) (acc : dict area_info * dict string)
  (row : string * string) : outcome ValueError (dict area_info * dict string) :=
  let '(target_areas, county_mapping) := acc in
  let '(city, state) := row in
  match dict_get state_mapping state with
  | None => Return acc                              (* print ERROR; continue *)
  | Some state_name =>
      let state_fips_code :=
        match dict_get state_fips state with Some c => c | None => "00" end in
      let area_id := area_id_of city state in
      match w (city_url city state_name) with
      | ConnectionError => Raise (ErrorScraping city state RequestException)
      | Response status_code content =>
          if is_http_error status_code then
            if (status_code =? 404)%Z then Raise (CityNotFound city state)
            else Raise (HTTPErrorFor city state status_code)
          else
            match county_of_page content with
            | None => Raise (ErrorScraping city state CouldNotFindCountyInfo)
            | Some county_name =>
                let county_fips_code :=
                  get_county_fips_code w state_fips_code county_name census_key in
                Return
                  (dict_set target_areas area_id
                     (mk_area state county_name state_fips_code county_fips_code city),
                   dict_set county_mapping county_name city)
            end
      end
  end.

Fixpoint convert_rows (w : web) (acc : dict area_info * dict string)
  (rows : list (string * string))
  : outcome ValueError (dict area_info * dict string) :=
  match rows with
  | [] => Return acc
  | row :: rest => bind (convert_row w acc row) (fun acc' => convert_rows w acc' rest)
  end.

(** [convert_input_to_target_areas(input_df)]; a row is (City, State). *)
Definition convert_input_to_target_areas (w : web) (input_df : list (string * string))
  : outcome ValueError (dict area_info * dict string) :=
  bind (convert_rows w ([], []) input_df) (fun acc =>
    match fst acc with
    | [] => Raise NoValidCities
    | _ => Return acc
    end).

End area_converter.

(* ================================================================== *)
(** * pandas and numpy primitives *)
(* ================================================================== *)

Module Pandas.

(** [DataFrame.sort_values]: rows are reordered by a comparison
    ("comes no later than") on the sorting column. The algorithm is the
    library's; the code under study only relies on what it returns. *)
Definition sorter : Type := forall A : Type, (A -> A -> bool) -> list A -> list A.

Fixpoint insert_sorted {A : Type} (leb : A -> A -> bool) (x : A) (l : list A)
  : list A :=
  match l with
  | [] => [x]
  | h :: t => if leb x h then x :: l else h :: insert_sorted leb x t
  end.

(** A sorter that keeps rows with equal keys in their order. *)
Definition insertion_sort : sorter :=
  fun A leb l => fold_right (insert_sorted leb) [] l.

Definition total {A : Type} (leb : A -> A -> bool) : Prop :=
  forall a b, leb a b = true \/ leb b a = true.

Definition transitive {A : Type} (leb : A -> A -> bool) : Prop :=
  forall a b c, leb a b = true -> leb b c = true -> leb a c = true.

(** What every sorting kind of the library guarantees: the rows come back
    rearranged and in order. *)
Record sort_contract (sort_values : sorter) : Prop := {
  sort_perm : forall (A : Type) (leb : A -> A -> bool) (l : list A),
      Permutation (sort_values A leb l) l;
  sort_sorted : forall (A : Type) (leb : A -> A -> bool) (l : list A),
      total leb -> transitive leb ->
      StronglySorted (fun a b => leb a b = true) (sort_values A leb l)
}.

(** Rows [b] with the same key as [a]. *)
Definition same_key {A : Type} (leb : A -> A -> bool) (a b : A) : bool :=
  leb a b && leb b a.

(** What only the stable kinds guarantee: rows with equal keys keep the
    order they have in the frame. *)
Definition stable (sort_values : sorter) : Prop :=
  forall (A : Type) (leb : A -> A -> bool) (l : list A) (a : A),
    total leb -> transitive leb ->
    filter (same_key leb a) (sort_values A leb l) = filter (same_key leb a) l.

(** Key of [groupby(['City', 'State', 'County'])]. *)
Definition group_key : Type := string * string * string.

Definition key_compare (a b : group_key) : comparison :=
  let '(a1, a2, a3) := a in
  let '(b1, b2, b3) := b in
  match String.compare a1 b1 with
  | Eq => match String.compare a2 b2 with
          | Eq => String.compare a3 b3
          | c => c
          end
  | c => c
  end.

Definition key_eqb (a b : group_key) : bool :=
  match key_compare a b with Eq => true | _ => false end.

Fixpoint insert_key (k : group_key) (l : list group_key) : list group_key :=
  match l with
  | [] => [k]
  | h :: t =>
      match key_compare k h with
      | Lt => k :: l
      | Eq => l
      | Gt => h :: insert_key k t
      end
  end.

(** [df.groupby(keys)]: the groups in ascending key order, each with its
    rows in frame order. *)
Definition groupby {A : Type} (key : A -> group_key) (df : list A)
  : list (group_key * list A) :=
  let keys := fold_left (fun acc r => insert_key (key r) acc) df [] in
  map (fun k => (k, filter (fun r => key_eqb (key r) k) df)) keys.

(** [len(column.unique())] for an integer column. *)
Definition n_unique (l : list Z) : nat := List.length (nodup Z.eq_dec l).

(** [column.max()] for an integer column of a non-empty frame. *)
Definition column_max (l : list Z) : Z :=
  match l with
  | [] => 0%Z
  | h :: t => fold_left Z.max t h
  end.

(** [x ** y] on floats, for a positive exponent: the real power for a
    positive base and 0 for the base 0. Floats are read as real numbers;
    rounding, infinities and NaN (which numpy yields for a negative base)
    are not modelled. *)
Definition float_pow (x y : R) : R :=
  if Rlt_dec 0 x then Rpower x y else 0%R.

Definition Rleb (x y : R) : bool := if Rle_dec x y then true else false.

(** ** Frames with named columns *)

Inductive cell : Type :=
| NaN
| Str (s : string)
| Num (q : Q).

Definition cell_eqb (a b : cell) : bool :=
  match a, b with
  | NaN, NaN => true
  | Str x, Str y => String.eqb x y
  | Num x, Num y => Qeq_bool x y
  | _, _ => false
  end.

Definition isna (c : cell) : bool :=
  match c with NaN => true | _ => false end.

(** Rows are aligned with [columns]. *)
Record DataFrame : Type := mk_frame {
  columns : list string;
  rows : list (list cell)
}.

(** [pd.DataFrame()] *)
Definition empty_frame : DataFrame := mk_frame [] [].

(** [df.empty] *)
Definition is_empty (df : DataFrame) : bool :=
  match columns df, rows df with
  | [], _ => true
  | _, [] => true
  | _, _ => false
  end.

Definition has_column (df : DataFrame) (col : string) : bool :=
  existsb (String.eqb col) (columns df).

(** The cell of [row] under the first column named [col]. *)
Fixpoint row_get (cols : list string) (row : list cell) (col : string) : cell :=
  match cols, row with
  | c :: cols', v :: row' => if String.eqb c col then v else row_get cols' row' col
  | _, _ => NaN
  end.

(** [df[cols]] for columns that exist. *)
Definition select (cols : list string) (df : DataFrame) : DataFrame :=
  mk_frame cols (map (fun r => map (row_get (columns df) r) cols) (rows df)).

(** [pd.DataFrame(records)] for a list of dictionaries of strings: the
    columns are the keys in order of first appearance, a missing key is NaN. *)
Definition frame_of_dicts (records : list (Py.dict string)) : DataFrame :=
  let cols :=
    fold_left
      (fun cols d =>
         fold_left (fun cols kv =>
                      if existsb (String.eqb (fst kv)) cols then cols
                      else cols ++ [fst kv]) d cols)
      records [] in
  mk_frame cols
    (map (fun d => map (fun c => match Py.dict_get d c with
                                 | Some v => Str v
                                 | None => NaN
                                 end) cols) records).

(** [df.fillna(value)] *)
Definition fillna (value : string) (df : DataFrame) : DataFrame :=
  mk_frame (columns df)
    (map (map (fun c => if isna c then Str value else c)) (rows df)).

(** [df.dropna()]: rows without any NaN. *)
Definition dropna (df : DataFrame) : DataFrame :=
  mk_frame (columns df) (filter (fun r => negb (existsb isna r)) (rows df)).

(** Mask of [df.duplicated(subset, keep='last')]: a row is marked when a
    later row agrees with it on the columns of [subset]. *)
Fixpoint duplicated_last (cols subset : list string) (l : list (list cell))
  : list bool :=
  match l with
  | [] => []
  | r :: rest =>
      existsb (fun r' => forallb (fun c => cell_eqb (row_get cols r c)
                                                    (row_get cols r' c)) subset)
              rest
      :: duplicated_last cols subset rest
  end.

(** [df[mask]] *)
Fixpoint mask_rows {A : Type} (l : list A) (mask : list bool) : list A :=
  match l, mask with
  | r :: l', m :: mask' => if m then r :: mask_rows l' mask' else mask_rows l' mask'
  | _, _ => []
  end.

(** Order of keys when a join sorts them: strings by code point, NaN last. *)
Definition cell_leb (a b : cell) : bool :=
  match a, b with
  | _, NaN => true
  | NaN, _ => false
  | Str x, Str y => String.leb x y
  | Num x, Num y => Qle_bool x y
  | Num _, Str _ => true
  | Str _, Num _ => false
  end.

Fixpoint insert_cell (k : cell) (l : list cell) : list cell :=
  match l with
  | [] => [k]
  | h :: t =>
      if cell_eqb k h then l
      else if cell_leb k h then k :: l
      else h :: insert_cell k t
  end.

(** Names of the columns of a merge: a column other than the key that
    both sides have gets a suffix. *)
Definition merged_columns (key : string) (left right : list string) : list string :=
  map (fun c => if negb (String.eqb c key) && existsb (String.eqb c) right
                then (c ++ "_x")%string else c) left
  ++ map (fun c => if existsb (String.eqb c) left then (c ++ "_y")%string else c)
         (filter (fun c => negb (String.eqb c key)) right).

(** Cells of a right row without its key cell. *)
Fixpoint drop_key (key : string) (cols : list string) (row : list cell) : list cell :=
  match cols, row with
  | c :: cols', v :: row' =>
      if String.eqb c key then drop_key key cols' row'
      else v :: drop_key key cols' row'
  | _, _ => []
  end.

Definition right_matches (key : string) (right : DataFrame) (k : cell)
  : list (list cell) :=
  filter (fun r => cell_eqb (row_get (columns right) r key) k) (rows right).

(** The rows that a left row yields in a join: one for each right row with
    its key, or one padded with NaN when there is none. *)
Definition join_left_row (key : string) (left right : DataFrame) (l : list cell)
  : list (list cell) :=
  match right_matches key right (row_get (columns left) l key) with
  | [] => [l ++ map (fun _ => NaN)
                    (filter (fun c => negb (String.eqb c key)) (columns right))]
  | ms => map (fun r => l ++ drop_key key (columns right) r) ms
  end.

(** [left.merge(right, on=key, how='left')]: left rows in their order. *)
Definition merge_left (key : string) (left right : DataFrame) : DataFrame :=
  mk_frame (merged_columns key (columns left) (columns right))
           (flat_map (join_left_row key left right) (rows left)).

(** The row that a right row without partner yields in an outer join. *)
Definition join_right_only (key : string) (left right : DataFrame) (r : list cell)
  : list cell :=
  map (fun c => if String.eqb c key then row_get (columns right) r key else NaN)
      (columns left)
  ++ drop_key key (columns right) r.

(** [left.merge(right, on=key, how='outer')]: the union of the keys, in
    ascending key order. *)
Definition merge_outer (key : string) (left right : DataFrame) : DataFrame :=
  let left_keys := map (fun l => row_get (columns left) l key) (rows left) in
  let right_keys := map (fun r => row_get (columns right) r key) (rows right) in
  let keys := fold_left (fun acc k => insert_cell k acc) (left_keys ++ right_keys) [] in
  mk_frame (merged_columns key (columns left) (columns right))
    (flat_map
       (fun k =>
          if existsb (cell_eqb k) left_keys then
            flat_map (join_left_row key left right)
                     (filter (fun l => cell_eqb (row_get (columns left) l key) k)
                             (rows left))
          else
            map (join_right_only key left right) (right_matches key right k))
       keys).

End Pandas.

(** One (location, year) observation; [metrics] holds the metric columns. *)
Record TimeSeriesRecord (M : Type) : Type := mk_record {
  Year : Z;
  City : string;
  State : string;
  County : string;
  metrics : M
}.
Arguments mk_record {M} _ _ _ _ _.
Arguments Year {M} _.
Arguments City {M} _.
Arguments State {M} _.
Arguments County {M} _.
Arguments metrics {M} _.

Definition location {M : Type} (r : TimeSeriesRecord M) : Pandas.group_key :=
  (City r, State r, County r).

(* ================================================================== *)
(** * data_collection/census_data.py *)
(* ================================================================== *)

Module census_data.
Import Py Net Pandas.
Import area_converter.

Abbreviation PopulationRecord := (TimeSeriesRecord (option Z)) (only parsing).
Abbreviation AgeRecord := (TimeSeriesRecord (option Q)) (only parsing).
Definition Population (r : PopulationRecord) : option Z := metrics r.
Definition Median_Age (r : AgeRecord) : option Q := metrics r.

Definition variables : string := "B01003_001E,B01002_001E".

Definition acs_url (year : Z) (area : area_info) (census_api_key : string) : string :=
  "https://api.census.gov/data/" ++ str_of_int year ++ "/acs/acs5?get=" ++ variables
  ++ "&for=county:" ++ fips_county area ++ "&in=state:" ++ fips_state area
  ++ "&key=" ++ census_api_key.

(** [dict(zip(headers, values))] *)
Definition dict_zip (headers values : list string) : dict string :=
  fold_left (fun d kv => dict_set d (fst kv) (snd kv)) (combine headers values) [].

(** The guarded request of one (area, year): [Some (population, median_age)]
    when the [try] block runs to its end, [None] when anything in it
    raises. *)
Definition read_acs (w : web) (url : string) : option (Z * Q) :=
  match w url with
  | ConnectionError => None
  | Response status_code content =>
      if is_http_error status_code then None
      else
        match content with
        | Json (headers :: values :: _) =>
            let area_data := dict_zip headers values in
            match dict_get area_data "B01003_001E" with
            | None => None
            | Some p =>
                match int_of_str p with
                | None => None
                | Some population =>
                    match dict_get area_data "B01002_001E" with
                    | None => None
                    | Some m =>
                        match float_of_str m with
                        | None => None
                        | Some median_age => Some (population, median_age)
                        end
                    end
                end
            end
        | _ => None
        end
  end.

Definition has_valid_fips (area : area_info) : bool :=
  negb (String.eqb (fips_county area) "000" || String.eqb (fips_county area) "").

Definition collected : Type := list PopulationRecord * list AgeRecord.

(** Body of [for area_id, area_info in target_areas.items()]. *)
Definition collect_area (w : web) (census_api_key : string) (year : Z)
  (acc : collected) (area : area_info) : collected :=
  let '(all_population_data, all_age_data) := acc in
  if negb (has_valid_fips area) then acc
  else
    match read_acs w (acs_url year area census_api_key) with
    | Some (population, median_age) =>
        (all_population_data ++
           [mk_record year (city area) (state area) (county area) (Some population)],
         all_age_data ++
           [mk_record year (city area) (state area) (county area) (Some median_age)])
    | None =>
        (all_population_data ++
           [mk_record year (city area) (state area) (county area) None],
         all_age_data ++
           [mk_record year (city area) (state area) (county area) None])
    end.

(** Body of [for year in range(start_year, end_year + 1)]. *)
Definition collect_year (w : web) (census_api_key : string)
  (target_areas : dict area_info) (acc : collected) (year : Z) : collected :=
  if (year <? 2009)%Z then acc
  else fold_left (collect_area w census_api_key year) (dict_values target_areas) acc.

(** The two lists [all_population_data] and [all_age_data] after the loops. *)
Definition collect (w : web) (census_api_key : string) (start_year end_year : Z)
  (target_areas : dict area_info) : collected :=
  fold_left (collect_year w census_api_key target_areas)
    (range start_year (end_year + 1)) ([], []).

(** One row of [growth_analysis]. *)
Record GrowthRow : Type := mk_growth {
  g_City : string;
  g_State : string;
  g_County : string;
  Start_Population : Z;
  End_Population : Z;
  Total_Growth_Pct : R;
  CAGR_Pct : R;
  Years_Analyzed : Z
}.

Definition is_observed {M : Type} (r : TimeSeriesRecord (option M)) : bool :=
  match metrics r with Some _ => true | None => false end.

Definition year_leb {M : Type} (a b : TimeSeriesRecord M) : bool :=
  (Year a <=? Year b)%Z.

(** Body of the loop over the groups: the growth row of one location, or
    nothing when the location is passed over. *)
Definition location_growth (sort_values : sorter) (key : group_key)
  (location_data : list PopulationRecord) : option GrowthRow :=
  let '(city, state, county) := key in
  let location_data := sort_values _ year_leb location_data in
  let location_data := filter is_observed location_data in
  if (2 <=? List.length location_data)%nat then
    match hd_error location_data, last (map Some location_data) None with
    | Some first, Some final =>
        match Population first, Population final with
        | Some start_pop, Some end_pop =>
            let start_yr := Year first in
            let end_yr := Year final in
            let years_diff := (end_yr - start_yr)%Z in
            if ((0 <? years_diff) && (0 <? start_pop))%Z then
              let cagr :=
                ((float_pow (IZR end_pop / IZR start_pop) (1 / IZR years_diff) - 1)
                 * 100)%R in
              let total_growth :=
                ((IZR end_pop - IZR start_pop) / IZR start_pop * 100)%R in
              Some (mk_growth city state county start_pop end_pop
                      total_growth cagr years_diff)
            else None
        | _, _ => None
        end
    | _, _ => None
    end
  else None.

Fixpoint somes {A : Type} (l : list (option A)) : list A :=
  match l with
  | [] => []
  | Some a :: r => a :: somes r
  | None :: r => somes r
  end.

(** The list [growth_analysis], in the order of the groups. *)
Definition growth_analysis (sort_values : sorter) (population_df : list PopulationRecord)
  : list GrowthRow :=
  somes (map (fun g => location_growth sort_values (fst g) (snd g))
             (groupby location population_df)).

Definition cagr_desc (a b : GrowthRow) : bool := Rleb (CAGR_Pct b) (CAGR_Pct a).

(** [growth_df.sort_values('CAGR_Pct', ascending=False).iloc[0]] *)
Definition strongest_market (sort_values : sorter) (growth : list GrowthRow)
  : option GrowthRow :=
  hd_error (sort_values _ cagr_desc growth).

Record strongest_market_info : Type := mk_info {
  info_city : string;
  info_county : string;
  info_cagr : R;
  info_total_growth : R
}.

Definition info_of (r : GrowthRow) : strongest_market_info :=
  mk_info (g_City r) (g_County r) (CAGR_Pct r) (Total_Growth_Pct r).

(** The trend block: runs when the frame has rows and more than one year. *)
Definition population_trend (sort_values : sorter) (population_df : list PopulationRecord)
  : option strongest_market_info :=
  if negb (Nat.eqb (List.length population_df) 0)
     && (1 <? n_unique (map Year population_df))%nat
  then option_map info_of (strongest_market sort_values
                             (growth_analysis sort_values population_df))
  else None.

Definition latest {M : Type} (df : list (TimeSeriesRecord M)) (latest_year : Z)
  : list (string * M) :=
  map (fun r => (County r, metrics r))
      (filter (fun r => (Year r =? latest_year)%Z) df).

(** [get_census_data]: the latest-year slices (County, Population) and
    (County, Median Age), and the strongest market. *)
Definition get_census_data (sort_values : sorter) (w : web) (census_api_key : string)
  (start_year end_year : Z) (target_areas : dict area_info)
  : list (string * option Z) * list (string * option Q) * option strongest_market_info :=
  let '(population_df, age_df) :=
    collect w census_api_key start_year end_year target_areas in
  let strongest := population_trend sort_values population_df in
  match population_df with
  | [] => ([], [], strongest)
  | _ =>
      let latest_year := column_max (map Year population_df) in
      (latest population_df latest_year, latest age_df latest_year, strongest)
  end.

End census_data.

(* ================================================================== *)
(** * data_collection/bls_data.py *)
(* ================================================================== *)

Module bls_data.
Import Py Pandas.
Import area_converter.

(** Metric columns of an employment record: (unemployment_rate, employed). *)
Abbreviation EmploymentRecord := (TimeSeriesRecord (option Q * option Q)) (only parsing).
Definition unemployment_rate (r : EmploymentRecord) : option Q := fst (metrics r).
Definition employed (r : EmploymentRecord) : option Q := snd (metrics r).

(** One entry of [Results.series]: its id and the values of its data
    points, as the API writes them. *)
Record series : Type := mk_series { seriesID : string; data : list string }.

(** Result of the POST of one batch for one year. *)
Inductive bls_response : Type :=
| RequestFailed
| Results (status : string) (series_list : list series).

Definition bls_api : Type := list string -> Z -> bls_response.

Inductive data_type : Type := rate_series | employed_series.

Definition location_key_of (area : area_info) : string :=
  city area ++ ", " ++ state area ++ " (" ++ county area ++ ")".

(** The dictionary [bls_area_codes]: location key to area code. *)
Definition bls_area_codes (target_areas : dict area_info) : dict string :=
  fold_left
    (fun codes area =>
       if negb (census_data.has_valid_fips area) then codes
       else dict_set codes (location_key_of area) (fips_state area ++ fips_county area)%string)
    (dict_values target_areas) [].

(** The list [series_ids] and the dictionary [series_to_location] of one year. *)
Definition year_series (codes : dict string)
  : list string * dict (string * data_type) :=
  fold_left
    (fun acc entry =>
       let '(series_ids, series_to_location) := acc in
       let '(location_key, area_code) := entry in
       let unemp_series := ("LAUCN" ++ area_code ++ "0000000003")%string in
       let emp_series := ("LAUCN" ++ area_code ++ "0000000005")%string in
       (series_ids ++ [unemp_series; emp_series],
        dict_set (dict_set series_to_location unemp_series (location_key, rate_series))
                 emp_series (location_key, employed_series)))
    codes ([], []).

Fixpoint chunks_fuel {A : Type} (fuel : nat) (n : nat) (l : list A) : list (list A) :=
  match fuel, l with
  | S f, _ :: _ => firstn n l :: chunks_fuel f n (skipn n l)
  | _, _ => []
  end.

(** [l[i:i + n] for i in range(0, len(l), n)] *)
Definition chunks {A : Type} (n : nat) (l : list A) : list (list A) :=
  chunks_fuel (List.length l) n l.

Definition batch_size : nat := 50.

Definition set_metric (dt : data_type) (value : Q) (m : option Q * option Q)
  : option Q * option Q :=
  match dt with
  | rate_series => (Some value, snd m)
  | employed_series => (fst m, Some value)
  end.

(** Body of [for series in results...]: fills [year_employment_data];
    [Raise tt] is a value that [float] rejects. *)
Definition read_series (series_to_location : dict (string * data_type))
  (year_employment_data : dict (option Q * option Q)) (s : series)
  : outcome unit (dict (option Q * option Q)) :=
  match dict_get series_to_location (seriesID s) with
  | None => Return year_employment_data
  | Some (location_key, dt) =>
      match data s with
      | [] => Return year_employment_data
      | v :: _ =>
          match float_of_str v with
          | None => Raise tt
          | Some value =>
              let current :=
                match dict_get year_employment_data location_key with
                | Some m => m
                | None => (None, None)
                end in
              Return (dict_set year_employment_data location_key
                        (set_metric dt value current))
          end
      end
  end.

Fixpoint read_all_series (series_to_location : dict (string * data_type))
  (year_employment_data : dict (option Q * option Q)) (l : list series)
  : outcome unit (dict (option Q * option Q)) :=
  match l with
  | [] => Return year_employment_data
  | s :: r =>
      bind (read_series series_to_location year_employment_data s)
           (fun d => read_all_series series_to_location d r)
  end.

(** The record of one location key: the key is taken apart again into
    city, state and county. [None] is an [IndexError]. *)
Definition record_of_key (year : Z) (location_key : string)
  (emp_data : option Q * option Q) : option EmploymentRecord :=
  let parts := split " (" location_key in
  let city_state := split ", " (hd "" parts) in
  let city := hd "" city_state in
  match nth_error city_state 1 with
  | None => None
  | Some state =>
      match nth_error parts 1 with
      | None => None
      | Some p =>
          let county := rstrip_with (Ascii.eqb ")") p in
          Some (mk_record year city state county emp_data)
      end
  end.

(** Body of [for location_key, emp_data in year_employment_data.items()];
    an exception ends the loop and keeps what was appended before. *)
Fixpoint append_records (year : Z) (all_employment_data : list EmploymentRecord)
  (items : dict (option Q * option Q)) : list EmploymentRecord :=
  match items with
  | [] => all_employment_data
  | (location_key, emp_data) :: rest =>
      match record_of_key year location_key emp_data with
      | None => all_employment_data
      | Some r => append_records year (all_employment_data ++ [r]) rest
      end
  end.

(** Body of the loop over the batches of one year. *)
Definition collect_batch (api : bls_api) (year : Z)
  (series_to_location : dict (string * data_type))
  (all_employment_data : list EmploymentRecord) (batch_series : list string)
  : list EmploymentRecord :=
  match api batch_series year with
  | RequestFailed => all_employment_data
  | Results status series_list =>
      if String.eqb status "REQUEST_SUCCEEDED" then
        match read_all_series series_to_location [] series_list with
        | Raise _ => all_employment_data
        | Return year_employment_data =>
            append_records year all_employment_data year_employment_data
        end
      else all_employment_data
  end.

Definition collect_year (api : bls_api) (codes : dict string)
  (all_employment_data : list EmploymentRecord) (year : Z) : list EmploymentRecord :=
  let '(series_ids, series_to_location) := year_series codes in
  fold_left (collect_batch api year series_to_location)
            (chunks batch_size series_ids) all_employment_data.

(** The list [all_employment_data] after the loops. *)
Definition collect (api : bls_api) (start_year end_year : Z)
  (target_areas : dict area_info) : list EmploymentRecord :=
  match bls_area_codes target_areas with
  | [] => []
  | codes => fold_left (collect_year api codes) (range start_year (end_year + 1)) []
  end.

(** One row of [employment_analysis]. *)
Record EmploymentRow : Type := mk_employment {
  e_City : string;
  e_State : string;
  e_County : string;
  Start_Employed : Q;
  End_Employed : Q;
  Employment_Growth_Pct : R;
  Employment_CAGR_Pct : R;
  Start_Unemployment_Rate : Q;
  End_Unemployment_Rate : Q;
  Unemployment_Change : R;
  Composite_Score : R;
  Years_Analyzed : Z
}.

Definition both_observed (r : EmploymentRecord) : bool :=
  match employed r, unemployment_rate r with
  | Some _, Some _ => true
  | _, _ => false
  end.

Definition Qpositive (q : Q) : bool := negb (Qle_bool q 0).

(** Body of the loop over the groups of the employment frame. *)
Definition location_employment (sort_values : sorter) (key : group_key)
  (location_data : list EmploymentRecord) : option EmploymentRow :=
  let '(city, state, county) := key in
  let location_data := sort_values _ census_data.year_leb location_data in
  let location_data := filter both_observed location_data in
  if (2 <=? List.length location_data)%nat then
    match hd_error location_data, last (map Some location_data) None with
    | Some first, Some final =>
        match employed first, employed final,
              unemployment_rate first, unemployment_rate final with
        | Some start_employed, Some end_employed,
          Some start_unemployment, Some end_unemployment =>
            let start_yr := Year first in
            let end_yr := Year final in
            let years_diff := (end_yr - start_yr)%Z in
            if (0 <? years_diff)%Z && Qpositive start_employed then
              let employment_growth :=
                ((Q2R end_employed - Q2R start_employed) / Q2R start_employed * 100)%R in
              let employment_cagr :=
                ((float_pow (Q2R end_employed / Q2R start_employed)
                            (1 / IZR years_diff) - 1) * 100)%R in
              let unemployment_change :=
                (Q2R end_unemployment - Q2R start_unemployment)%R in
              let composite_score := (employment_cagr - unemployment_change * 2)%R in
              Some (mk_employment city state county start_employed end_employed
                      employment_growth employment_cagr
                      start_unemployment end_unemployment
                      unemployment_change composite_score years_diff)
            else None
        | _, _, _, _ => None
        end
    | _, _ => None
    end
  else None.

(** The list [employment_analysis], in the order of the groups. *)
Definition employment_analysis (sort_values : sorter)
  (employment_df : list EmploymentRecord) : list EmploymentRow :=
  census_data.somes
    (map (fun g => location_employment sort_values (fst g) (snd g))
         (groupby location employment_df)).

Definition composite_desc (a b : EmploymentRow) : bool :=
  Rleb (Composite_Score b) (Composite_Score a).

(** [employment_analysis_df.sort_values('Composite_Score', ascending=False).iloc[0]] *)
Definition strongest_employment_market (sort_values : sorter)
  (analysis : list EmploymentRow) : option EmploymentRow :=
  hd_error (sort_values _ composite_desc analysis).

Record strongest_employment_info : Type := mk_einfo {
  einfo_city : string;
  einfo_county : string;
  einfo_employment_cagr : R;
  einfo_unemployment_change : R;
  einfo_composite_score : R
}.

Definition einfo_of (r : EmploymentRow) : strongest_employment_info :=
  mk_einfo (e_City r) (e_County r) (Employment_CAGR_Pct r)
           (Unemployment_Change r) (Composite_Score r).

Definition employment_trend (sort_values : sorter)
  (employment_df : list EmploymentRecord) : option strongest_employment_info :=
  if negb (Nat.eqb (List.length employment_df) 0)
     && (1 <? n_unique (map Year employment_df))%nat
  then option_map einfo_of (strongest_employment_market sort_values
                              (employment_analysis sort_values employment_df))
  else None.

(** [get_bls_data]: the latest-year slice (County, unemployment_rate,
    employed) and the strongest employment market. *)
Definition get_bls_data (sort_values : sorter) (api : bls_api)
  (start_year end_year : Z) (target_areas : dict area_info)
  : list (string * (option Q * option Q)) * option strongest_employment_info :=
  let employment_df := collect api start_year end_year target_areas in
  let strongest := employment_trend sort_values employment_df in
  match employment_df with
  | [] => ([], strongest)
  | _ =>
      let latest_year := column_max (map Year employment_df) in
      (census_data.latest employment_df latest_year, strongest)
  end.

End bls_data.

(* ================================================================== *)
(** * data_collection/crime_data.py *)
(* ================================================================== *)

Module crime_data.
Import Py Pandas.

(** A table cell: the text of its first bold element, when it has one,
    and the text of the whole cell. *)
Record td : Type := mk_td { bold : option string; cell_text : string }.

(** The crime table, as far as the parser walks it: the header texts of
    the first row of [thead] (when [thead] and that row exist), the rows
    of [tbody], the cells of the first row of [tfoot]. *)
Record crtable : Type := mk_table {
  thead : option (option (list string));
  tbody : option (list (list td));
  tfoot : option (option (list td))
}.

(** Longest prefix of digits and commas: the match of [([\d,]+)]. *)
Fixpoint count_prefix (s : string) : string :=
  match s with
  | EmptyString => EmptyString
  | String c r =>
      if is_digit c || Ascii.eqb c "," then String c (count_prefix r)
      else EmptyString
  end.

Fixpoint take_until_paren (s : string) : string * bool :=
  match s with
  | EmptyString => (EmptyString, false)
  | String c r =>
      if Ascii.eqb c ")" then (EmptyString, true)
      else let '(inner, closed) := take_until_paren r in (String c inner, closed)
  end.

(** First group of [\(([^)]+)\)] in [s]. *)
Fixpoint rate_search (s : string) : option string :=
  match s with
  | EmptyString => None
  | String c r =>
      if Ascii.eqb c "(" then
        match take_until_paren r with
        | (String a inner, true) => Some (String a inner)
        | _ => rate_search r
        end
      else rate_search r
  end.

(** Digits with a comma before each group of three: [f"{n:,}"]. *)
Fixpoint group_thousands (digits : string) : string :=
  match digits with
  | EmptyString => EmptyString
  | String c r =>
      if ((String.length r mod 3 =? 0) && (0 <? String.length r))%nat
      then String c ("," ++ group_thousands r)
      else String c (group_thousands r)
  end.

Definition format_count (raw_count : Z) : string :=
  group_thousands (str_of_int raw_count).

(** The value stored for a non-empty cell text. *)
Definition format_cell (cell_text : string) : string :=
  let count_str :=
    match count_prefix cell_text with
    | EmptyString => "0"
    | m => replace "," "" m
    end in
  let raw_count :=
    match int_of_str count_str with Some n => n | None => 0%Z end in
  match rate_search cell_text with
  | Some rate_per_100k => format_count raw_count ++ " (" ++ rate_per_100k ++ ")"
  | None => format_count raw_count
  end.

(** [for i, cell in enumerate(cells[1:], 1)]: fills the year columns of a
    row; [value_of] gives the stored value of a cell text. *)
Fixpoint fill_years (value_of : string -> string) (headers : list string)
  (i : nat) (cells : list td) (row_data : dict string) : dict string :=
  match cells with
  | [] => row_data
  | cell :: rest =>
      let row_data :=
        match nth_error headers i with
        | Some year => dict_set row_data year (value_of (strip (cell_text cell)))
        | None => row_data
        end in
      fill_years value_of headers (S i) rest row_data
  end.

Definition body_value (cell_text : string) : string :=
  if String.eqb cell_text "" then "0" else format_cell cell_text.

Definition footer_value (value : string) : string :=
  if String.eqb value "" then "Not Found" else value.

(** One pass of [for row in rows]. *)
Definition body_row (city_name : string) (headers : list string)
  (crime_data : list (dict string)) (cells : list td) : list (dict string) :=
  if (2 <=? List.length cells)%nat then
    match cells with
    | first :: others =>
        match bold first with
        | None => crime_data
        | Some b =>
            let crime_type := strip b in
            if String.eqb crime_type "City-Data.com crime index" then crime_data
            else
              crime_data ++
                [fill_years body_value headers 1 others
                   [("City", city_name); ("Crime_Type", crime_type)]]
        end
    | [] => crime_data
    end
  else crime_data.

Definition is_crime_index (d : dict string) : bool :=
  match dict_get d "Crime_Type" with
  | Some t => String.eqb t "Crime Index"
  | None => false
  end.

(** The footer step: adds the Crime Index row unless one is there. *)
Definition footer_row (city_name : string) (headers : list string)
  (footer : option (option (list td))) (crime_data : list (dict string))
  : list (dict string) :=
  match footer with
  | Some (Some cells) =>
      if (2 <=? List.length cells)%nat then
        if negb (existsb is_crime_index crime_data) then
          crime_data ++
            [fill_years footer_value headers 1 (tl cells)
               [("City", city_name); ("Crime_Type", "Crime Index")]]
        else crime_data
      else crime_data
  | _ => crime_data
  end.

(** The list [crime_data] when the frame is built. *)
Definition collect_rows (city_name : string) (headers : list string)
  (body : list (list td)) (footer : option (option (list td)))
  : list (dict string) :=
  footer_row city_name headers footer
    (fold_left (body_row city_name headers) body []).

Definition is_index_cell (c : cell) : bool := cell_eqb c (Str "Crime Index").

(** The frame made of [crime_data]: the columns that are kept, the rows
    left after the duplicate Crime Index rows are removed, NaN filled. *)
Definition frame_of_rows (crime_data : list (dict string)) : DataFrame :=
  let df := frame_of_dicts crime_data in
  if is_empty df then df
  else
    let year_cols := filter isdigit (columns df) in
    let keep_cols := "City" :: "Crime_Type" :: year_cols in
    let df := select (filter (fun c => has_column df c) keep_cols) df in
    let dup := duplicated_last (columns df) ["City"; "Crime_Type"] (rows df) in
    let is_index :=
      map (fun r => is_index_cell (row_get (columns df) r "Crime_Type")) (rows df) in
    let mask := map (fun p => negb (fst p && snd p)) (combine dup is_index) in
    fillna "Not Found" (mk_frame (columns df) (mask_rows (rows df) mask)).

(** [parse_crime_table(crtable, city_name)]: [Return None] is the result
    [None]; [Raise tt] is the [AttributeError] met when [thead] has no row. *)
Definition parse_crime_table (crtable : option crtable) (city_name : string)
  : outcome unit (option DataFrame) :=
  match crtable with
  | None => Return None
  | Some t =>
      match thead t with
      | None => Return None
      | Some None => Raise tt
      | Some (Some ths) =>
          let headers := map strip ths in
          match tbody t with
          | None => Return None
          | Some body =>
              Return (Some (frame_of_rows (collect_rows city_name headers body (tfoot t))))
          end
      end
  end.

End crime_data.

(* ================================================================== *)
(** * analysis/data_analysis.py *)
(* ================================================================== *)

Module data_analysis.
Import Py Pandas.
Import area_converter.

Inductive error : Type :=
| KeyError (column : string)     (* a column that the frame does not have *)
| AttributeError.                (* [lower] on a value that is not a string *)

(** [df[cols]], raising on the first column that is missing. *)
Definition get_columns (cols : list string) (df : DataFrame)
  : outcome error DataFrame :=
  match find (fun c => negb (has_column df c)) cols with
  | Some c => Raise (KeyError c)
  | None => Return (select cols df)
  end.

(** [left.merge(right, on='County', how=...)], raising when a side has no
    County column. *)
Definition merge_on_county (how : string -> DataFrame -> DataFrame -> DataFrame)
  (left right : DataFrame) : outcome error DataFrame :=
  if has_column left "County" && has_column right "County"
  then Return (how "County" left right)
  else Raise (KeyError "County").

(** "Add population data" *)
Definition add_population (population_df : DataFrame) : outcome error DataFrame :=
  if is_empty population_df then Return empty_frame
  else get_columns ["County"; "Population"] population_df.

(** "Add age data" *)
Definition add_age (demographic_data age_df : DataFrame) : outcome error DataFrame :=
  if is_empty age_df then Return demographic_data
  else if is_empty demographic_data then get_columns ["County"; "Median Age"] age_df
  else merge_on_county merge_outer demographic_data age_df.

(** "Add employment data" *)
Definition add_employment (demographic_data : DataFrame)
  (employment_df : option DataFrame) : outcome error DataFrame :=
  match employment_df with
  | None => Return demographic_data
  | Some employment_df =>
      if is_empty employment_df then Return demographic_data
      else if is_empty demographic_data then Return employment_df
      else merge_on_county merge_outer demographic_data employment_df
  end.

(** The columns taken for year columns. *)
Definition year_columns (crime_index_data : DataFrame) : list string :=
  filter (fun col => endswith "_count" col && negb (String.eqb col "Crime_Type"))
         (columns crime_index_data).

(** [sorted(year_columns)[-1]]: the largest name in string order. *)
Definition latest_year_col (year_columns : list string) : string :=
  match year_columns with
  | [] => ""
  | c :: rest => fold_left (fun m c => if String.leb m c then c else m) rest c
  end.

(** The dictionary [city_to_county_mapping]. *)
Definition city_to_county_mapping (target_areas : dict area_info) : dict string :=
  fold_left (fun m area => dict_set m (city area) (county area))
            (dict_values target_areas) [].

Definition city_matches (x : string) (entry : string * string) : bool :=
  contains (lower (fst entry)) (lower x) || contains (lower x) (lower (fst entry)).

(** The county given to a city of the crime table: that of the first
    entry of the mapping whose city contains it or is contained in it,
    and the city text itself when there is none. *)
Definition county_of_city (mapping : dict string) (x : string) : string :=
  match find (city_matches x) mapping with
  | Some (_, county) => county
  | None => x
  end.

(** The frame [crime_summary[['County', 'Crime_Index']]] built from the
    rows (City, Crime_Index) that are left after [dropna]. *)
Fixpoint with_county (mapping : dict string) (summary : list (list cell))
  : outcome error (list (list cell)) :=
  match summary with
  | [] => Return []
  | r :: rest =>
      match r with
      | Str x :: crime_index :: _ =>
          bind (with_county mapping rest) (fun rest' =>
            Return ([Str (county_of_city mapping x); crime_index] :: rest'))
      | _ => Raise AttributeError
      end
  end.

Definition is_crime_index_row (cols : list string) (r : list cell) : bool :=
  cell_eqb (row_get cols r "Crime_Type") (Str "Crime Index").

(** "Add crime data if available" *)
Definition add_crime (demographic_data : DataFrame) (crime_df : option DataFrame)
  (target_areas : option (dict area_info)) : outcome error DataFrame :=
  match crime_df, target_areas with
  | Some crime_df, Some target_areas =>
      if is_empty crime_df then Return demographic_data
      else if negb (has_column crime_df "Crime_Type") then Raise (KeyError "Crime_Type")
      else
        let crime_index_data :=
          mk_frame (columns crime_df)
                   (filter (is_crime_index_row (columns crime_df)) (rows crime_df)) in
        if is_empty crime_index_data then Return demographic_data
        else
          match year_columns crime_index_data with
          | [] => Return demographic_data
          | cols =>
              let latest := latest_year_col cols in
              bind (get_columns ["City"; latest] crime_index_data) (fun picked =>
                let crime_summary := dropna (mk_frame ["City"; "Crime_Index"] (rows picked)) in
                let mapping := city_to_county_mapping target_areas in
                bind (with_county mapping (rows crime_summary)) (fun county_rows =>
                  let by_county := mk_frame ["County"; "Crime_Index"] county_rows in
                  if negb (is_empty demographic_data)
                  then merge_on_county merge_left demographic_data by_county
                  else Return by_county))
          end
  | _, _ => Return demographic_data
  end.

(** The merge of the population and age tables. *)
Definition merge_population_age (population_df age_df : DataFrame)
  : outcome error DataFrame :=
  bind (add_population population_df) (fun demographic_data =>
    add_age demographic_data age_df).

(** [analyze_and_visualize_data]: the table it returns. The snapshots,
    the correlation printout and the text report written along the way
    are not part of the model. *)
Definition analyze_and_visualize_data (population_df age_df : DataFrame)
  (employment_df crime_df : option DataFrame)
  (target_areas : option (dict area_info)) : outcome error DataFrame :=
  bind (merge_population_age population_df age_df) (fun demographic_data =>
    bind (add_employment demographic_data employment_df) (fun demographic_data =>
      add_crime demographic_data crime_df target_areas)).

End data_analysis.

(* ================================================================== *)
(** * utils/input_handler.py *)
(* ================================================================== *)

Module input_handler.
Import Py.

(** The text typed is taken for ASCII text, one character per byte: the
    case conversions and the whitespace test below are those of Python on
    the characters below 128. On other characters Python's [upper],
    [lower] and [capitalize] do more (some change the length of the
    string), and the statements about this module are made of ASCII text
    only. *)

Definition is_lower (c : ascii) : bool :=
  let n := nat_of_ascii c in (97 <=? n)%nat && (n <=? 122)%nat.

Definition upper_char (c : ascii) : ascii :=
  if is_lower c then ascii_of_nat (nat_of_ascii c - 32) else c.

(** [s.upper()] of ASCII text: the letters a-z are changed, every other
    character is left as it is. *)
Fixpoint upper (s : string) : string :=
  match s with
  | EmptyString => EmptyString
  | String c r => String (upper_char c) (upper r)
  end.

(** [word.capitalize()] of ASCII text: the first character in upper case,
    the others in lower case. *)
Definition capitalize (word : string) : string :=
  match word with
  | EmptyString => EmptyString
  | String c r => String (upper_char c) (lower r)
  end.

(** Worker of [words]: [cur] is the word read so far. *)
Fixpoint words_from (cur : string) (s : string) : list string :=
  match s with
  | EmptyString => if String.eqb cur "" then [] else [cur]
  | String c r =>
      if is_space c then
        if String.eqb cur "" then words_from "" r else cur :: words_from "" r
      else words_from (cur ++ String c "") r
  end.

(** [s.split()]: the pieces between runs of whitespace, none empty. *)
Definition words (s : string) : list string := words_from "" s.

(** [sep.join(l)] *)
Fixpoint join (sep : string) (l : list string) : string :=
  match l with
  | [] => ""
  | [x] => x
  | x :: r => x ++ sep ++ join sep r
  end.

(** [convert_to_title_case(city_name)] for a string. *)
Definition convert_to_title_case (city_name : string) : string :=
  if String.eqb city_name "" then city_name
  else join " " (map capitalize (words (strip city_name))).

(** [input()] on a closed stream; [int] on a text that it rejects. *)
Inductive error : Type := EOFError | ValueError.

(** The loop that asks for cities: [lines] are the lines still to be
    read; the result holds the (city, state) pairs and the lines left. *)
Fixpoint read_cities (lines : list string) (cities : list (string * string))
  : outcome error (list (string * string) * list string) :=
  match lines with
  | [] => Raise EOFError
  | line :: rest =>
      let city := strip line in
      if String.eqb (lower city) "done" then
        if (List.length cities =? 0)%nat then read_cities rest cities
        else Return (cities, rest)
      else if negb (String.eqb city "") then
        let city := convert_to_title_case city in
        match rest with
        | [] => Raise EOFError
        | line' :: rest' =>
            let state := upper (strip line') in
            read_cities rest' (cities ++ [(city, state)])
        end
      else read_cities rest cities
  end.

(** A loop that asks for a year between [lo] and [hi]. *)
Fixpoint read_year (lo hi : Z) (lines : list string)
  : outcome error (Z * list string) :=
  match lines with
  | [] => Raise EOFError
  | line :: rest =>
      let year := strip line in
      if negb (isdigit year) || negb (String.length year =? 4)%nat
      then read_year lo hi rest
      else
        match int_of_str year with
        | None => Raise ValueError
        | Some year =>
            if ((year <? lo) || (hi <? year))%Z then read_year lo hi rest
            else Return (year, rest)
        end
  end.

(** A row of the frame that [get_user_input] returns. *)
Record input_row : Type := mk_input {
  ID : Z;
  City : string;
  State : string;
  Analysis_Date : string;
  Start_Year : Z;
  End_Year : Z
}.

(** [for i, city_info in enumerate(cities)] from the index [i] on. *)
Fixpoint input_rows (today : string) (start_year end_year : Z) (i : Z)
  (cities : list (string * string)) : list input_row :=
  match cities with
  | [] => []
  | (city, state) :: rest =>
      mk_input (i + 1) city state today start_year end_year
      :: input_rows today start_year end_year (i + 1) rest
  end.

(** [get_user_input()]: [lines] are the lines typed, [current_year] and
    [today] come from the clock. The bytes typed are taken for ASCII
    characters. *)
Definition get_user_input (current_year : Z) (today : string) (lines : list string)
  : outcome error (list input_row) :=
  bind (read_cities lines []) (fun '(cities, lines) =>
    let min_year := 2009%Z in
    let max_year := (current_year - 2)%Z in
    bind (read_year min_year max_year lines) (fun '(start_year, lines) =>
      bind (read_year start_year max_year lines) (fun '(end_year, _) =>
        Return (input_rows today start_year end_year 0 cities)))).

End input_handler.

(* ================================================================== *)
(** * data_collection/crime_data.py: get_state_crime_data *)
(* ================================================================== *)

Module state_crime.
Import Py Pandas.

(** The first link of a table cell: its text and its [href] attribute. *)
Record link : Type := mk_link { link_text : string; href : option string }.

(** A row of the cities table: for each of its cells, the first link of
    the cell when it has one. The population text of the third cell is
    stored by the loop and never read again; it is left out. *)
Definition tr : Type := list (option link).

(** A fetched page, as far as the scraper walks it: the rows of class [rB]
    of the cities table and the crime table, each when the page has such
    a table. [Unreachable] is a request that fails or a status that
    [raise_for_status] rejects. *)
Inductive page : Type :=
| Unreachable
| Page (cities_table : option (list tr)) (crtable : option crime_data.crtable).

Definition site : Type := string -> page.

Definition state_mapping : dict string :=
  [ ("AL", "Alabama"); ("AK", "Alaska"); ("AZ", "Arizona"); ("AR", "Arkansas");
    ("CA", "California"); ("CO", "Colorado"); ("CT", "Connecticut"); ("DE", "Delaware");
    ("FL", "Florida"); ("GA", "Georgia"); ("HI", "Hawaii"); ("ID", "Idaho");
    ("IL", "Illinois"); ("IN", "Indiana"); ("IA", "Iowa"); ("KS", "Kansas");
    ("KY", "Kentucky"); ("LA", "Louisiana"); ("ME", "Maine"); ("MD", "Maryland");
    ("MA", "Massachusetts"); ("MI", "Michigan"); ("MN", "Minnesota"); ("MS", "Mississippi");
    ("MO", "Missouri"); ("MT", "Montana"); ("NE", "Nebraska"); ("NV", "Nevada");
    ("NH", "New-Hampshire"); ("NJ", "New-Jersey"); ("NM", "New-Mexico"); ("NY", "New-York");
    ("NC", "North-Carolina"); ("ND", "North-Dakota"); ("OH", "Ohio"); ("OK", "Oklahoma");
    ("OR", "Oregon"); ("PA", "Pennsylvania"); ("RI", "Rhode-Island"); ("SC", "South-Carolina");
    ("SD", "South-Dakota"); ("TN", "Tennessee"); ("TX", "Texas"); ("UT", "Utah");
    ("VT", "Vermont"); ("VA", "Virginia"); ("WA", "Washington"); ("WV", "West-Virginia");
    ("WI", "Wisconsin"); ("WY", "Wyoming"); ("DC", "District-of-Columbia") ].

(** [column.unique()]: the values in the order of their first appearance. *)
Definition unique (l : list string) : list string :=
  fold_left (fun seen x => if existsb (String.eqb x) seen then seen else seen ++ [x])
            l [].

Definition state_url (state_name : string) : string :=
  "https://www.city-data.com/city/" ++ state_name ++ ".html".

Definition cityUrl : string := "https://www.city-data.com/city/".

(** An entry of [cities_data], with the two fields that are read later. *)
Record city_info : Type := mk_city { city_name : string; detail_url : string }.

(** One pass of [for i, row in enumerate(rows)]. *)
Definition city_of_row (cities_data : list city_info) (cells : tr) : list city_info :=
  if (3 <=? List.length cells)%nat then
    match nth_error cells 1 with
    | Some (Some city_link) =>
        let city_href := match href city_link with Some h => h | None => "" end in
        cities_data ++
          [mk_city (strip (link_text city_link))
                   (if String.eqb city_href "" then "" else cityUrl ++ city_href)]
    | _ => cities_data
    end
  else cities_data.

(** The test of the filter: the listed name without the state suffix,
    stripped and in lower case, is one of the user's cities. *)
Definition is_user_city (state_abbr : string) (user_cities_lower : list string)
  (city_data : city_info) : bool :=
  let city_name_clean :=
    lower (strip (replace (", " ++ state_abbr) "" (city_name city_data))) in
  existsb (String.eqb city_name_clean) user_cities_lower.

(** One pass of the loop over the matched cities; everything that raises
    inside is caught and the city is passed over. An empty address makes
    the request itself raise. *)
Definition scrape_city (s : site) (all_crime_data : list DataFrame)
  (info : city_info) : list DataFrame :=
  if String.eqb (detail_url info) "" then all_crime_data
  else
    match s (detail_url info) with
    | Unreachable => all_crime_data
    | Page _ None => all_crime_data
    | Page _ (Some crtable) =>
        match crime_data.parse_crime_table (Some crtable) (city_name info) with
        | Return (Some df_crime) =>
            if is_empty df_crime then all_crime_data
            else all_crime_data ++ [df_crime]
        | Return None => all_crime_data
        | Raise _ => all_crime_data
        end
    end.

(** One pass of [for state_abbr in unique_states]; a row of [input_df] is
    (City, State). *)
Definition scrape_state (s : site) (input_df : list (string * string))
  (all_crime_data : list DataFrame) (state_abbr : string) : list DataFrame :=
  match dict_get state_mapping state_abbr with
  | None => all_crime_data
  | Some state_name =>
      let state_cities :=
        map fst (filter (fun row => String.eqb (snd row) state_abbr) input_df) in
      match state_cities with
      | [] => all_crime_data
      | _ =>
          match s (state_url state_name) with
          | Unreachable => all_crime_data
          | Page None _ => all_crime_data
          | Page (Some rows) _ =>
              let cities_data := fold_left city_of_row rows [] in
              let user_cities_lower := map lower state_cities in
              let filtered_cities :=
                filter (is_user_city state_abbr user_cities_lower) cities_data in
              match filtered_cities with
              | [] => all_crime_data
              | _ => fold_left (scrape_city s) filtered_cities all_crime_data
              end
          end
      end
  end.

(** The list [all_crime_data] after the loop over the states. *)
Definition scraped_frames (s : site) (input_df : list (string * string))
  : list DataFrame :=
  fold_left (scrape_state s input_df) (unique (map snd input_df)) [].

(** [pd.concat(frames, ignore_index=True)] for frames with distinct column
    names: the columns in the order of their first appearance, the rows
    of the frames one after the other, NaN where a frame has no such
    column. *)
Definition concat_frames (frames : list DataFrame) : DataFrame :=
  let cols :=
    fold_left
      (fun cols df =>
         fold_left (fun cols c => if existsb (String.eqb c) cols then cols
                                  else cols ++ [c]) (columns df) cols)
      frames [] in
  mk_frame cols
    (flat_map (fun df => map (fun r => map (row_get (columns df) r) cols) (rows df))
              frames).

(** [get_state_crime_data(input_df)] *)
Definition get_state_crime_data (s : site) (input_df : list (string * string))
  : DataFrame :=
  match scraped_frames s input_df with
  | [] => empty_frame
  | all_crime_data => concat_frames all_crime_data
  end.

End state_crime.

(* ================================================================== *)
(** * Vocabulary of the statements and sample inputs *)
(* ================================================================== *)

(** ** County lookup and resolution *)

Section LookupVocabulary.
Import Py Net area_converter.

(** A candidate row that has a name and matches the query neither way. *)
Definition unmatched (q : string) (county : list string) : Prop :=
  exists name, nth_error county 0 = Some name
               /\ partial_match q (clean_candidate name) = false.

(** The fetch of the county list did not deliver a table with a header row. *)
Definition fetch_failed (r : response) : bool :=
  match r with
  | ConnectionError => true
  | Response status_code content =>
      is_http_error status_code ||
      match content with
      | Json (_ :: _) => false
      | _ => true
      end
  end.

(** The state code of the row is a key of the lookup table. *)
Definition known_state (row : string * string) : bool :=
  dict_mem state_mapping (snd row).

(** Keys are distinct and every area is stored under the key made of its
    own city and state. *)
Definition well_keyed (target_areas : dict area_info) : Prop :=
  NoDup (map fst target_areas)
  /\ Forall (fun kv => fst kv = area_id_of (city (snd kv)) (state (snd kv)))
            target_areas.

End LookupVocabulary.

(** ** Time-series records *)

Section RecordVocabulary.
Import Py Net Pandas area_converter census_data.

(** The location columns that the records of an area carry. *)
Definition area_location (area : area_info) : group_key :=
  (city area, state area, county area).

(** The records of an (area, year) pair: present when the request
    succeeds, null-valued when it fails. *)
Definition population_record (w : web) (census_api_key : string) (year : Z) (area : area_info) : PopulationRecord :=
  mk_record year (city area) (state area) (county area)
    (option_map fst (read_acs w (acs_url year area census_api_key))).

(** The age record of an (area, year) pair. *)
Definition age_record (w : web) (census_api_key : string) (year : Z) (area : area_info) : AgeRecord :=
  mk_record year (city area) (state area) (county area)
    (option_map snd (read_acs w (acs_url year area census_api_key))).

(** The records of a frame that belong to a (location, year) pair. *)
Definition records_for {M : Type} (year : Z) (k : group_key)
  (df : list (TimeSeriesRecord M)) : list (TimeSeriesRecord M) :=
  filter (fun r => (Year r =? year)%Z && key_eqb (location r) k) df.

(** The areas that are not skipped for want of a county code. *)
Definition valid_areas (target_areas : dict area_info) : list area_info :=
  filter has_valid_fips (dict_values target_areas).

(** The population records that a year contributes. *)
Definition year_population (w : web) (census_api_key : string)
  (target_areas : dict area_info) (year : Z)
  : list PopulationRecord :=
  if (year <? 2009)%Z then []
  else map (population_record w census_api_key year) (valid_areas target_areas).

(** The age records that a year contributes. *)
Definition year_age (w : web) (census_api_key : string)
  (target_areas : dict area_info) (year : Z) : list AgeRecord :=
  if (year <? 2009)%Z then []
  else map (age_record w census_api_key year) (valid_areas target_areas).

End RecordVocabulary.


(** The guard of the trend block: the frame has rows and several years. *)
Definition trend_runs {M : Type} (df : list (TimeSeriesRecord M)) : bool :=
  negb (Nat.eqb (List.length df) 0) && (1 <? Pandas.n_unique (map Year df))%nat.

Section EmploymentVocabulary.
Import Pandas bls_data.

(** The analysis row made of a start and an end observation. *)
Definition employment_row (key : group_key) (first final : EmploymentRecord)
  (start_employed end_employed start_unemployment end_unemployment : Q)
  : EmploymentRow :=
  let employment_cagr :=
    ((float_pow (Q2R end_employed / Q2R start_employed)
                (1 / IZR (Year final - Year first)) - 1) * 100)%R in
  mk_employment (fst (fst key)) (snd (fst key)) (snd key)
    start_employed end_employed
    ((Q2R end_employed - Q2R start_employed) / Q2R start_employed * 100)%R
    employment_cagr start_unemployment end_unemployment
    (Q2R end_unemployment - Q2R start_unemployment)%R
    (employment_cagr - (Q2R end_unemployment - Q2R start_unemployment) * 2)%R
    (Year final - Year first)%Z.

End EmploymentVocabulary.

(** ** Crime table *)

Section CrimeVocabulary.
Import Py Pandas crime_data.

(** The dictionary has an entry for [k]. *)
Definition has_key (k : string) (d : dict string) : Prop :=
  exists v, dict_get d k = Some v.

(** A constructed row has its City and Crime_Type entries. *)
Definition keyed (d : dict string) : Prop :=
  has_key "City" d /\ has_key "Crime_Type" d.

(** The columns after the keys of one more record are seen. *)
Definition add_keys (cols : list string) (d : dict string) : list string :=
  fold_left (fun cols kv => if existsb (String.eqb (fst kv)) cols then cols
                            else cols ++ [fst kv]) d cols.

(** Two rows agree on City and Crime_Type. *)
Definition same_pair (cols : list string) (r r' : list cell) : bool :=
  forallb (fun c => cell_eqb (row_get cols r c) (row_get cols r' c))
          ["City"; "Crime_Type"].

(** A row of the category Crime Index. *)
Definition is_index_row (cols : list string) (r : list cell) : bool :=
  is_index_cell (row_get cols r "Crime_Type").

(** A Crime Index row of the city [c]. *)
Definition is_index_of (c : string) (cols : list string) (r : list cell) : bool :=
  cell_eqb (row_get cols r "City") (Str c) && is_index_row cols r.

(** A row after [fillna('Not Found')]. *)
Definition fill_row (r : list cell) : list cell :=
  map (fun c => if isna c then Str "Not Found" else c) r.

(** The removal step on its own: a Crime Index row goes when a later row
    has the same city and category; every other row stays. *)
Fixpoint keep_last_index (cols : list string) (l : list (list cell))
  : list (list cell) :=
  match l with
  | [] => []
  | r :: rest =>
      if existsb (same_pair cols r) rest && is_index_row cols r
      then keep_last_index cols rest
      else r :: keep_last_index cols rest
  end.

(** The frame of the constructed rows with the kept columns, before the
    removal step. *)
Definition kept_frame (crime_data : list (dict string)) : DataFrame :=
  let df := frame_of_dicts crime_data in
  select (filter (fun c => has_column df c)
                 ("City" :: "Crime_Type" :: filter isdigit (columns df))) df.

End CrimeVocabulary.

(** ** Crime join *)

Section JoinVocabulary.
Import Py Pandas data_analysis.

(** A (City, Crime_Index) row and the (County, Crime_Index) row made of it. *)
Definition county_row (mapping : dict string) (s c : list cell) : Prop :=
  exists x v rest, s = Str x :: v :: rest
                   /\ c = [Str (county_of_city mapping x); v].

(** The Crime_Index values of the rows of a county. *)
Definition crime_values (county_rows : list (list cell)) (k : cell) : list cell :=
  map (fun r => nth 1 r NaN) (filter (fun r => cell_eqb (hd NaN r) k) county_rows).

(** The values joined to a row: those of its county, or one null. *)
Definition joined_values (county_rows : list (list cell)) (k : cell) : list cell :=
  match crime_values county_rows k with
  | [] => [NaN]
  | vs => vs
  end.

(** A row of two cells. *)
Definition pair_row (r : list cell) : Prop := exists c v, r = [c; v].

End JoinVocabulary.

(** ** Sample inputs *)

(** Three target areas in Florida; two of them lie in Orange County. *)
Definition tampa : area_converter.area_info :=
  area_converter.mk_area "FL" "Hillsborough County" "12" "057" "Tampa".

Definition orlando : area_converter.area_info :=
  area_converter.mk_area "FL" "Orange County" "12" "095" "Orlando".

Definition winter_park : area_converter.area_info :=
  area_converter.mk_area "FL" "Orange County" "12" "095" "Winter Park".

Definition florida_areas : Py.dict area_converter.area_info :=
  [ ("orlando_fl", orlando); ("winter_park_fl", winter_park); ("tampa_fl", tampa) ].

(** The county table of Georgia as the statistical API lists it, cut
    down to three entries; Clay County comes before Clayton County. *)
Definition georgia_web : Net.web := fun url =>
  if String.eqb url (area_converter.county_list_url "13" area_converter.census_key)
  then Net.Response 200 (Net.Json
         [ ["NAME"; "state"; "county"];
           ["Chatham County, Georgia"; "13"; "051"];
           ["Clay County, Georgia"; "13"; "061"];
           ["Clayton County, Georgia"; "13"; "063"] ])
  else Net.ConnectionError.

(** A directory in which only Tampa, Florida can be resolved. *)
Definition tampa_web : Net.web := fun url =>
  if String.eqb url (area_converter.city_url "Tampa" "Florida")
  then Net.Response 200 (Net.Html
         (Some [Some "U.S."; Some "Florida"; Some "Hillsborough County"; None]))
  else if String.eqb url (area_converter.county_list_url "12" area_converter.census_key)
  then Net.Response 200 (Net.Json
         [ ["NAME"; "state"; "county"];
           ["Orange County, Florida"; "12"; "095"];
           ["Hillsborough County, Florida"; "12"; "057"] ])
  else Net.ConnectionError.

(** The statistical API answers for Tampa in 2015 and for nothing else. *)
Definition acs_web : Net.web := fun url =>
  if String.eqb url (census_data.acs_url 2015 tampa "k")
  then Net.Response 200 (Net.Json
         [ ["B01003_001E"; "B01002_001E"; "state"; "county"];
           ["1350000"; "36.5"; "12"; "057"] ])
  else Net.ConnectionError.

(** The labour API answers with both series of Hillsborough County. *)
Definition bls_ok : bls_data.bls_api := fun _ _ =>
  bls_data.Results "REQUEST_SUCCEEDED"
    [ bls_data.mk_series "LAUCN120570000000003" ["3.5"];
      bls_data.mk_series "LAUCN120570000000005" ["700000"] ].

(** The request for 2016 fails. *)
Definition bls_2016_down : bls_data.bls_api := fun batch year =>
  if (year =? 2016)%Z then bls_data.RequestFailed else bls_ok batch year.

(** The labour API answers with both series of Orange County. *)
Definition bls_orange : bls_data.bls_api := fun _ _ =>
  bls_data.Results "REQUEST_SUCCEEDED"
    [ bls_data.mk_series "LAUCN120950000000003" ["3.1"];
      bls_data.mk_series "LAUCN120950000000005" ["720000"] ].

(** A table in which the category Murders appears in two body rows. *)
Definition repeated_murders : crime_data.crtable :=
  crime_data.mk_table
    (Some (Some ["Type"; "2021"; "2022"]))
    (Some [ [ crime_data.mk_td (Some "Murders") "Murders";
              crime_data.mk_td None "12 (3.4)"; crime_data.mk_td None "10 (2.9)" ];
            [ crime_data.mk_td (Some "Murders") "Murders";
              crime_data.mk_td None "15 (4.0)"; crime_data.mk_td None "" ] ])
    (Some (Some [ crime_data.mk_td None "City-Data.com crime index";
                  crime_data.mk_td None "345.2"; crime_data.mk_td None "" ])).

(** Latest-year slices of two counties. *)
Definition population_table : Pandas.DataFrame :=
  Pandas.mk_frame ["County"; "Population"]
    [ [Pandas.Str "Orange County"; Pandas.Num 1400000];
      [Pandas.Str "Hillsborough County"; Pandas.Num 1350000] ].

Definition age_table : Pandas.DataFrame :=
  Pandas.mk_frame ["County"; "Median Age"]
    [ [Pandas.Str "Orange County"; Pandas.Num (355 # 10)];
      [Pandas.Str "Hillsborough County"; Pandas.Num (372 # 10)] ].

(** Latest-year slices with one row for each of the three areas. *)
Definition florida_population : Pandas.DataFrame :=
  Pandas.mk_frame ["County"; "Population"]
    [ [Pandas.Str "Orange County"; Pandas.Num 1400000];
      [Pandas.Str "Orange County"; Pandas.Num 1400000];
      [Pandas.Str "Hillsborough County"; Pandas.Num 1350000] ].

Definition florida_age : Pandas.DataFrame :=
  Pandas.mk_frame ["County"; "Median Age"]
    [ [Pandas.Str "Orange County"; Pandas.Num (355 # 10)];
      [Pandas.Str "Orange County"; Pandas.Num (355 # 10)];
      [Pandas.Str "Hillsborough County"; Pandas.Num (372 # 10)] ].

(** A crime table whose year columns carry the suffix the merge looks for. *)
Definition crime_counts : Pandas.DataFrame :=
  Pandas.mk_frame ["City"; "Crime_Type"; "2021_count"; "2022_count"]
    [ [Pandas.Str "Orlando, FL"; Pandas.Str "Crime Index";
       Pandas.Num (4001 # 10); Pandas.Num (3905 # 10)];
      [Pandas.Str "Orlando, FL"; Pandas.Str "Murders";
       Pandas.Num 10; Pandas.Num 12];
      [Pandas.Str "Winter Park, FL"; Pandas.Str "Crime Index";
       Pandas.Num (2001 # 10); Pandas.Num (1905 # 10)] ].

(** A table as the parser returns it: year columns named by digits. *)
Definition crime_of_parser : Pandas.DataFrame :=
  Pandas.mk_frame ["City"; "Crime_Type"; "2021"; "2022"]
    [ [Pandas.Str "Orlando, FL"; Pandas.Str "Murders";
       Pandas.Str "10 (3.2)"; Pandas.Str "12 (3.8)"];
      [Pandas.Str "Orlando, FL"; Pandas.Str "Crime Index";
       Pandas.Str "400.1"; Pandas.Str "390.5"];
      [Pandas.Str "Winter Park, FL"; Pandas.Str "Crime Index";
       Pandas.Str "200.1"; Pandas.Str "190.5"] ].


(** ** What the resolver stores *)

Section ResolverVocabulary.
Import Py Net area_converter.

(** An entry of [target_areas] that stems from a row of the input: it is
    stored under the identifier of its city and state, its county is the
    one of the fetched city page, its state code is the one of the table
    and its county code is what the county lookup returns. *)
Definition stems_from (w : web) (input_df : list (string * string))
  (entry : string * area_info) : Prop :=
  let area := snd entry in
  In (city area, state area) input_df
  /\ fst entry = area_id_of (city area) (state area)
  /\ (exists state_name status_code content,
         dict_get state_mapping (state area) = Some state_name
         /\ w (city_url (city area) state_name) = Response status_code content
         /\ is_http_error status_code = false
         /\ county_of_page content = Some (county area))
  /\ dict_get state_fips (state area) = Some (fips_state area)
  /\ fips_state area <> "00"
  /\ fips_county area
     = get_county_fips_code w (fips_state area) (county area) census_key.

End ResolverVocabulary.

(** ** Employment records and location keys *)

Section LocationKeyVocabulary.
Import Py area_converter bls_data.

(** The character [c] does not occur in [s]. *)
Definition free_of (c : ascii) (s : string) : bool :=
  all_chars (fun x => negb (Ascii.eqb x c)) s.

(** An employment record made from the location key of a target area
    with a resolved county code. *)
Definition record_of_area (target_areas : dict area_info)
  (r : EmploymentRecord) : Prop :=
  exists area, In area (valid_areas target_areas)
               /\ record_of_key (Year r) (location_key_of area) (metrics r) = Some r.

End LocationKeyVocabulary.

(** ** Series of a location *)

(** The two series identifiers of an entry of [bls_area_codes]. *)
Definition series_of (entry : string * string) : list string :=
  [ ("LAUCN" ++ snd entry ++ "0000000003")%string;
    ("LAUCN" ++ snd entry ++ "0000000005")%string ].

(** ** Rows of the trend analyses *)

(** The location that a growth row is about. *)
Definition growth_location (row : census_data.GrowthRow) : Pandas.group_key :=
  (census_data.g_City row, census_data.g_State row, census_data.g_County row).

(** The location that an employment analysis row is about. *)
Definition employment_location (row : bls_data.EmploymentRow) : Pandas.group_key :=
  (bls_data.e_City row, bls_data.e_State row, bls_data.e_County row).

(** Ascending order of the group keys. *)
Definition key_lt (a b : Pandas.group_key) : Prop := Pandas.key_compare a b = Lt.

(** ** Columns of a parsed crime table *)

(** A column that the parser keeps: one of the two key columns, or a
    column named by digits only. *)
Definition parser_column (c : string) : Prop :=
  c = "City" \/ c = "Crime_Type" \/ Py.isdigit c = true.

(** ** Scraped crime frames *)

Section ScrapeVocabulary.
Import Py Pandas state_crime.

(** A frame that is the parsed crime table of a city that the page of a
    state of the input lists and that, without its state suffix and
    whatever the case, is named as one of the input cities of that state. *)
Definition frame_of_listed_city (s : site) (input_df : list (string * string))
  (df : DataFrame) : Prop :=
  exists city state_abbr state_name rows other info crtable other',
    In (city, state_abbr) input_df
    /\ dict_get state_mapping state_abbr = Some state_name
    /\ s (state_url state_name) = Page (Some rows) other
    /\ In info (fold_left city_of_row rows [])
    /\ lower (strip (replace (", " ++ state_abbr) "" (city_name info))) = lower city
    /\ s (detail_url info) = Page other' (Some crtable)
    /\ crime_data.parse_crime_table (Some crtable) (city_name info)
       = Return (Some df)
    /\ is_empty df = false.

(** The state code of the row is a key of the table of the scraper. *)
Definition scraped_state (row : string * string) : bool :=
  dict_mem state_mapping (snd row).

(** A site where Tampa is listed for Florida and has a crime table. *)
Definition tampa_site : site := fun url =>
  if String.eqb url (state_url "Florida")
  then Page (Some [ [None; Some (mk_link " Tampa, FL " (Some "Tampa-Florida.html"));
                     None];
                    [None; Some (mk_link "Miami, FL" None); None] ]) None
  else if String.eqb url (cityUrl ++ "Tampa-Florida.html")
  then Page None (Some repeated_murders)
  else Unreachable.

End ScrapeVocabulary.

(** ** Words of a typed name *)

(** A word: not empty and without whitespace. *)
Definition is_word (w : string) : Prop :=
  w <> "" /\ Py.all_chars (fun c => negb (Py.is_space c)) w = true.

(** ** Rows of the input frame *)

(** A (city, state) pair as [get_user_input] stores it: the city is not
    empty and in title case, the state is in upper case. *)
Definition normalized_city (entry : string * string) : Prop :=
  fst entry <> ""
  /\ input_handler.convert_to_title_case (fst entry) = fst entry
  /\ input_handler.upper (snd entry) = snd entry.

(** What is typed for St. Augustine and the years 2015 to 2020. *)
Definition typed_lines : list string :=
  [ ""; "done"; "  st.  AUGUSTINE "; " fl"; "done"; "1999"; "20x5"; "2015"; "2014";
    "2020" ].

(** ** Stored cell values *)

(** A character of a formatted count: a digit or a comma. *)
Definition is_count_char (c : ascii) : bool := Py.is_digit c || Ascii.eqb c ",".

(** ** More sample inputs *)

(** A directory that has the page of Tampa and no county list. *)
Definition tampa_without_counties : Net.web := fun url =>
  if String.eqb url (area_converter.city_url "Tampa" "Florida")
  then Net.Response 200 (Net.Html
         (Some [Some "U.S."; Some "Florida"; Some "Hillsborough County"; None]))
  else Net.Response 503 Net.Malformed.

(** The labour service answers for 2015 and 2016 only. *)
Definition bls_two_years : bls_data.bls_api := fun batch year =>
  if ((2015 <=? year) && (year <=? 2016))%Z then bls_ok batch year
  else bls_data.RequestFailed.

(** ** Requests of the labour fetcher *)

(** A request whose answer the labour fetcher does not read: it raises,
    or reports a status other than REQUEST_SUCCEEDED. *)
Definition request_failed (r : bls_data.bls_response) : bool :=
  match r with
  | bls_data.RequestFailed => true
  | bls_data.Results status _ => negb (String.eqb status "REQUEST_SUCCEEDED")
  end.

(** ** Typed text *)

(** Every byte of [s] is an ASCII character. *)
Definition is_ascii (s : string) : bool :=
  Py.all_chars (fun c => (nat_of_ascii c <? 128)%nat) s.

(** ** Sorting routines and rows of the growth analysis *)

(** An insertion sort that takes the rows from first to last and puts a
    row before the rows with the same key: it orders the rows and is not
    stable. *)
Definition latest_first_sort : Pandas.sorter :=
  fun A leb l => fold_left (fun sorted x => Pandas.insert_sorted leb x sorted) l [].

(** The growth row of a location with the start and end observations
    given. *)
Definition growth_row (key : Pandas.group_key) (start_yr end_yr start_pop end_pop : Z)
  : census_data.GrowthRow :=
  census_data.mk_growth (fst (fst key)) (snd (fst key)) (snd key) start_pop end_pop
    ((IZR end_pop - IZR start_pop) / IZR start_pop * 100)%R
    ((Pandas.float_pow (IZR end_pop / IZR start_pop) (1 / IZR (end_yr - start_yr)) - 1)
     * 100)%R
    (end_yr - start_yr)%Z.

(** ** Sample frames of two cities *)

(** Population records of Orlando and Tampa for 2015 and 2016, in the
    order in which they are collected; both start from 100000. *)
Definition two_city_population (end_orlando end_tampa : Z)
  : list census_data.PopulationRecord :=
  [ mk_record 2015 "Orlando" "FL" "Orange County" (Some 100000%Z);
    mk_record 2015 "Tampa" "FL" "Hillsborough County" (Some 100000%Z);
    mk_record 2016 "Orlando" "FL" "Orange County" (Some end_orlando);
    mk_record 2016 "Tampa" "FL" "Hillsborough County" (Some end_tampa) ].




(** The target areas of Orlando and Tampa. *)
Definition orlando_tampa_areas : Py.dict area_converter.area_info :=
  [ ("orlando_fl", orlando); ("tampa_fl", tampa) ].

(* ================================================================== *)
(** * Proofs *)
(* ================================================================== *)

Example lower_ex : Py.lower "Orange County" = "orange county".
Proof. reflexivity. Qed.
Example strip_ex : Py.strip "  Lake  " = "Lake".
Proof. reflexivity. Qed.
Example replace_ex : Py.replace " County" "" "Orange County" = "Orange".
Proof. reflexivity. Qed.
Example split_ex : Py.split ", " "Tampa, FL" = ["Tampa"; "FL"].
Proof. reflexivity. Qed.
Example range_ex : Py.range 2009 2012 = [2009%Z; 2010%Z; 2011%Z].
Proof. reflexivity. Qed.

(* ------------------------------------------------------------------ *)
(** ** Strings *)

Lemma startswith_refl (s : string) : Py.startswith s s = true.
Proof.
  induction s as [|c r IH]; simpl; [reflexivity|].
  now rewrite Ascii.eqb_refl, IH.
Qed.

Lemma contains_refl (s : string) : Py.contains s s = true.
Proof. destruct s; simpl; [reflexivity|]. now rewrite Ascii.eqb_refl, startswith_refl. Qed.

(* ------------------------------------------------------------------ *)
(** ** County FIPS lookup *)

Section CountyLookup.
Import Py Net area_converter.

Lemma exact_match_partial (q c : string) :
  exact_match q c = true -> partial_match q c = true.
Proof.
  unfold exact_match, partial_match. intros H.
  apply String.eqb_eq in H. rewrite H, contains_refl. reflexivity.
Qed.

(** The loop returns at the first candidate that matches either way. *)
Lemma match_county_first (q : string) (counties : list (list string)) :
  match_county q counties =
  match counties with
  | [] => Return "000"
  | county :: rest =>
      match nth_error county 0 with
      | None => Raise tt
      | Some name =>
          if partial_match q (clean_candidate name) then
            match nth_error county 2 with
            | Some code => Return code
            | None => Raise tt
            end
          else match_county q rest
      end
  end.
Proof.
  destruct counties as [|county rest]; cbn [match_county]; [reflexivity|].
  destruct (nth_error county 0) as [name|]; [|reflexivity].
  destruct (exact_match q (clean_candidate name)) eqn:E.
  - now rewrite (exact_match_partial _ _ E).
  - reflexivity.
Qed.

Lemma match_county_unmatched (q : string) (counties : list (list string)) :
  Forall (unmatched q) counties -> match_county q counties = Return "000".
Proof.
  induction 1 as [|county rest [name [Hn Hp]] _ IH].
  - reflexivity.
  - rewrite match_county_first, Hn, Hp. exact IH.
Qed.

Lemma match_county_returns (q : string) (counties : list (list string)) (code : string) :
  match_county q counties = Return code ->
  code = "000" \/
  exists county name, In county counties /\ nth_error county 0 = Some name
    /\ partial_match q (clean_candidate name) = true
    /\ nth_error county 2 = Some code.
Proof.
  induction counties as [|county rest IH]; rewrite match_county_first.
  - intros H. left. now inversion H.
  - destruct (nth_error county 0) as [name|] eqn:Hn; [|discriminate].
    destruct (partial_match q (clean_candidate name)) eqn:Hp.
    + destruct (nth_error county 2) as [c|] eqn:Hc; [|discriminate].
      intros H. inversion H; subst. right. exists county, name.
      repeat split; auto. now left.
    + intros H. destruct (IH H) as [->|(cy & nm & Hin & H0 & H1 & H2)].
      * now left.
      * right. exists cy, nm. repeat split; auto. now right.
Qed.

End CountyLookup.

(** C3: the candidate "Clayton County, Georgia" matches the query
    "Clayton County" exactly, yet the lookup returns the code of
    "Clay County, Georgia", an earlier candidate that matches only as a
    substring: the exact match does not take priority over it. *)
Theorem exact_match_after_partial_match_loses :
  area_converter.exact_match (area_converter.clean_query "Clayton County")
    (area_converter.clean_candidate "Clayton County, Georgia") = true
  /\ area_converter.exact_match (area_converter.clean_query "Clayton County")
       (area_converter.clean_candidate "Clay County, Georgia") = false
  /\ area_converter.partial_match (area_converter.clean_query "Clayton County")
       (area_converter.clean_candidate "Clay County, Georgia") = true
  /\ area_converter.get_county_fips_code georgia_web "13" "Clayton County"
       area_converter.census_key = "061".
Proof. repeat split; vm_compute; reflexivity. Qed.

(* ------------------------------------------------------------------ *)
(** ** Target-area resolution *)

Section Resolution.
Import Py Net area_converter.

Lemma convert_row_unknown (w : web) acc (row : string * string) :
  known_state row = false -> convert_row w acc row = Return acc.
Proof.
  unfold known_state, dict_mem, convert_row.
  destruct acc as [ta cm], row as [c s]; cbn [snd].
  destruct (dict_get state_mapping s); [discriminate|reflexivity].
Qed.

Lemma convert_rows_filter (w : web) (rows : list (string * string)) :
  forall acc, convert_rows w acc rows = convert_rows w acc (filter known_state rows).
Proof.
  induction rows as [|row rest IH]; intros acc; simpl; [reflexivity|].
  destruct (known_state row) eqn:K; simpl.
  - destruct (convert_row w acc row); simpl; auto.
  - rewrite (convert_row_unknown w acc row K). simpl. apply IH.
Qed.

End Resolution.

(** C5, as stated, fails: a row with the unknown state code "ZZ" does not
    stop the run; the row is passed over and Tampa is resolved. *)
Lemma unknown_state_is_not_fatal :
  ~ (forall (w : Net.web) (rows : list (string * string)),
       (exists row, In row rows /\ known_state row = false) ->
       exists e, area_converter.convert_input_to_target_areas w rows = Py.Raise e).
Proof.
  intros H.
  destruct (H tampa_web [("Orlando", "ZZ"); ("Tampa", "FL")]) as [e He].
  - exists ("Orlando", "ZZ"). split; [now left|reflexivity].
  - vm_compute in He. discriminate.
Qed.

(** C5, amended: rows whose state code is not a key of the table are
    passed over and the remaining rows are resolved as if those rows were
    not there; the run ends with the error "no valid cities" when no row
    has a known state code. *)
Theorem unknown_state_rows_are_skipped (w : Net.web) (rows : list (string * string)) :
  area_converter.convert_input_to_target_areas w rows
  = area_converter.convert_input_to_target_areas w (filter known_state rows)
  /\ (filter known_state rows = [] ->
      area_converter.convert_input_to_target_areas w rows
      = Py.Raise area_converter.NoValidCities).
Proof.
  unfold area_converter.convert_input_to_target_areas.
  rewrite (convert_rows_filter w rows). split; [reflexivity|].
  intros ->. reflexivity.
Qed.

Example skipped_row_run :
  area_converter.convert_input_to_target_areas tampa_web
    [("Orlando", "ZZ"); ("Tampa", "FL")]
  = Py.Return
      ([("tampa_fl",
         area_converter.mk_area "FL" "Hillsborough County" "12" "057" "Tampa")],
       [("Hillsborough County", "Tampa")]).
Proof. vm_compute. reflexivity. Qed.

(* ------------------------------------------------------------------ *)
(** ** Lists and keys *)

Lemma fold_left_app_flat_map {A B : Type} (f : A -> list B) (l : list A) :
  forall init, fold_left (fun acc x => acc ++ f x) l init = init ++ flat_map f l.
Proof.
  induction l as [|x l IH]; intros init; simpl.
  - now rewrite app_nil_r.
  - now rewrite IH, app_assoc.
Qed.

Lemma flat_map_filtered {K T : Type} (keep : T -> bool) (g : K -> list T) :
  forall ks : list K,
    flat_map (fun k => filter keep (g k)) ks = filter keep (flat_map g ks).
Proof.
  induction ks as [|k ks IH]; [reflexivity|].
  cbn [flat_map]. rewrite filter_app. now f_equal.
Qed.

Lemma flat_map_nil {A B : Type} (f : A -> list B) (l : list A) :
  (forall x, In x l -> f x = []) -> flat_map f l = [].
Proof.
  induction l as [|x l IH]; intros H; simpl; [reflexivity|].
  rewrite (H x (or_introl eq_refl)). apply IH. intros; apply H; now right.
Qed.

Lemma flat_map_single {A B : Type} (f : A -> list B) (l : list A) (x : A) :
  NoDup l -> In x l -> (forall x', In x' l -> x' <> x -> f x' = []) ->
  flat_map f l = f x.
Proof.
  induction 1 as [|h t Hh Ht IH]; intros Hin Hf; [contradiction|].
  simpl. destruct Hin as [->|Hin].
  - rewrite (flat_map_nil f t), app_nil_r; [reflexivity|].
    intros x' Hx'. apply Hf; [now right|]. intros ->. contradiction.
  - rewrite (Hf h (or_introl eq_refl)); [|intros ->; contradiction].
    simpl. apply IH; [assumption|]. intros; apply Hf; auto. now right.
Qed.

Lemma string_compare_refl (s : string) : String.compare s s = Eq.
Proof.
  pose proof (String.compare_antisym s s) as H.
  destruct (String.compare s s); simpl in H; congruence.
Qed.

Lemma key_eqb_eq (a b : Pandas.group_key) : Pandas.key_eqb a b = true <-> a = b.
Proof.
  destruct a as [[a1 a2] a3], b as [[b1 b2] b3].
  unfold Pandas.key_eqb, Pandas.key_compare. split.
  - destruct (String.compare a1 b1) eqn:E1; try discriminate.
    destruct (String.compare a2 b2) eqn:E2; try discriminate.
    destruct (String.compare a3 b3) eqn:E3; try discriminate.
    intros _. apply String.compare_eq_iff in E1, E2, E3. now subst.
  - intros H; inversion H; subst. now rewrite !string_compare_refl.
Qed.

Lemma key_eqb_refl (a : Pandas.group_key) : Pandas.key_eqb a a = true.
Proof. now apply key_eqb_eq. Qed.

Lemma filter_unique_key {A : Type} (f : A -> Pandas.group_key) (l : list A) (a : A) :
  NoDup (map f l) -> In a l ->
  filter (fun x => Pandas.key_eqb (f x) (f a)) l = [a].
Proof.
  induction l as [|h t IH]; intros Hnd Hin; [contradiction|].
  simpl in Hnd. inversion Hnd as [|? ? Hh Ht]; subst. simpl.
  destruct Hin as [->|Hin].
  - rewrite key_eqb_refl. f_equal.
    assert (Hnone : forall x, In x t -> Pandas.key_eqb (f x) (f a) = false).
    { intros x Hx. destruct (Pandas.key_eqb (f x) (f a)) eqn:E; [|reflexivity].
      apply key_eqb_eq in E. exfalso. apply Hh. rewrite <- E. now apply in_map. }
    clear -Hnone. induction t as [|x t IHt]; simpl; [reflexivity|].
    rewrite (Hnone x (or_introl eq_refl)). apply IHt. intros; apply Hnone; now right.
  - destruct (Pandas.key_eqb (f h) (f a)) eqn:E.
    + apply key_eqb_eq in E. exfalso. apply Hh. rewrite E. now apply in_map.
    + now apply IH.
Qed.

Lemma range_In (a b y : Z) : In y (Py.range a b) <-> (a <= y < b)%Z.
Proof.
  unfold Py.range. rewrite in_map_iff. split.
  - intros (i & <- & Hi). apply in_seq in Hi. lia.
  - intros H. exists (Z.to_nat (y - a)). split; [lia|]. apply in_seq. lia.
Qed.

Lemma range_NoDup (a b : Z) : NoDup (Py.range a b).
Proof.
  unfold Py.range. apply Finite.Injective_map_NoDup; [|apply seq_NoDup].
  intros i j H. lia.
Qed.

(* ------------------------------------------------------------------ *)
(** ** Census fetch loop *)

Section CensusRecords.
Import Py Net Pandas area_converter census_data.

Variable w : web.
Variable census_api_key : string.

Lemma collect_area_eq (year : Z) (acc : collected) (area : area_info) :
  collect_area w census_api_key year acc area =
  (fst acc ++ (if has_valid_fips area then [population_record w census_api_key year area] else []),
   snd acc ++ (if has_valid_fips area then [age_record w census_api_key year area] else [])).
Proof.
  unfold collect_area, population_record, age_record. destruct acc as [p g].
  destruct (has_valid_fips area); simpl.
  - destruct (read_acs w (acs_url year area census_api_key)) as [[pop age]|];
      reflexivity.
  - now rewrite !app_nil_r.
Qed.

Lemma collect_areas_eq (year : Z) (areas : list area_info) :
  forall acc,
    fold_left (collect_area w census_api_key year) areas acc =
    (fst acc ++ map (population_record w census_api_key year) (filter has_valid_fips areas),
     snd acc ++ map (age_record w census_api_key year) (filter has_valid_fips areas)).
Proof.
  induction areas as [|a areas IH]; intros acc; simpl.
  - rewrite !app_nil_r. now destruct acc.
  - rewrite IH, collect_area_eq. simpl.
    destruct (has_valid_fips a); simpl; rewrite <- !app_assoc; reflexivity.
Qed.

Lemma collect_years_eq (target_areas : dict area_info) (years : list Z) :
  forall acc,
    fold_left (collect_year w census_api_key target_areas) years acc =
    (fst acc ++ flat_map (year_population w census_api_key target_areas) years,
     snd acc ++ flat_map (year_age w census_api_key target_areas) years).
Proof.
  induction years as [|y years IH]; intros acc; simpl.
  - rewrite !app_nil_r. now destruct acc.
  - rewrite IH. unfold collect_year, year_population, year_age.
    destruct (y <? 2009)%Z; simpl.
    + reflexivity.
    + rewrite collect_areas_eq. simpl. unfold valid_areas.
      now rewrite <- !app_assoc.
Qed.

(** The collected lists hold, year after year from 2009 on, the records of
    the areas with a resolved county code, in the order of the map. *)
Lemma collect_eq (start_year end_year : Z) (target_areas : dict area_info) :
  collect w census_api_key start_year end_year target_areas =
  (flat_map (year_population w census_api_key target_areas) (range start_year (end_year + 1)),
   flat_map (year_age w census_api_key target_areas) (range start_year (end_year + 1))).
Proof. unfold collect. now rewrite collect_years_eq. Qed.

Lemma records_for_years {M : Type} (f : Z -> list (TimeSeriesRecord M))
  (years : list Z) (year : Z) (k : group_key) :
  (forall y r, In r (f y) -> Year r = y) ->
  NoDup years -> In year years ->
  records_for year k (flat_map f years) = records_for year k (f year).
Proof.
  intros Hf Hnd Hin. unfold records_for. rewrite <- flat_map_filtered.
  apply (flat_map_single
           (fun x => filter (fun r => (Year r =? year)%Z && key_eqb (location r) k) (f x))
           years year Hnd Hin).
  intros y' _ Hne.
  assert (Hl : forall r, In r (f y') -> Year r = y') by (intros; now apply Hf).
  induction (f y') as [|r l IH]; [reflexivity|]. simpl.
  rewrite (Hl r (or_introl eq_refl)).
  destruct (Z.eqb_spec y' year) as [->|_]; [contradiction|]. simpl.
  apply IH. intros; apply Hl; now right.
Qed.

Lemma records_for_areas {M : Type} (mk : area_info -> TimeSeriesRecord M)
  (year : Z) (areas : list area_info) (area : area_info) :
  (forall a, Year (mk a) = year) ->
  (forall a, location (mk a) = area_location a) ->
  NoDup (map area_location areas) -> In area areas ->
  records_for year (area_location area) (map mk areas) = [mk area].
Proof.
  intros Hy Hl Hnd Hin. unfold records_for.
  transitivity (map mk (filter (fun a => key_eqb (area_location a) (area_location area))
                               areas)).
  - clear Hnd Hin. induction areas as [|a areas IH]; simpl; [reflexivity|].
    rewrite Hy, Z.eqb_refl, Hl. simpl.
    destruct (key_eqb (area_location a) (area_location area)); simpl; now rewrite IH.
  - now rewrite (filter_unique_key area_location areas area Hnd Hin).
Qed.

End CensusRecords.

Example census_collect_run :
  census_data.collect acs_web "k" 2015 2016 [("tampa_fl", tampa)]
  = ([ mk_record 2015 "Tampa" "FL" "Hillsborough County" (Some 1350000%Z);
       mk_record 2016 "Tampa" "FL" "Hillsborough County" None ],
     [ mk_record 2015 "Tampa" "FL" "Hillsborough County" (Some (365 # 10)%Q);
       mk_record 2016 "Tampa" "FL" "Hillsborough County" None ]).
Proof. vm_compute. reflexivity. Qed.

(** With the range 2008..2009 requested, the census fetcher collects no
    record for Tampa in 2008: the years before 2009 are passed over. (The
    prompts of the program do not accept such a start year.) *)
Lemma census_year_before_2009_has_no_record :
  ~ (forall (w : Net.web) (key : string) (start_year end_year : Z)
       (target_areas : Py.dict area_converter.area_info)
       (area : area_converter.area_info) (year : Z),
       In area (valid_areas target_areas) ->
       (start_year <= year <= end_year)%Z ->
       List.length
         (records_for year (area_location area)
            (fst (census_data.collect w key start_year end_year target_areas)))
       = 1%nat).
Proof.
  intros H.
  assert (Hin : In tampa (valid_areas [("tampa_fl", tampa)]))
    by (simpl; left; reflexivity).
  assert (Hy : (2008 <= 2008 <= 2009)%Z) by lia.
  pose proof (H acs_web "k" 2008%Z 2009%Z [("tampa_fl", tampa)] tampa 2008%Z Hin Hy)
    as H1.
  vm_compute in H1. discriminate H1.
Qed.

(** The census fetcher keeps the structure of its frames: every area
    with a resolved county code and every requested year from 2009 on has
    exactly one population record and exactly one age record among the
    collected records; the record holds the fetched value, and a null
    value when the fetch of that pair fails ("placeholder data to maintain
    structure"). A requested year before 2009 has no record. *)
Theorem census_one_record_per_area_and_year
  (w : Net.web) (key : string) (start_year end_year : Z)
  (target_areas : Py.dict area_converter.area_info)
  (area : area_converter.area_info) (year : Z) :
  In area (valid_areas target_areas) ->
  NoDup (map area_location (valid_areas target_areas)) ->
  (start_year <= year <= end_year)%Z ->
  let all_population_data :=
    fst (census_data.collect w key start_year end_year target_areas) in
  let all_age_data :=
    snd (census_data.collect w key start_year end_year target_areas) in
  let fetched := census_data.read_acs w (census_data.acs_url year area key) in
  ((2009 <= year)%Z ->
     records_for year (area_location area) all_population_data
     = [mk_record year (area_converter.city area) (area_converter.state area)
          (area_converter.county area) (option_map fst fetched)]
     /\ records_for year (area_location area) all_age_data
        = [mk_record year (area_converter.city area) (area_converter.state area)
             (area_converter.county area) (option_map snd fetched)])
  /\ ((year < 2009)%Z ->
      forall k, records_for year k all_population_data = []
                /\ records_for year k all_age_data = []).
Proof.
  intros Hin Hnd Hy. cbv zeta. rewrite collect_eq. cbn [fst snd].
  assert (Hr : In year (Py.range start_year (end_year + 1)))
    by (apply range_In; lia).
  pose proof (range_NoDup start_year (end_year + 1)) as Hnr.
  assert (Hyp : forall y r, In r (year_population w key target_areas y) -> Year r = y).
  { intros y r. unfold year_population. destruct (y <? 2009)%Z; [intros []|].
    rewrite in_map_iff. now intros (a & <- & _). }
  assert (Hya : forall y r, In r (year_age w key target_areas y) -> Year r = y).
  { intros y r. unfold year_age. destruct (y <? 2009)%Z; [intros []|].
    rewrite in_map_iff. now intros (a & <- & _). }
  split.
  - intros H9.
    rewrite (records_for_years _ _ year (area_location area) Hyp Hnr Hr).
    rewrite (records_for_years _ _ year (area_location area) Hya Hnr Hr).
    unfold year_population, year_age.
    destruct (Z.ltb_spec year 2009) as [?|_]; [lia|].
    split.
    + now apply (records_for_areas (population_record w key year)).
    + now apply (records_for_areas (age_record w key year)).
  - intros H9 k.
    rewrite (records_for_years _ _ year k Hyp Hnr Hr).
    rewrite (records_for_years _ _ year k Hya Hnr Hr).
    unfold year_population, year_age.
    destruct (Z.ltb_spec year 2009) as [_|?]; [|lia]. split; reflexivity.
Qed.

(** The theorem at work: Tampa, requested for 2015 and 2016, with the
    request for 2016 failing. *)
Lemma census_one_record_per_area_and_year_witness :
  let all_population_data :=
    fst (census_data.collect acs_web "k" 2015 2016 [("tampa_fl", tampa)]) in
  let all_age_data :=
    snd (census_data.collect acs_web "k" 2015 2016 [("tampa_fl", tampa)]) in
  let fetched := census_data.read_acs acs_web (census_data.acs_url 2016 tampa "k") in
  ((2009 <= 2016)%Z ->
     records_for 2016 (area_location tampa) all_population_data
     = [mk_record 2016 (area_converter.city tampa) (area_converter.state tampa)
          (area_converter.county tampa) (option_map fst fetched)]
     /\ records_for 2016 (area_location tampa) all_age_data
        = [mk_record 2016 (area_converter.city tampa) (area_converter.state tampa)
             (area_converter.county tampa) (option_map snd fetched)])
  /\ ((2016 < 2009)%Z ->
      forall k, records_for 2016 k all_population_data = []
                /\ records_for 2016 k all_age_data = []).
Proof.
  apply (census_one_record_per_area_and_year acs_web "k" 2015 2016
           [("tampa_fl", tampa)] tampa 2016).
  - simpl. left. reflexivity.
  - simpl. constructor; [intros []|constructor].
  - lia.
Defined.

(* ------------------------------------------------------------------ *)
(** ** Sorting *)

Section Sorting.
Import Pandas.

Context {A : Type} (leb : A -> A -> bool).
Hypothesis leb_total : total leb.
Hypothesis leb_trans : transitive leb.

Lemma insert_sorted_perm (x : A) (l : list A) :
  Permutation (insert_sorted leb x l) (x :: l).
Proof.
  induction l as [|h t IH]; simpl; [reflexivity|].
  destruct (leb x h); [reflexivity|].
  rewrite IH. apply perm_swap.
Qed.

Lemma insert_sorted_sorted (x : A) (l : list A) :
  StronglySorted (fun a b => leb a b = true) l ->
  StronglySorted (fun a b => leb a b = true) (insert_sorted leb x l).
Proof.
  induction 1 as [|h t Ht IH Hh]; simpl.
  - constructor; constructor.
  - destruct (leb x h) eqn:E.
    + constructor; [now constructor|].
      constructor; [assumption|].
      eapply Forall_impl; [|exact Hh]. intros b Hb. now apply (leb_trans x h b).
    + constructor; [assumption|].
      assert (Hhx : leb h x = true) by (destruct (leb_total h x); congruence).
      eapply Permutation_Forall; [symmetry; apply insert_sorted_perm|].
      now constructor.
Qed.

Lemma insert_sorted_stable (a x : A) (l : list A) :
  filter (same_key leb a) (insert_sorted leb x l)
  = filter (same_key leb a) (x :: l).
Proof.
  induction l as [|h t IH]; [reflexivity|].
  cbn [insert_sorted]. destruct (leb x h) eqn:E; [reflexivity|].
  cbn [filter] in *. rewrite IH.
  destruct (same_key leb a x) eqn:Ex; [|reflexivity].
  destruct (same_key leb a h) eqn:Eh; [|reflexivity].
  exfalso. unfold same_key in Ex, Eh.
  apply andb_prop in Ex, Eh. destruct Ex as [_ Hxa], Eh as [Hah _].
  rewrite (leb_trans x a h Hxa Hah) in E. discriminate.
Qed.



End Sorting.

Lemma insertion_sort_contract : Pandas.sort_contract Pandas.insertion_sort.
Proof.
  split; intros A leb l; unfold Pandas.insertion_sort.
  - induction l as [|x l IH]; simpl; [reflexivity|].
    rewrite insert_sorted_perm. now constructor.
  - intros Htot Htrans. induction l as [|x l IH]; simpl; [constructor|].
    now apply insert_sorted_sorted.
Qed.

Lemma insertion_sort_stable : Pandas.stable Pandas.insertion_sort.
Proof.
  intros A leb l a Htot Htrans. unfold Pandas.insertion_sort.
  induction l as [|x l IH]; [reflexivity|].
  cbn [fold_right]. rewrite (insert_sorted_stable leb Htrans).
  cbn [filter]. now rewrite IH.
Qed.

Lemma Rleb_true (x y : R) : Pandas.Rleb x y = true <-> (x <= y)%R.
Proof. unfold Pandas.Rleb. destruct (Rle_dec x y); split; auto; discriminate. Qed.


Lemma desc_total {A : Type} (metric : A -> R) :
  Pandas.total (fun a b => Pandas.Rleb (metric b) (metric a)).
Proof.
  intros a b. rewrite !Rleb_true.
  destruct (Rle_dec (metric b) (metric a)); [now left|right; lra].
Qed.

Lemma desc_transitive {A : Type} (metric : A -> R) :
  Pandas.transitive (fun a b => Pandas.Rleb (metric b) (metric a)).
Proof. intros a b c. rewrite !Rleb_true. lra. Qed.

Lemma year_leb_total {M : Type} : Pandas.total (@census_data.year_leb M).
Proof. intros a b. unfold census_data.year_leb. lia. Qed.

Lemma year_leb_transitive {M : Type} : Pandas.transitive (@census_data.year_leb M).
Proof. intros a b c. unfold census_data.year_leb. lia. Qed.

(* ------------------------------------------------------------------ *)
(** ** Strongest market *)


(* ------------------------------------------------------------------ *)
(** ** Start and end observations of a location *)

Lemma last_map_Some {A : Type} (l : list A) (x d : A) :
  last (map Some (x :: l)) None = Some (last (x :: l) d).
Proof.
  revert x. induction l as [|y l IH]; intros x; [reflexivity|].
  change (last (map Some (y :: l)) None = Some (last (y :: l) d)). apply IH.
Qed.

Lemma StronglySorted_filter {A : Type} (R : A -> A -> Prop) (p : A -> bool)
  (l : list A) :
  StronglySorted R l -> StronglySorted R (filter p l).
Proof.
  induction 1 as [|h t Ht IH Hh]; simpl; [constructor|].
  destruct (p h); [|assumption].
  constructor; [assumption|].
  apply Forall_forall. intros x Hx. apply filter_In in Hx.
  now apply (proj1 (Forall_forall _ _) Hh).
Qed.

Lemma last_In {A : Type} (l : list A) (x d : A) : In (last (x :: l) d) (x :: l).
Proof.
  revert x. induction l as [|y l IH]; intros x; [now left|].
  right. apply (IH y).
Qed.

Lemma StronglySorted_last {A : Type} (R : A -> A -> Prop) (l : list A) (d : A) :
  StronglySorted R l ->
  forall x, In x l -> x = last l d \/ R x (last l d).
Proof.
  induction 1 as [|h t Ht IH Hh]; intros x Hx; [contradiction|].
  destruct t as [|h' t'].
  - destruct Hx as [<-|[]]. now left.
  - change (last (h :: h' :: t') d) with (last (h' :: t') d).
    destruct Hx as [<-|Hx].
    + right. apply (proj1 (Forall_forall _ _) Hh). apply last_In.
    + now apply IH.
Qed.

Section Observations.
Import Pandas census_data.

Context {M : Type} (observed : TimeSeriesRecord M -> bool).
Variable sort_values : sorter.
Hypothesis sort_ok : sort_contract sort_values.
Variable location_data : list (TimeSeriesRecord M).

Let observations : list (TimeSeriesRecord M) :=
  filter observed (sort_values _ year_leb location_data).

(** After sorting by year and dropping the null rows, the first row is
    the earliest and the last row the latest observation of the location. *)
Lemma observations_ends (first : TimeSeriesRecord M) :
  hd_error observations = Some first ->
  In first location_data /\ In (last observations first) location_data
  /\ observed first = true /\ observed (last observations first) = true
  /\ forall r, In r location_data -> observed r = true ->
               (Year first <= Year r <= Year (last observations first))%Z.
Proof.
  intros Hhd.
  destruct sort_ok as [Hperm Hsorted].
  specialize (Hperm _ (@year_leb M) location_data).
  specialize (Hsorted _ (@year_leb M) location_data year_leb_total year_leb_transitive).
  assert (Hobs : StronglySorted (fun a b => year_leb a b = true) observations)
    by (now apply StronglySorted_filter).
  assert (Hin : forall r, In r observations <-> In r location_data /\ observed r = true).
  { intros r. unfold observations. rewrite filter_In. split; intros [H1 H2]; split; auto.
    - now apply (Permutation_in _ Hperm).
    - now apply (Permutation_in _ (Permutation_sym Hperm)). }
  destruct observations as [|f rest] eqn:E; [discriminate|].
  inversion Hhd; subst f.
  assert (Hlast : In (last (first :: rest) first) (first :: rest))
    by apply last_In.
  destruct (proj1 (Hin first) (or_introl eq_refl)) as [Hf1 Hf2].
  destruct (proj1 (Hin _) Hlast) as [Hl1 Hl2].
  repeat split; auto.
  - assert (Hr : In r (first :: rest)) by (now apply Hin).
    destruct Hr as [<-|Hr]; [lia|].
    inversion Hobs as [|? ? _ Hall]; subst.
    apply (proj1 (Forall_forall _ _) Hall) in Hr. unfold year_leb in Hr. lia.
  - assert (Hr : In r (first :: rest)) by (now apply Hin).
    destruct (StronglySorted_last _ _ first Hobs r Hr) as [<-|Hle]; [lia|].
    unfold year_leb in Hle. lia.
Qed.

End Observations.

Lemma sort_two {M : Type} (sort_values : Pandas.sorter) (a b : TimeSeriesRecord M) :
  Pandas.sort_contract sort_values -> (Year a < Year b)%Z ->
  sort_values _ census_data.year_leb [b; a] = [a; b].
Proof.
  intros [Hperm Hsorted] Hlt.
  specialize (Hperm _ (@census_data.year_leb M) [b; a]).
  specialize (Hsorted _ (@census_data.year_leb M) [b; a]
                year_leb_total year_leb_transitive).
  apply Permutation_sym, Permutation_length_2_inv in Hperm.
  destruct Hperm as [E|E]; [|exact E].
  rewrite E in Hsorted. inversion Hsorted as [|? ? _ Hall]; subst.
  inversion Hall as [|? ? Hba _]; subst.
  unfold census_data.year_leb in Hba. lia.
Qed.

(* ------------------------------------------------------------------ *)
(** ** Population growth of a location *)

Section PopulationGrowth.
Import Pandas census_data.

Variable sort_values : sorter.

Lemma location_growth_iff (key : group_key) (location_data : list PopulationRecord)
  (row : GrowthRow) :
  let observations := filter is_observed (sort_values _ year_leb location_data) in
  location_growth sort_values key location_data = Some row <->
  exists first final start_pop end_pop,
    (2 <= List.length observations)%nat
    /\ hd_error observations = Some first
    /\ last observations first = final
    /\ Population first = Some start_pop
    /\ Population final = Some end_pop
    /\ (Year first < Year final)%Z
    /\ (0 < start_pop)%Z
    /\ row = mk_growth (fst (fst key)) (snd (fst key)) (snd key) start_pop end_pop
               ((IZR end_pop - IZR start_pop) / IZR start_pop * 100)%R
               ((float_pow (IZR end_pop / IZR start_pop)
                           (1 / IZR (Year final - Year first)) - 1) * 100)%R
               (Year final - Year first)%Z.
Proof.
  cbv zeta. unfold location_growth. destruct key as [[c s] k]. cbn [fst snd].
  set (obs := filter is_observed (sort_values _ year_leb location_data)).
  destruct (Nat.leb_spec 2 (List.length obs)) as [Hlen|Hlen].
  2:{ split; [discriminate|]. intros (f & fi & sp & ep & H & _). lia. }
  destruct obs as [|first rest]; [simpl in Hlen; lia|].
  cbn [hd_error]. rewrite (last_map_Some rest first first).
  set (final := last (first :: rest) first).
  destruct (Population first) as [sp|] eqn:E1.
  2:{ split; [discriminate|].
      intros (f & fi & sp & ep & _ & Hf & _ & HP & _). inversion Hf; subst.
      congruence. }
  destruct (Population final) as [ep|] eqn:E2.
  2:{ split; [discriminate|].
      intros (f & fi & sp' & ep & _ & Hf & Hl & _ & HP & _). inversion Hf; subst.
      fold final in HP. congruence. }
  destruct ((0 <? Year final - Year first)%Z && (0 <? sp)%Z) eqn:G.
  - apply andb_prop in G. destruct G as [G1 G2].
    apply Z.ltb_lt in G1, G2. split.
    + intros H. inversion H; subst.
      exists first, final, sp, ep. repeat split; auto; lia.
    + intros (f & fi & sp' & ep' & _ & Hf & Hl & HP1 & HP2 & _ & _ & ->).
      inversion Hf; subst f. fold final in Hl. subst fi.
      rewrite E1 in HP1. rewrite E2 in HP2. inversion HP1; inversion HP2; subst.
      reflexivity.
  - split; [discriminate|].
    intros (f & fi & sp' & ep' & _ & Hf & Hl & HP1 & _ & Hy & Hs & _).
    inversion Hf; subst f. fold final in Hl. subst fi.
    rewrite E1 in HP1. inversion HP1; subst sp'.
    apply andb_false_iff in G. destruct G as [G|G]; apply Z.ltb_ge in G; lia.
Qed.

End PopulationGrowth.

Lemma float_pow_sqrt_2 : (Pandas.float_pow 2 (/ 2) = sqrt 2)%R.
Proof.
  unfold Pandas.float_pow. destruct (Rlt_dec 0 2) as [H|H]; [|lra].
  now apply Rpower_sqrt.
Qed.

Lemma sqrt_2_bounds : (1.4142 < sqrt 2 < 1.4143)%R.
Proof.
  pose proof (sqrt_sqrt 2 ltac:(lra)) as H.
  pose proof (sqrt_pos 2) as H0.
  split; nra.
Qed.

(** C7: the records of a location are sorted by year and the null
    observations dropped; the first and last remaining observations are
    the earliest and latest observation of the location and give start
    (year y0) and end (year y1). The location gets a growth row exactly
    when there are at least two observations, start > 0 and y1 > y0, and
    the row then holds CAGR = ((end/start)^(1/(y1-y0)) - 1) * 100;
    otherwise the location is passed over. For start = 100, end = 200 and
    two years the CAGR is (sqrt 2 - 1) * 100, between 41.42 and 41.43. *)
Theorem population_cagr_of_location (sort_values : Pandas.sorter)
  (key : Pandas.group_key) (location_data : list census_data.PopulationRecord) :
  Pandas.sort_contract sort_values ->
  let observations :=
    filter census_data.is_observed
           (sort_values _ census_data.year_leb location_data) in
  (forall row,
      census_data.location_growth sort_values key location_data = Some row <->
      exists first final start_pop end_pop,
        (2 <= List.length observations)%nat
        /\ hd_error observations = Some first
        /\ last observations first = final
        /\ census_data.Population first = Some start_pop
        /\ census_data.Population final = Some end_pop
        /\ (Year first < Year final)%Z
        /\ (0 < start_pop)%Z
        /\ row = census_data.mk_growth (fst (fst key)) (snd (fst key)) (snd key)
                   start_pop end_pop
                   ((IZR end_pop - IZR start_pop) / IZR start_pop * 100)%R
                   ((Pandas.float_pow (IZR end_pop / IZR start_pop)
                       (1 / IZR (Year final - Year first)) - 1) * 100)%R
                   (Year final - Year first)%Z)
  /\ (forall first,
        hd_error observations = Some first ->
        In first location_data /\ In (last observations first) location_data
        /\ forall r, In r location_data -> census_data.is_observed r = true ->
                     (Year first <= Year r <= Year (last observations first))%Z)
  /\ (forall x y, (0 < x)%R -> Pandas.float_pow x y = Rpower x y)
  /\ (exists row,
        census_data.location_growth sort_values key
          [ mk_record 2017 "Tampa" "FL" "Hillsborough County" (Some 200%Z);
            mk_record 2015 "Tampa" "FL" "Hillsborough County" (Some 100%Z) ]
        = Some row
        /\ census_data.CAGR_Pct row = ((sqrt 2 - 1) * 100)%R
        /\ (41.42 < census_data.CAGR_Pct row < 41.43)%R).
Proof.
  intros Hc. cbv zeta. split; [|split; [|split]].
  - intros row. apply location_growth_iff.
  - intros first Hhd.
    destruct (observations_ends census_data.is_observed sort_values Hc
                location_data first Hhd) as (H1 & H2 & _ & _ & H3).
    auto.
  - intros x y Hx. unfold Pandas.float_pow.
    destruct (Rlt_dec 0 x); [reflexivity|contradiction].
  - set (a := mk_record 2015 "Tampa" "FL" "Hillsborough County" (Some 100%Z)).
    set (b := mk_record 2017 "Tampa" "FL" "Hillsborough County" (Some 200%Z)).
    eexists. split; [|split].
    + apply location_growth_iff. cbv zeta.
      rewrite (sort_two sort_values a b Hc) by (simpl; lia).
      exists a, b, 100%Z, 200%Z. repeat split; simpl; lia.
    + cbn [census_data.CAGR_Pct a b Year].
      replace (2017 - 2015)%Z with 2%Z by reflexivity.
      replace (IZR 200 / IZR 100)%R with 2%R by lra.
      replace (1 / 2)%R with (/ 2)%R by lra.
      now rewrite float_pow_sqrt_2.
    + cbn [census_data.CAGR_Pct a b Year].
      replace (2017 - 2015)%Z with 2%Z by reflexivity.
      replace (IZR 200 / IZR 100)%R with 2%R by lra.
      replace (1 / 2)%R with (/ 2)%R by lra.
      rewrite float_pow_sqrt_2. pose proof sqrt_2_bounds. lra.
Qed.

(** The theorem at work with the insertion sort. *)
Lemma population_cagr_of_location_witness :
  exists row,
    census_data.location_growth Pandas.insertion_sort
      ("Tampa", "FL", "Hillsborough County")
      [ mk_record 2017 "Tampa" "FL" "Hillsborough County" (Some 200%Z);
        mk_record 2015 "Tampa" "FL" "Hillsborough County" (Some 100%Z) ]
    = Some row
    /\ census_data.CAGR_Pct row = ((sqrt 2 - 1) * 100)%R
    /\ (41.42 < census_data.CAGR_Pct row < 41.43)%R.
Proof.
  exact (proj2 (proj2 (proj2 (population_cagr_of_location Pandas.insertion_sort
                                ("Tampa", "FL", "Hillsborough County") []
                                insertion_sort_contract)))).
Defined.

(* ------------------------------------------------------------------ *)
(** ** Employment trend of a location *)

Lemma Qpositive_iff (q : Q) : bls_data.Qpositive q = true <-> (0 < q)%Q.
Proof.
  unfold bls_data.Qpositive. rewrite negb_true_iff. split.
  - intros H. apply Qnot_le_lt. intros Hle. apply Qle_bool_iff in Hle. congruence.
  - intros H. destruct (Qle_bool q 0) eqn:E; [|reflexivity].
    apply Qle_bool_iff in E. exfalso. now apply (Qlt_not_le _ _ H).
Qed.

Section EmploymentTrend.
Import Pandas bls_data.

Variable sort_values : sorter.

Lemma location_employment_iff (key : group_key)
  (location_data : list EmploymentRecord) (row : EmploymentRow) :
  let observations :=
    filter both_observed (sort_values _ census_data.year_leb location_data) in
  location_employment sort_values key location_data = Some row <->
  exists first final se ee su eu,
    (2 <= List.length observations)%nat
    /\ hd_error observations = Some first
    /\ last observations first = final
    /\ employed first = Some se /\ employed final = Some ee
    /\ unemployment_rate first = Some su /\ unemployment_rate final = Some eu
    /\ (Year first < Year final)%Z
    /\ (0 < se)%Q
    /\ row = employment_row key first final se ee su eu.
Proof.
  cbv zeta. unfold location_employment, employment_row.
  destruct key as [[c s] k]. cbn [fst snd].
  set (obs := filter both_observed (sort_values _ census_data.year_leb location_data)).
  destruct (Nat.leb_spec 2 (List.length obs)) as [Hlen|Hlen].
  2:{ split; [discriminate|]. intros (f & fi & se & ee & su & eu & H & _). lia. }
  destruct obs as [|first rest]; [simpl in Hlen; lia|].
  cbn [hd_error]. rewrite (last_map_Some rest first first).
  set (final := last (first :: rest) first).
  destruct (employed first) as [se|] eqn:E1.
  2:{ split; [discriminate|].
      intros (f & fi & ? & ? & ? & ? & _ & Hf & _ & HP & _).
      inversion Hf; subst. congruence. }
  destruct (employed final) as [ee|] eqn:E2.
  2:{ split; [discriminate|].
      intros (f & fi & ? & ? & ? & ? & _ & Hf & Hl & _ & HP & _).
      inversion Hf; subst. fold final in HP. congruence. }
  destruct (unemployment_rate first) as [su|] eqn:E3.
  2:{ split; [discriminate|].
      intros (f & fi & ? & ? & ? & ? & _ & Hf & _ & _ & _ & HP & _).
      inversion Hf; subst. congruence. }
  destruct (unemployment_rate final) as [eu|] eqn:E4.
  2:{ split; [discriminate|].
      intros (f & fi & ? & ? & ? & ? & _ & Hf & Hl & _ & _ & _ & HP & _).
      inversion Hf; subst. fold final in HP. congruence. }
  destruct ((0 <? Year final - Year first)%Z && Qpositive se) eqn:G.
  - apply andb_prop in G. destruct G as [G1 G2].
    apply Z.ltb_lt in G1. apply Qpositive_iff in G2. split.
    + intros H. inversion H; subst.
      exists first, final, se, ee, su, eu. repeat split; auto; lia.
    + intros (f & fi & se' & ee' & su' & eu' & _ & Hf & Hl & H1 & H2 & H3 & H4
              & _ & _ & ->).
      inversion Hf; subst f. fold final in Hl. subst fi.
      rewrite E1 in H1. rewrite E2 in H2. rewrite E3 in H3. rewrite E4 in H4.
      inversion H1; inversion H2; inversion H3; inversion H4; subst.
      reflexivity.
  - split; [discriminate|].
    intros (f & fi & se' & ee' & su' & eu' & _ & Hf & Hl & H1 & _ & _ & _
            & Hy & Hs & _).
    inversion Hf; subst f. fold final in Hl. subst fi.
    rewrite E1 in H1. inversion H1; subst se'.
    apply andb_false_iff in G. destruct G as [G|G].
    + apply Z.ltb_ge in G. lia.
    + apply Qpositive_iff in Hs. congruence.
Qed.

End EmploymentTrend.

Lemma float_pow_1 (x : R) : (0 < x)%R -> Pandas.float_pow x 1 = x.
Proof.
  intros H. unfold Pandas.float_pow. destruct (Rlt_dec 0 x); [|contradiction].
  now apply Rpower_1.
Qed.

(** C6: a location with at least two observations in which employed and
    unemployment_rate are both present, a positive starting employment and
    distinct start and end years gets an analysis row, and its composite
    score is the employment CAGR minus twice (end unemployment rate minus
    start unemployment rate). Employment going from 100000 to 105000 in
    one year (CAGR 5) with the unemployment rate going from 4.5 to 3.5
    (change -1) gives the composite score 7. *)
Theorem composite_score_of_location (sort_values : Pandas.sorter)
  (key : Pandas.group_key) (location_data : list bls_data.EmploymentRecord) :
  Pandas.sort_contract sort_values ->
  let observations :=
    filter bls_data.both_observed
           (sort_values _ census_data.year_leb location_data) in
  (forall first final se ee su eu,
      (2 <= List.length observations)%nat ->
      hd_error observations = Some first ->
      last observations first = final ->
      bls_data.employed first = Some se ->
      bls_data.employed final = Some ee ->
      bls_data.unemployment_rate first = Some su ->
      bls_data.unemployment_rate final = Some eu ->
      (0 < se)%Q ->
      Year first <> Year final ->
      exists row,
        bls_data.location_employment sort_values key location_data = Some row
        /\ bls_data.Employment_CAGR_Pct row
           = ((Pandas.float_pow (Q2R ee / Q2R se)
                 (1 / IZR (Year final - Year first)) - 1) * 100)%R
        /\ bls_data.Composite_Score row
           = (bls_data.Employment_CAGR_Pct row - 2 * (Q2R eu - Q2R su))%R)
  /\ (forall row,
        bls_data.location_employment sort_values key location_data = Some row ->
        bls_data.Composite_Score row
        = (bls_data.Employment_CAGR_Pct row
           - 2 * (Q2R (bls_data.End_Unemployment_Rate row)
                  - Q2R (bls_data.Start_Unemployment_Rate row)))%R)
  /\ (exists row,
        bls_data.location_employment sort_values key
          [ mk_record 2016 "Tampa" "FL" "Hillsborough County"
              (Some (35 # 10)%Q, Some (105000 # 1)%Q);
            mk_record 2015 "Tampa" "FL" "Hillsborough County"
              (Some (45 # 10)%Q, Some (100000 # 1)%Q) ]
        = Some row
        /\ bls_data.Employment_CAGR_Pct row = 5%R
        /\ bls_data.Unemployment_Change row = (-1)%R
        /\ bls_data.Composite_Score row = 7%R).
Proof.
  intros Hc. cbv zeta. split; [|split].
  - intros first final se ee su eu Hlen Hhd Hlast H1 H2 H3 H4 Hpos Hne.
    destruct (observations_ends bls_data.both_observed sort_values Hc
                location_data first Hhd) as (_ & Hl1 & _ & Hl2 & Hends).
    rewrite Hlast in Hl1, Hl2, Hends.
    assert (Hlt : (Year first < Year final)%Z)
      by (specialize (Hends final Hl1 Hl2); lia).
    exists (employment_row key first final se ee su eu).
    split; [|split].
    + apply location_employment_iff. cbv zeta.
      exists first, final, se, ee, su, eu. repeat split; auto.
    + reflexivity.
    + unfold employment_row. cbn [bls_data.Composite_Score bls_data.Employment_CAGR_Pct].
      lra.
  - intros row H. apply location_employment_iff in H. cbv zeta in H.
    destruct H as (f & fi & se & ee & su & eu & _ & _ & _ & _ & _ & _ & _ & _ & _ & ->).
    unfold employment_row.
    cbn [bls_data.Composite_Score bls_data.Employment_CAGR_Pct
         bls_data.End_Unemployment_Rate bls_data.Start_Unemployment_Rate].
    lra.
  - set (a := mk_record 2015 "Tampa" "FL" "Hillsborough County"
                (Some (45 # 10)%Q, Some (100000 # 1)%Q)).
    set (b := mk_record 2016 "Tampa" "FL" "Hillsborough County"
                (Some (35 # 10)%Q, Some (105000 # 1)%Q)).
    assert (Hcagr :
      ((Pandas.float_pow (Q2R (105000 # 1) / Q2R (100000 # 1))
          (1 / IZR (2016 - 2015)) - 1) * 100 = 5)%R).
    { replace (2016 - 2015)%Z with 1%Z by reflexivity.
      replace (1 / 1)%R with 1%R by lra.
      unfold Q2R. cbn [Qnum Qden].
      replace (IZR 105000 * / IZR 1 / (IZR 100000 * / IZR 1))%R with 1.05%R by lra.
      rewrite float_pow_1 by lra. lra. }
    assert (Hchange : (Q2R (35 # 10) - Q2R (45 # 10) = -1)%R).
    { unfold Q2R. cbn [Qnum Qden]. lra. }
    exists (employment_row key a b (100000 # 1) (105000 # 1) (45 # 10) (35 # 10)).
    split; [|split; [|split]].
    + apply location_employment_iff. cbv zeta.
      rewrite (sort_two sort_values a b Hc) by (simpl; lia).
      exists a, b, (100000 # 1)%Q, (105000 # 1)%Q, (45 # 10)%Q, (35 # 10)%Q.
      repeat split; simpl; try lia; reflexivity.
    + unfold employment_row. cbn [bls_data.Employment_CAGR_Pct a b Year].
      exact Hcagr.
    + unfold employment_row. cbn [bls_data.Unemployment_Change]. exact Hchange.
    + unfold employment_row. cbn [bls_data.Composite_Score a b Year].
      rewrite Hcagr, Hchange. lra.
Qed.

(** The theorem at work with the insertion sort. *)
Lemma composite_score_of_location_witness :
  exists row,
    bls_data.location_employment Pandas.insertion_sort
      ("Tampa", "FL", "Hillsborough County")
      [ mk_record 2016 "Tampa" "FL" "Hillsborough County"
          (Some (35 # 10)%Q, Some (105000 # 1)%Q);
        mk_record 2015 "Tampa" "FL" "Hillsborough County"
          (Some (45 # 10)%Q, Some (100000 # 1)%Q) ]
    = Some row
    /\ bls_data.Employment_CAGR_Pct row = 5%R
    /\ bls_data.Unemployment_Change row = (-1)%R
    /\ bls_data.Composite_Score row = 7%R.
Proof.
  exact (proj2 (proj2 (composite_score_of_location Pandas.insertion_sort
                         ("Tampa", "FL", "Hillsborough County") []
                         insertion_sort_contract))).
Defined.

(* ------------------------------------------------------------------ *)
(** ** Crime table parser *)

Section CrimeRows.
Import Py Pandas crime_data.

Lemma dict_set_keeps_key (d : dict string) (k k' v : string) :
  has_key k d -> has_key k (dict_set d k' v).
Proof.
  unfold has_key. intros [x Hx]. induction d as [|[k0 v0] d IH]; [discriminate|].
  simpl in *. destruct (String.eqb k0 k') eqn:E; simpl.
  - destruct (String.eqb k0 k); [now exists v|now exists x].
  - destruct (String.eqb k0 k); [now exists x|now apply IH].
Qed.

Lemma fill_years_keeps_key (f : string -> string) (headers : list string)
  (cells : list td) (k : string) :
  forall i d, has_key k d -> has_key k (fill_years f headers i cells d).
Proof.
  induction cells as [|c cells IH]; intros i d H; simpl; [assumption|].
  apply IH. destruct (nth_error headers i); [now apply dict_set_keeps_key|assumption].
Qed.

Lemma keyed_initial (f : string -> string) (headers : list string) (cells : list td)
  (city_name crime_type : string) :
  keyed (fill_years f headers 1 cells [("City", city_name); ("Crime_Type", crime_type)]).
Proof.
  split; apply fill_years_keeps_key; [now exists city_name|now exists crime_type].
Qed.

Lemma collect_rows_keyed (city_name : string) (headers : list string)
  (body : list (list td)) (footer : option (option (list td))) :
  Forall keyed (collect_rows city_name headers body footer).
Proof.
  unfold collect_rows.
  assert (Hb : forall acc, Forall keyed acc ->
                           Forall keyed (fold_left (body_row city_name headers) body acc)).
  { induction body as [|cells body IH]; intros acc Hacc; simpl; [assumption|].
    apply IH. unfold body_row.
    destruct (2 <=? List.length cells)%nat; [|assumption].
    destruct cells as [|first others]; [assumption|].
    destruct (bold first) as [b|]; [|assumption].
    destruct (String.eqb (strip b) "City-Data.com crime index"); [assumption|].
    apply Forall_app. split; [assumption|].
    constructor; [apply keyed_initial|constructor]. }
  specialize (Hb [] (Forall_nil _)).
  unfold footer_row. destruct footer as [[cells|]|]; try assumption.
  destruct (2 <=? List.length cells)%nat; [|assumption].
  destruct (negb (existsb is_crime_index _)); [|assumption].
  apply Forall_app. split; [assumption|].
  constructor; [apply keyed_initial|constructor].
Qed.

(** The footer row is added only when no body row is a Crime Index row. *)
Lemma footer_row_only_when_absent (city_name : string) (headers : list string)
  (body : list (list td)) (footer : option (option (list td))) :
  existsb is_crime_index (fold_left (body_row city_name headers) body []) = true ->
  collect_rows city_name headers body footer
  = fold_left (body_row city_name headers) body [].
Proof.
  intros H. unfold collect_rows, footer_row. rewrite H.
  destruct footer as [[cells|]|]; try reflexivity.
  now destruct (2 <=? List.length cells)%nat.
Qed.

End CrimeRows.

Section Frames.
Import Py Pandas.

Lemma row_get_map (f : string -> cell) (cols : list string) (c : string) :
  row_get cols (map f cols) c = if existsb (String.eqb c) cols then f c else NaN.
Proof.
  induction cols as [|h t IH]; simpl; [reflexivity|].
  rewrite (String.eqb_sym c h).
  destruct (String.eqb_spec h c) as [->|_]; simpl; [reflexivity|apply IH].
Qed.

Lemma existsb_eqb_In (c : string) (cols : list string) :
  existsb (String.eqb c) cols = true <-> In c cols.
Proof.
  rewrite existsb_exists. split.
  - intros (x & Hx & E). apply String.eqb_eq in E. now subst.
  - intros H. exists c. split; [assumption|apply String.eqb_refl].
Qed.

Lemma add_keys_mono (d : dict string) :
  forall cols c, In c cols -> In c (add_keys cols d).
Proof.
  induction d as [|kv d IH]; intros cols c H; simpl; [assumption|].
  apply IH. destruct (existsb _ cols); [assumption|]. apply in_or_app. now left.
Qed.

Lemma add_keys_has (d : dict string) :
  forall cols k v, dict_get d k = Some v -> In k (add_keys cols d).
Proof.
  induction d as [|[k0 v0] d IH]; intros cols k v H; [discriminate|].
  simpl in H. simpl. destruct (String.eqb_spec k0 k) as [->|_].
  - apply add_keys_mono.
    destruct (existsb (String.eqb k) cols) eqn:E.
    + now apply existsb_eqb_In.
    + apply in_or_app. right. now left.
  - now apply (IH _ k v).
Qed.

Lemma frame_of_dicts_columns (records : list (dict string)) (d : dict string)
  (k v : string) :
  In d records -> dict_get d k = Some v -> In k (columns (frame_of_dicts records)).
Proof.
  unfold frame_of_dicts. cbn [columns].
  change (fold_left _ records []) with (fold_left add_keys records []).
  generalize (@nil string) as cols.
  induction records as [|r records IH]; intros cols Hin Hk; [contradiction|].
  simpl. destruct Hin as [->|Hin].
  - assert (Hm : forall l cols' c, In c cols' -> In c (fold_left add_keys l cols')).
    { induction l as [|x l IHl]; intros cols' c Hc; simpl; [assumption|].
      apply IHl. now apply add_keys_mono. }
    apply Hm. now apply (add_keys_has d cols k v).
  - now apply IH.
Qed.

End Frames.

Section CrimeDedup.
Import Py Pandas crime_data.

Lemma mask_rows_keep (cols : list string) (l : list (list cell)) :
  mask_rows l
    (map (fun p => negb (fst p && snd p))
         (combine (duplicated_last cols ["City"; "Crime_Type"] l)
                  (map (fun r => is_index_cell (row_get cols r "Crime_Type")) l)))
  = keep_last_index cols l.
Proof.
  induction l as [|r rest IH]; [reflexivity|].
  cbn [duplicated_last map combine mask_rows keep_last_index fst snd].
  rewrite IH. fold (same_pair cols r). fold (is_index_row cols r).
  now destruct (existsb (same_pair cols r) rest && is_index_row cols r).
Qed.

Lemma frame_of_rows_eq (crime_data : list (dict string)) :
  is_empty (frame_of_dicts crime_data) = false ->
  frame_of_rows crime_data
  = mk_frame (columns (kept_frame crime_data))
      (map fill_row
           (keep_last_index (columns (kept_frame crime_data))
                            (rows (kept_frame crime_data)))).
Proof.
  intros H. unfold frame_of_rows. rewrite H. cbv zeta.
  fold (kept_frame crime_data). unfold fillna. cbn [columns rows].
  now rewrite mask_rows_keep.
Qed.

Lemma keep_last_index_incl (cols : list string) (l : list (list cell)) (r : list cell) :
  In r (keep_last_index cols l) -> In r l.
Proof.
  induction l as [|h t IH]; simpl; [auto|].
  destruct (existsb (same_pair cols h) t && is_index_row cols h).
  - intros H. right. now apply IH.
  - intros [<-|H]; [now left|right; now apply IH].
Qed.

Lemma is_index_of_same_pair (c : string) (cols : list string) (r r' : list cell) :
  is_index_of c cols r = true -> is_index_of c cols r' = true ->
  same_pair cols r r' = true.
Proof.
  unfold is_index_of, is_index_row, is_index_cell, same_pair. cbn [forallb].
  intros H H'. apply andb_prop in H, H'. destruct H as [H1 H2], H' as [H1' H2'].
  destruct (row_get cols r "City") as [|x|]; try discriminate.
  destruct (row_get cols r' "City") as [|x'|]; try discriminate.
  destruct (row_get cols r "Crime_Type") as [|y|]; try discriminate.
  destruct (row_get cols r' "Crime_Type") as [|y'|]; try discriminate.
  cbn [cell_eqb] in *. apply String.eqb_eq in H1, H1', H2, H2'. subst.
  now rewrite !String.eqb_refl.
Qed.

(** After the removal step a city has at most one Crime Index row. *)
Lemma keep_last_index_unique (c : string) (cols : list string) (l : list (list cell)) :
  (List.length (filter (is_index_of c cols) (keep_last_index cols l)) <= 1)%nat.
Proof.
  induction l as [|r rest IH]; simpl; [lia|].
  destruct (existsb (same_pair cols r) rest) eqn:Edup; simpl.
  - destruct (is_index_row cols r) eqn:Ei; [exact IH|].
    simpl. unfold is_index_of at 1. rewrite Ei, andb_false_r. exact IH.
  - simpl. destruct (is_index_of c cols r) eqn:Er; [|exact IH].
    assert (Hnone : filter (is_index_of c cols) (keep_last_index cols rest) = []).
    { destruct (filter (is_index_of c cols) (keep_last_index cols rest))
        as [|r' t] eqn:Ef; [reflexivity|].
      assert (Hr' : In r' (filter (is_index_of c cols) (keep_last_index cols rest)))
        by (rewrite Ef; now left).
      apply filter_In in Hr'. destruct Hr' as [Hin Hp].
      apply keep_last_index_incl in Hin.
      assert (existsb (same_pair cols r) rest = true).
      { apply existsb_exists. exists r'. split; [assumption|].
        now apply (is_index_of_same_pair c). }
      congruence. }
    rewrite Hnone. simpl. lia.
Qed.

(** Rows of the other categories are all kept. *)
Lemma keep_last_index_others (cols : list string) (l : list (list cell)) :
  filter (fun r => negb (is_index_row cols r)) (keep_last_index cols l)
  = filter (fun r => negb (is_index_row cols r)) l.
Proof.
  induction l as [|r rest IH]; simpl; [reflexivity|].
  destruct (is_index_row cols r) eqn:Ei; rewrite ?andb_true_r, ?andb_false_r; simpl.
  - destruct (existsb (same_pair cols r) rest); simpl; rewrite ?Ei; simpl; exact IH.
  - rewrite Ei. simpl. now rewrite IH.
Qed.

(** The last Crime Index row of a city is kept. *)
Lemma keep_last_index_last (cols : list string) (l1 l2 : list (list cell))
  (r : list cell) :
  existsb (same_pair cols r) l2 = false ->
  In r (keep_last_index cols (l1 ++ r :: l2)).
Proof.
  intros H. induction l1 as [|h t IH]; simpl.
  - rewrite H. simpl. now left.
  - destruct (_ && _); [assumption|now right].
Qed.

Lemma row_get_fill_index (cols : list string) (r : list cell) :
  is_index_row cols (fill_row r) = is_index_row cols r.
Proof.
  unfold is_index_row. revert r.
  induction cols as [|c cols IH]; intros [|v r]; simpl; try reflexivity.
  destruct (String.eqb c "Crime_Type"); [|apply IH].
  now destruct v.
Qed.

Lemma row_get_fill_Str (cols : list string) (r : list cell) (c v : string) :
  row_get cols r c = Str v -> row_get cols (fill_row r) c = Str v.
Proof.
  revert r. induction cols as [|h cols IH]; intros [|x r]; simpl; try discriminate.
  destruct (String.eqb h c); [|apply IH].
  intros ->. reflexivity.
Qed.

End CrimeDedup.

Section CrimeFrame.
Import Py Pandas crime_data.

Lemma kept_rows_city (records : list (dict string)) (r : list cell) :
  Forall keyed records -> In r (rows (kept_frame records)) ->
  exists v, row_get (columns (kept_frame records)) r "City" = Str v.
Proof.
  intros Hk Hr. unfold kept_frame in *. cbv zeta in *.
  set (df := frame_of_dicts records) in *.
  cbn [select rows columns] in *.
  apply in_map_iff in Hr. destruct Hr as (r0 & <- & Hr0).
  unfold df, frame_of_dicts in Hr0. cbn [rows] in Hr0.
  apply in_map_iff in Hr0. destruct Hr0 as (d & Hd & Hin).
  destruct (proj1 (Forall_forall _ _) Hk d Hin) as [[v Hv] _].
  assert (Hcol : In "City" (columns df))
    by (apply (frame_of_dicts_columns records d "City" v Hin Hv)).
  assert (Hhas : has_column df "City" = true)
    by (unfold has_column; now apply existsb_eqb_In).
  exists v. rewrite row_get_map.
  cbn [filter]. rewrite Hhas. cbn [existsb]. rewrite String.eqb_refl. cbn [orb].
  subst r0. fold (columns df) in *.
  change (fold_left _ records []) with (columns df).
  rewrite row_get_map. unfold has_column in Hhas. rewrite Hhas. now rewrite Hv.
Qed.

Lemma keyed_not_empty (d : dict string) (records : list (dict string)) :
  Forall keyed (d :: records) -> is_empty (frame_of_dicts (d :: records)) = false.
Proof.
  intros Hk. inversion Hk as [|? ? [[v Hv] _] _]; subst.
  pose proof (frame_of_dicts_columns (d :: records) d "City" v
                (or_introl eq_refl) Hv) as Hcol.
  unfold is_empty. destruct (columns (frame_of_dicts (d :: records))); [contradiction|].
  reflexivity.
Qed.

Lemma filter_map_length {A B : Type} (p : B -> bool) (f : A -> B) (l : list A) :
  List.length (filter p (map f l)) = List.length (filter (fun x => p (f x)) l).
Proof.
  induction l as [|x l IH]; simpl; [reflexivity|].
  destruct (p (f x)); simpl; now rewrite IH.
Qed.

Lemma filter_map_comm {A B : Type} (p : B -> bool) (f : A -> B) (l : list A) :
  filter p (map f l) = map f (filter (fun x => p (f x)) l).
Proof.
  induction l as [|x l IH]; simpl; [reflexivity|].
  destruct (p (f x)); simpl; now rewrite IH.
Qed.

End CrimeFrame.

Example repeated_murders_run :
  crime_data.parse_crime_table (Some repeated_murders) "Tampa, FL"
  = Py.Return (Some (Pandas.mk_frame ["City"; "Crime_Type"; "2021"; "2022"]
      [ [Pandas.Str "Tampa, FL"; Pandas.Str "Murders";
         Pandas.Str "12 (3.4)"; Pandas.Str "10 (2.9)"];
        [Pandas.Str "Tampa, FL"; Pandas.Str "Murders";
         Pandas.Str "15 (4.0)"; Pandas.Str "0"];
        [Pandas.Str "Tampa, FL"; Pandas.Str "Crime Index";
         Pandas.Str "345.2"; Pandas.Str "Not Found"] ])).
Proof. vm_compute. reflexivity. Qed.

(** C8, as stated, fails: the two rows of (Tampa, Murders) are both in the
    parser's output. *)
Lemma repeated_category_rows_are_both_kept :
  ~ (forall (t : crime_data.crtable) (city_name : string) (df : Pandas.DataFrame),
       crime_data.parse_crime_table (Some t) city_name = Py.Return (Some df) ->
       NoDup (map (fun r => (Pandas.row_get (Pandas.columns df) r "City",
                             Pandas.row_get (Pandas.columns df) r "Crime_Type"))
                  (Pandas.rows df))).
Proof.
  intros H.
  specialize (H repeated_murders "Tampa, FL" _ repeated_murders_run).
  cbn in H. inversion H as [|? ? Hnotin _]; subst.
  apply Hnotin. now left.
Qed.

(** C8, amended: the footer-derived Crime Index row is added only when no
    body row is a Crime Index row; in the parser's output a city has at
    most one Crime Index row, and of several Crime Index rows of a city it
    is the last-constructed one that is kept; the rows of every other
    category are all kept, repeated (city, category) pairs included. *)
Theorem crime_index_rows_are_deduplicated
  (city_name : string) (ths : list string) (body : list (list crime_data.td))
  (footer : option (option (list crime_data.td))) :
  let headers := map Py.strip ths in
  let body_rows := fold_left (crime_data.body_row city_name headers) body [] in
  let crime_data := crime_data.collect_rows city_name headers body footer in
  let kept := kept_frame crime_data in
  let df := crime_data.frame_of_rows crime_data in
  crime_data.parse_crime_table
    (Some (crime_data.mk_table (Some (Some ths)) (Some body) footer)) city_name
  = Py.Return (Some df)
  /\ (existsb crime_data.is_crime_index body_rows = true -> crime_data = body_rows)
  /\ (forall c,
        (List.length (filter (is_index_of c (Pandas.columns df)) (Pandas.rows df))
         <= 1)%nat)
  /\ (forall l1 r l2,
        Pandas.rows kept = l1 ++ r :: l2 ->
        is_index_row (Pandas.columns kept) r = true ->
        existsb (same_pair (Pandas.columns kept) r) l2 = false ->
        In (fill_row r) (Pandas.rows df))
  /\ filter (fun r => negb (is_index_row (Pandas.columns df) r)) (Pandas.rows df)
     = map fill_row
         (filter (fun r => negb (is_index_row (Pandas.columns kept) r))
                 (Pandas.rows kept)).
Proof.
  cbv zeta.
  set (headers := map Py.strip ths).
  pose proof (collect_rows_keyed city_name headers body footer) as Hk.
  split; [reflexivity|].
  split; [intros H; now apply footer_row_only_when_absent|].
  remember (crime_data.collect_rows city_name headers body footer) as records
    eqn:Er.
  clear Er. destruct records as [|d records'].
  { split; [intros c; cbn; lia|].
    split; [intros l1 r l2 H; cbn in H; destruct l1; discriminate|reflexivity]. }
  pose proof (keyed_not_empty d records' Hk) as Hne.
  remember (d :: records') as records eqn:Er. clear Er.
  rewrite (frame_of_rows_eq records Hne). cbn [Pandas.columns Pandas.rows].
  set (cols := Pandas.columns (kept_frame records)).
  set (pre := Pandas.rows (kept_frame records)).
  assert (Hcity : forall r, In r (keep_last_index cols pre) ->
                            exists v, Pandas.row_get cols r "City" = Pandas.Str v).
  { intros r Hr. apply keep_last_index_incl in Hr. now apply kept_rows_city. }
  split; [|split].
  - intros c. rewrite filter_map_length.
    rewrite (filter_ext_in _ (is_index_of c cols)).
    + apply keep_last_index_unique.
    + intros r Hr. destruct (Hcity r Hr) as [v Hv].
      unfold is_index_of. rewrite row_get_fill_index.
      now rewrite (row_get_fill_Str cols r "City" v Hv), Hv.
  - intros l1 r l2 Hpre _ Hlast. apply in_map. rewrite Hpre.
    now apply keep_last_index_last.
  - rewrite filter_map_comm. f_equal.
    rewrite (filter_ext _ (fun r => negb (is_index_row cols r))).
    + apply keep_last_index_others.
    + intros r. now rewrite row_get_fill_index.
Qed.

(* ------------------------------------------------------------------ *)
(** ** String order *)

Lemma ascii_compare_lt_trans (a b c : ascii) :
  Ascii.compare a b = Lt -> Ascii.compare b c = Lt -> Ascii.compare a c = Lt.
Proof.
  unfold Ascii.compare. rewrite !N.compare_lt_iff. lia.
Qed.

Lemma string_compare_lt_trans (s1 : string) :
  forall s2 s3, String.compare s1 s2 = Lt -> String.compare s2 s3 = Lt ->
                String.compare s1 s3 = Lt.
Proof.
  induction s1 as [|a s1 IH]; intros [|b s2] [|c s3]; simpl; try congruence.
  destruct (Ascii.compare a b) eqn:Eab; try discriminate;
    destruct (Ascii.compare b c) eqn:Ebc; try discriminate; intros H1 H2.
  - apply Ascii.compare_eq_iff in Eab, Ebc. subst.
    replace (Ascii.compare c c) with Eq; [now apply (IH s2)|].
    symmetry. unfold Ascii.compare. apply N.compare_refl.
  - apply Ascii.compare_eq_iff in Eab. subst. now rewrite Ebc.
  - apply Ascii.compare_eq_iff in Ebc. subst. now rewrite Eab.
  - now rewrite (ascii_compare_lt_trans a b c).
Qed.

Lemma string_leb_trans (s1 s2 s3 : string) :
  String.leb s1 s2 = true -> String.leb s2 s3 = true -> String.leb s1 s3 = true.
Proof.
  unfold String.leb.
  destruct (String.compare s1 s2) eqn:E12; try discriminate;
    destruct (String.compare s2 s3) eqn:E23; try discriminate; intros _ _.
  - apply String.compare_eq_iff in E12, E23. subst. now rewrite string_compare_refl.
  - apply String.compare_eq_iff in E12. subst. now rewrite E23.
  - apply String.compare_eq_iff in E23. subst. now rewrite E12.
  - now rewrite (string_compare_lt_trans s1 s2 s3).
Qed.

Lemma string_leb_refl (s : string) : String.leb s s = true.
Proof. unfold String.leb. now rewrite string_compare_refl. Qed.

(** [latest_year_col] picks a member that no member exceeds. *)
Lemma latest_year_col_max (c : string) (rest : list string) :
  In (data_analysis.latest_year_col (c :: rest)) (c :: rest)
  /\ forall x, In x (c :: rest) ->
               String.leb x (data_analysis.latest_year_col (c :: rest)) = true.
Proof.
  unfold data_analysis.latest_year_col.
  revert c. induction rest as [|h t IH]; intros c.
  - simpl. split; [now left|]. intros x [<-|[]]. apply string_leb_refl.
  - cbn [fold_left]. destruct (String.leb c h) eqn:E.
    + destruct (IH h) as [Hin Hmax]. split.
      * destruct Hin as [Hin|Hin]; [right; now left|right; now right].
      * intros x [<-|Hx].
        -- apply (string_leb_trans _ h); [assumption|]. apply Hmax. now left.
        -- now apply Hmax.
    + destruct (IH c) as [Hin Hmax]. split.
      * destruct Hin as [Hin|Hin]; [now left|right; now right].
      * intros x [<-|[<-|Hx]].
        -- apply Hmax. now left.
        -- apply (string_leb_trans _ c); [|apply Hmax; now left].
           destruct (String.leb_total h c); congruence.
        -- apply Hmax. now right.
Qed.

(* ------------------------------------------------------------------ *)
(** ** Reconciliation *)

Section Reconcile.
Import Py Pandas data_analysis.

Lemma is_empty_false (df : DataFrame) :
  is_empty df = false <-> columns df <> [] /\ rows df <> [].
Proof.
  unfold is_empty. destruct (columns df), (rows df); split;
    try discriminate; try (intros [H1 H2]; congruence); try reflexivity.
  intros _. split; discriminate.
Qed.

Lemma select_not_empty (c : string) (cols : list string) (df : DataFrame) :
  is_empty df = false -> is_empty (select (c :: cols) df) = false.
Proof.
  intros H. apply is_empty_false in H. destruct H as [_ Hr].
  apply is_empty_false. cbn [select columns rows]. split; [discriminate|].
  destruct (rows df); [contradiction|discriminate].
Qed.

Lemma get_columns_ok (cols : list string) (df : DataFrame) :
  forallb (has_column df) cols = true -> get_columns cols df = Return (select cols df).
Proof.
  intros H. unfold get_columns.
  destruct (find (fun c => negb (has_column df c)) cols) as [c|] eqn:E; [|reflexivity].
  apply find_some in E. destruct E as [Hin Hc].
  rewrite forallb_forall in H. rewrite (H c Hin) in Hc. discriminate.
Qed.

End Reconcile.

(** C9: with employment and crime absent, non-empty population and age
    tables (the population table with its County and Population columns,
    the age table with the columns County and Median Age) give a table
    whose columns are exactly County, Population, Median Age. In general
    the result without employment and crime is the population/age merge
    itself, an absent employment or crime input leaves the table as it is,
    and empty inputs still give a result. *)
Theorem reconcile_without_optional_inputs
  (population_df age_df : Pandas.DataFrame)
  (target_areas : option (Py.dict area_converter.area_info)) :
  Pandas.is_empty population_df = false ->
  Pandas.is_empty age_df = false ->
  Pandas.has_column population_df "County" = true ->
  Pandas.has_column population_df "Population" = true ->
  Pandas.columns age_df = ["County"; "Median Age"] ->
  (exists df,
      data_analysis.analyze_and_visualize_data population_df age_df None None
        target_areas = Py.Return df
      /\ Pandas.columns df = ["County"; "Population"; "Median Age"])
  /\ data_analysis.analyze_and_visualize_data population_df age_df None None
       target_areas
     = data_analysis.merge_population_age population_df age_df
  /\ (forall demographic_data crime_df,
        data_analysis.add_employment demographic_data None
        = Py.Return demographic_data
        /\ data_analysis.add_crime demographic_data None crime_df
           = Py.Return demographic_data)
  /\ data_analysis.analyze_and_visualize_data Pandas.empty_frame Pandas.empty_frame
       None None target_areas
     = Py.Return Pandas.empty_frame.
Proof.
  intros Hp Ha Hc Hn Hcols.
  assert (Hgen : data_analysis.analyze_and_visualize_data population_df age_df
                   None None target_areas
                 = data_analysis.merge_population_age population_df age_df).
  { unfold data_analysis.analyze_and_visualize_data.
    destruct (data_analysis.merge_population_age population_df age_df); reflexivity. }
  split; [|split; [exact Hgen|split; [intros; split; reflexivity|reflexivity]]].
  rewrite Hgen. unfold data_analysis.merge_population_age, data_analysis.add_population.
  rewrite Hp. rewrite get_columns_ok by (cbn [forallb]; now rewrite Hc, Hn).
  cbn [Py.bind]. unfold data_analysis.add_age. rewrite Ha.
  rewrite (select_not_empty _ _ _ Hp).
  unfold data_analysis.merge_on_county, Pandas.has_column.
  rewrite Hcols. cbn [Pandas.select Pandas.columns existsb String.eqb Ascii.eqb
                      Bool.eqb orb andb].
  eexists. split; [reflexivity|].
  unfold Pandas.merge_outer. cbn [Pandas.columns]. rewrite Hcols. reflexivity.
Qed.

(** The theorem at work on two small tables. *)
Lemma reconcile_without_optional_inputs_witness :
  exists df,
    data_analysis.analyze_and_visualize_data population_table age_table None None None
    = Py.Return df
    /\ Pandas.columns df = ["County"; "Population"; "Median Age"].
Proof.
  apply (reconcile_without_optional_inputs population_table age_table None);
    reflexivity.
Defined.

Section CrimeJoin.
Import Py Pandas data_analysis.

(** First match wins; without a match the city text stands for the county. *)
Lemma county_of_city_first_match (mapping : dict string) (x : string) :
  (exists m1 city county m2,
      mapping = m1 ++ (city, county) :: m2
      /\ city_matches x (city, county) = true
      /\ (forall e, In e m1 -> city_matches x e = false)
      /\ county_of_city mapping x = county)
  \/ ((forall e, In e mapping -> city_matches x e = false)
      /\ county_of_city mapping x = x).
Proof.
  unfold county_of_city.
  induction mapping as [|[c k] m IH]; simpl.
  - right. split; [intros e []|reflexivity].
  - destruct (city_matches x (c, k)) eqn:E.
    + left. exists [], c, k, m. repeat split; auto. intros e [].
    + destruct IH as [(m1 & c' & k' & m2 & -> & Hm & Hn & Hc)|[Hn Hc]].
      * left. exists ((c, k) :: m1), c', k', m2. repeat split; auto.
        intros e [<-|He]; auto.
      * right. split; [|assumption]. intros e [<-|He]; auto.
Qed.

Lemma dict_set_In {V : Type} (d : dict V) (k : string) (v : V) (e : string * V) :
  In e (dict_set d k v) -> e = (k, v) \/ In e d.
Proof.
  induction d as [|[k0 v0] d IH]; simpl.
  - intros [<-|[]]. now left.
  - destruct (String.eqb_spec k0 k) as [->|_]; simpl.
    + intros [<-|H]; [now left|right; now right].
    + intros [<-|H]; [right; now left|].
      destruct (IH H) as [->|H']; [now left|right; now right].
Qed.

(** Every entry of the mapping is the (city, county) of a target area. *)
Lemma city_to_county_mapping_In (target_areas : dict area_converter.area_info)
  (e : string * string) :
  In e (city_to_county_mapping target_areas) ->
  exists area, In area (dict_values target_areas)
               /\ e = (area_converter.city area, area_converter.county area).
Proof.
  unfold city_to_county_mapping.
  assert (H : forall l acc,
             In e (fold_left (fun m area => dict_set m (area_converter.city area)
                                              (area_converter.county area)) l acc) ->
             In e acc \/ exists area, In area l
               /\ e = (area_converter.city area, area_converter.county area)).
  { induction l as [|a l IH]; intros acc Hin; simpl in Hin; [now left|].
    destruct (IH _ Hin) as [H|(area & Ha & He)].
    - destruct (dict_set_In _ _ _ _ H) as [->|H']; [|now left].
      right. exists a. split; [now left|reflexivity].
    - right. exists area. split; [now right|assumption]. }
  intros Hin. destruct (H _ _ Hin) as [[]|H']. exact H'.
Qed.

Lemma with_county_shape (mapping : dict string) (summary : list (list cell)) :
  forall county_rows,
    with_county mapping summary = Return county_rows ->
    Forall2 (county_row mapping) summary county_rows.
Proof.
  induction summary as [|s summary IH]; intros county_rows H; simpl in H.
  - inversion H. constructor.
  - destruct s as [|[|x|] [|v rest]]; try discriminate.
    destruct (with_county mapping summary) as [rest'|] eqn:E; [|discriminate].
    simpl in H. inversion H; subst. constructor; [|now apply IH].
    now exists x, v, rest.
Qed.

Lemma join_left_row_county (demographic_data : DataFrame)
  (county_rows : list (list cell)) (l : list cell) :
  Forall pair_row county_rows ->
  join_left_row "County" demographic_data
    (mk_frame ["County"; "Crime_Index"] county_rows) l
  = map (fun v => l ++ [v])
        (joined_values county_rows (row_get (columns demographic_data) l "County")).
Proof.
  intros Hp. unfold join_left_row, right_matches, joined_values, crime_values.
  cbn [columns rows].
  set (k := row_get (columns demographic_data) l "County").
  assert (Hf : filter (fun r => cell_eqb (row_get ["County"; "Crime_Index"] r "County") k)
                      county_rows
               = filter (fun r => cell_eqb (hd NaN r) k) county_rows).
  { apply filter_ext_in. intros r Hr.
    destruct (proj1 (Forall_forall _ _) Hp r Hr) as (c & v & ->). reflexivity. }
  rewrite Hf.
  assert (Hsub : Forall pair_row (filter (fun r => cell_eqb (hd NaN r) k) county_rows)).
  { apply Forall_forall. intros r Hr. apply filter_In in Hr.
    now apply (proj1 (Forall_forall _ _) Hp). }
  destruct (filter (fun r => cell_eqb (hd NaN r) k) county_rows) as [|m ms];
    [reflexivity|].
  remember (m :: ms) as matches eqn:Em.
  assert (Hmap : map (fun r => l ++ drop_key "County" ["County"; "Crime_Index"] r) matches
                 = map (fun v => l ++ [v]) (map (fun r => nth 1 r NaN) matches)).
  { rewrite map_map. apply map_ext_in. intros r Hr.
    destruct (proj1 (Forall_forall _ _) Hsub r Hr) as (c & v & ->). reflexivity. }
  rewrite Hmap. subst matches. reflexivity.
Qed.

Lemma merged_columns_crime (cols : list string) :
  existsb (String.eqb "Crime_Index") cols = false ->
  merged_columns "County" cols ["County"; "Crime_Index"] = cols ++ ["Crime_Index"].
Proof.
  intros H. unfold merged_columns.
  replace (filter (fun c => negb (String.eqb c "County")) ["County"; "Crime_Index"])
    with ["Crime_Index"] by reflexivity.
  cbn [map]. rewrite H. f_equal.
  induction cols as [|c cols IH]; [reflexivity|].
  cbn [existsb] in H. apply orb_false_elim in H. destruct H as [Hc H].
  cbn [map]. rewrite (IH H). f_equal.
  cbn [existsb]. rewrite (String.eqb_sym c "Crime_Index"), Hc.
  cbn [orb]. now destruct (String.eqb c "County").
Qed.

End CrimeJoin.

Lemma one_row_per_value (county_rows : list (list Pandas.cell))
  (key_of : list Pandas.cell -> Pandas.cell) (l : list (list Pandas.cell)) :
  (forall r, In r l -> (List.length (crime_values county_rows (key_of r)) <= 1)%nat) ->
  map (@removelast Pandas.cell)
      (flat_map (fun r => map (fun v => r ++ [v])
                              (joined_values county_rows (key_of r))) l)
  = l.
Proof.
  induction l as [|r l IH]; intros H; [reflexivity|].
  cbn [flat_map]. rewrite map_app, IH by (intros; apply H; now right).
  specialize (H r (or_introl eq_refl)). unfold joined_values.
  destruct (crime_values county_rows (key_of r)) as [|v [|v' vs]];
    cbn [map app]; try (now rewrite removelast_last).
  simpl in H. lia.
Qed.

(** The join, for a crime table that has the year columns it looks for
    (the scraper supplies none, see below): when the crime table has Crime
    Index rows and columns recognised as year columns (names ending with
    _count), the column with the largest name in string
    order is taken as the most recent year; each crime city with a value
    in that column is given the county of the first entry of the
    city-to-county mapping of the target areas whose city contains it or
    is contained in it (case-insensitively), and its own text when no
    entry matches; the county/Crime_Index pairs are left-joined onto the
    demographic table: every demographic row appears in the result, in
    order, once for each crime city given its county and once with a null
    Crime_Index when there is none, so exactly once whenever at most one
    crime city is given its county. *)
Theorem crime_index_is_left_joined
  (demographic_data crime_df : Pandas.DataFrame)
  (target_areas : Py.dict area_converter.area_info)
  (county_rows : list (list Pandas.cell)) :
  let crime_index_data :=
    Pandas.mk_frame (Pandas.columns crime_df)
      (filter (data_analysis.is_crime_index_row (Pandas.columns crime_df))
              (Pandas.rows crime_df)) in
  let year_columns := data_analysis.year_columns crime_index_data in
  let latest := data_analysis.latest_year_col year_columns in
  let crime_summary :=
    Pandas.rows (Pandas.dropna (Pandas.mk_frame ["City"; "Crime_Index"]
       (Pandas.rows (Pandas.select ["City"; latest] crime_index_data)))) in
  let mapping := data_analysis.city_to_county_mapping target_areas in
  let county_of := fun l => Pandas.row_get (Pandas.columns demographic_data) l "County" in
  Pandas.is_empty demographic_data = false ->
  Pandas.has_column demographic_data "County" = true ->
  Pandas.has_column demographic_data "Crime_Index" = false ->
  Pandas.is_empty crime_df = false ->
  Pandas.has_column crime_df "Crime_Type" = true ->
  Pandas.has_column crime_df "City" = true ->
  Pandas.rows crime_index_data <> [] ->
  year_columns <> [] ->
  data_analysis.with_county mapping crime_summary = Py.Return county_rows ->
  (In latest year_columns
   /\ forall c, In c year_columns -> String.leb c latest = true)
  /\ Forall2 (county_row mapping) crime_summary county_rows
  /\ (forall x,
        (exists m1 city county m2,
            mapping = m1 ++ (city, county) :: m2
            /\ data_analysis.city_matches x (city, county) = true
            /\ (forall e, In e m1 -> data_analysis.city_matches x e = false)
            /\ data_analysis.county_of_city mapping x = county)
        \/ ((forall e, In e mapping -> data_analysis.city_matches x e = false)
            /\ data_analysis.county_of_city mapping x = x))
  /\ (exists df,
        data_analysis.add_crime demographic_data (Some crime_df) (Some target_areas)
        = Py.Return df
        /\ Pandas.columns df = Pandas.columns demographic_data ++ ["Crime_Index"]
        /\ Pandas.rows df
           = flat_map (fun l => map (fun v => l ++ [v])
                                    (joined_values county_rows (county_of l)))
                      (Pandas.rows demographic_data)
        /\ (forall l, crime_values county_rows (county_of l) = [] ->
                      joined_values county_rows (county_of l) = [Pandas.NaN])
        /\ ((forall l, In l (Pandas.rows demographic_data) ->
                       (List.length (crime_values county_rows (county_of l)) <= 1)%nat) ->
            map (@removelast Pandas.cell) (Pandas.rows df)
            = Pandas.rows demographic_data)).
Proof.
  cbv zeta. intros Hd Hdc Hdi Hc Hct Hcc Hidx Hy Hw.
  set (idx := Pandas.mk_frame (Pandas.columns crime_df)
                (filter (data_analysis.is_crime_index_row (Pandas.columns crime_df))
                        (Pandas.rows crime_df))) in *.
  destruct (data_analysis.year_columns idx) as [|yc ycs] eqn:Ey; [contradiction|].
  pose proof (latest_year_col_max yc ycs) as [Hin Hmax].
  set (latest := data_analysis.latest_year_col (yc :: ycs)) in *.
  pose proof (with_county_shape _ _ _ Hw) as Hshape.
  split; [now split|]. split; [exact Hshape|].
  split; [intros x; apply county_of_city_first_match|].
  assert (Hpairs : Forall pair_row county_rows).
  { clear -Hshape. induction Hshape as [|s c ss cs (x & v & rest & _ & ->) _ IH];
      constructor; auto. now exists (Pandas.Str (data_analysis.county_of_city
        (data_analysis.city_to_county_mapping target_areas) x)), v. }
  assert (Hie : Pandas.is_empty idx = false).
  { apply is_empty_false. apply is_empty_false in Hc. destruct Hc as [Hc1 _].
    split; assumption. }
  assert (Hlatest : Pandas.has_column idx latest = true).
  { unfold Pandas.has_column. apply existsb_eqb_In.
    assert (Hin' : In latest (data_analysis.year_columns idx))
      by (rewrite Ey; exact Hin).
    unfold data_analysis.year_columns in Hin'. apply filter_In in Hin'.
    now destruct Hin'. }
  eexists. split; [|split; [|split; [|split]]].
  - unfold data_analysis.add_crime. rewrite Hc, Hct. cbn [negb]. cbv zeta.
    fold idx. rewrite Hie, Ey. fold latest.
    rewrite get_columns_ok
      by (cbn [forallb]; rewrite Hlatest, andb_true_r; exact Hcc).
    cbn [Py.bind]. rewrite Hw. cbn [Py.bind]. rewrite Hd. cbn [negb].
    unfold data_analysis.merge_on_county. rewrite Hdc. reflexivity.
  - cbn [Pandas.merge_left Pandas.columns]. now apply merged_columns_crime.
  - cbn [Pandas.merge_left Pandas.rows]. apply flat_map_ext. intros l.
    now apply join_left_row_county.
  - intros l H. unfold joined_values. now rewrite H.
  - intros H. cbn [Pandas.merge_left Pandas.rows].
    rewrite (flat_map_ext _ _ (fun l => join_left_row_county demographic_data
                                          county_rows l Hpairs)).
    now apply one_row_per_value.
Qed.

Example two_cities_in_one_county_run :
  data_analysis.add_crime population_table (Some crime_counts) (Some florida_areas)
  = Py.Return
      (Pandas.mk_frame ["County"; "Population"; "Crime_Index"]
         [ [Pandas.Str "Orange County"; Pandas.Num 1400000; Pandas.Num (3905 # 10)];
           [Pandas.Str "Orange County"; Pandas.Num 1400000; Pandas.Num (1905 # 10)];
           [Pandas.Str "Hillsborough County"; Pandas.Num 1350000; Pandas.NaN] ]).
Proof. vm_compute. reflexivity. Qed.

(** With the year columns named as the parser names them, no column is
    recognised as a year column and the table comes back as it was. *)
Example crime_of_parser_is_not_joined :
  data_analysis.add_crime population_table (Some crime_of_parser) (Some florida_areas)
  = Py.Return population_table.
Proof. vm_compute. reflexivity. Qed.

(** With such a table, Orlando and Winter Park are both given Orange
    County, and every Orange County row of the demographic table comes
    out twice. *)
Lemma county_rows_are_repeated_for_two_cities :
  ~ (forall (population_df age_df crime_df : Pandas.DataFrame)
       (target_areas : Py.dict area_converter.area_info)
       (demographic_data df : Pandas.DataFrame),
       Pandas.is_empty crime_df = false ->
       existsb (data_analysis.is_crime_index_row (Pandas.columns crime_df))
               (Pandas.rows crime_df) = true ->
       target_areas <> [] ->
       data_analysis.merge_population_age population_df age_df
       = Py.Return demographic_data ->
       data_analysis.analyze_and_visualize_data population_df age_df None
         (Some crime_df) (Some target_areas) = Py.Return df ->
       List.length (Pandas.rows df) = List.length (Pandas.rows demographic_data)).
Proof.
  intros H.
  specialize (H florida_population florida_age crime_counts florida_areas).
  specialize (H _ _ eq_refl eq_refl ltac:(discriminate) eq_refl eq_refl).
  vm_compute in H. discriminate H.
Qed.

(** The theorem at work: Orange County has two crime cities, Hillsborough
    County none. *)
Lemma crime_index_is_left_joined_witness :
  exists df,
    data_analysis.add_crime population_table (Some crime_counts) (Some florida_areas)
    = Py.Return df
    /\ Pandas.columns df = ["County"; "Population"; "Crime_Index"]
    /\ Pandas.rows df
       = [ [Pandas.Str "Orange County"; Pandas.Num 1400000; Pandas.Num (3905 # 10)];
           [Pandas.Str "Orange County"; Pandas.Num 1400000; Pandas.Num (1905 # 10)];
           [Pandas.Str "Hillsborough County"; Pandas.Num 1350000; Pandas.NaN] ].
Proof.
  destruct (crime_index_is_left_joined population_table crime_counts florida_areas
              [ [Pandas.Str "Orange County"; Pandas.Num (3905 # 10)];
                [Pandas.Str "Orange County"; Pandas.Num (1905 # 10)] ])
    as (_ & _ & _ & df & Hdf & Hcols & Hrows & _);
    try reflexivity; try discriminate.
  exists df. split; [exact Hdf|]. split; [exact Hcols|exact Hrows].
Defined.

(* ------------------------------------------------------------------ *)
(** ** Employment fetch loop *)

Example bls_collect_run :
  bls_data.collect bls_ok 2015 2016 [("tampa_fl", tampa)]
  = [ mk_record 2015 "Tampa" "FL" "Hillsborough County"
        (Some (35 # 10)%Q, Some (700000 # 1)%Q);
      mk_record 2016 "Tampa" "FL" "Hillsborough County"
        (Some (35 # 10)%Q, Some (700000 # 1)%Q) ].
Proof. vm_compute. reflexivity. Qed.

(** A failed request leaves no record for its year: the employment
    fetcher has no placeholder record. *)
Example bls_failed_request_leaves_no_record :
  bls_data.collect bls_2016_down 2015 2016 [("tampa_fl", tampa)]
  = [ mk_record 2015 "Tampa" "FL" "Hillsborough County"
        (Some (35 # 10)%Q, Some (700000 # 1)%Q) ].
Proof. vm_compute. reflexivity. Qed.

(** Two cities of one county share their series: the later city takes the
    series over in [series_to_location], and the earlier one gets no record. *)
Example bls_two_cities_of_one_county :
  bls_data.collect bls_orange 2015 2015
    [("orlando_fl", orlando); ("winter_park_fl", winter_park)]
  = [ mk_record 2015 "Winter Park" "FL" "Orange County"
        (Some (31 # 10)%Q, Some (720000 # 1)%Q) ].
Proof. vm_compute. reflexivity. Qed.

(* ------------------------------------------------------------------ *)
(** ** The areas that the resolver returns *)

Section ResolvedAreas.
Import Py Net area_converter.

Lemma dict_set_keys {V : Type} (d : dict V) (k : string) (v : V) :
  map fst (dict_set d k v)
  = if existsb (String.eqb k) (map fst d) then map fst d else map fst d ++ [k].
Proof.
  induction d as [|[k0 v0] d IH]; simpl; [reflexivity|].
  rewrite (String.eqb_sym k k0).
  destruct (String.eqb_spec k0 k) as [->|_]; simpl; [reflexivity|].
  rewrite IH. now destruct (existsb (String.eqb k) (map fst d)).
Qed.

Lemma dict_set_NoDup {V : Type} (d : dict V) (k : string) (v : V) :
  NoDup (map fst d) -> NoDup (map fst (dict_set d k v)).
Proof.
  intros H. rewrite dict_set_keys.
  destruct (existsb (String.eqb k) (map fst d)) eqn:E; [assumption|].
  apply NoDup_app; [assumption|repeat constructor; intros []|].
  intros x Hx [Hk|[]]. subst x.
  assert (existsb (String.eqb k) (map fst d) = true)
    by (apply existsb_exists; exists k; split; [assumption|apply String.eqb_refl]).
  congruence.
Qed.

Lemma dict_set_well_keyed (target_areas : dict area_info) (area : area_info) :
  well_keyed target_areas ->
  well_keyed (dict_set target_areas (area_id_of (city area) (state area)) area).
Proof.
  intros [Hn Hf]. split; [now apply dict_set_NoDup|].
  apply Forall_forall. intros kv Hkv.
  destruct (dict_set_In _ _ _ _ Hkv) as [->|Hin]; [reflexivity|].
  now apply (proj1 (Forall_forall _ _) Hf).
Qed.

Lemma convert_row_well_keyed (w : web) acc (row : string * string) acc' :
  well_keyed (fst acc) -> convert_row w acc row = Return acc' ->
  well_keyed (fst acc').
Proof.
  unfold convert_row. destruct acc as [ta cm], row as [c s]. cbn [fst].
  intros Hk.
  destruct (dict_get state_mapping s) as [state_name|];
    [|intros H; inversion H; subst; exact Hk].
  destruct (w (city_url c state_name)) as [|status_code content]; [discriminate|].
  destruct (is_http_error status_code).
  { destruct (status_code =? 404)%Z; discriminate. }
  destruct (county_of_page content) as [county_name|]; [|discriminate].
  intros H. inversion H; subst. cbn [fst].
  match goal with
  | |- well_keyed (dict_set _ _ ?a) =>
      change (area_id_of c s) with (area_id_of (city a) (state a))
  end.
  now apply dict_set_well_keyed.
Qed.

Lemma convert_rows_well_keyed (w : web) (rows : list (string * string)) :
  forall acc acc',
    well_keyed (fst acc) -> convert_rows w acc rows = Return acc' ->
    well_keyed (fst acc').
Proof.
  induction rows as [|row rows IH]; intros acc acc' Hk H; simpl in H.
  - inversion H; subst. exact Hk.
  - destruct (convert_row w acc row) as [acc1|e] eqn:E; [|discriminate].
    simpl in H. apply (IH acc1 acc'); [|exact H].
    now apply (convert_row_well_keyed w acc row).
Qed.

Lemma well_keyed_locations (target_areas : dict area_info) :
  well_keyed target_areas ->
  NoDup (map area_location (dict_values target_areas)).
Proof.
  unfold dict_values. intros [Hn Hf].
  induction target_areas as [|[k a] t IH]; simpl; [constructor|].
  inversion Hn as [|? ? Hk Hn']; subst. inversion Hf as [|? ? Ha Hf']; subst.
  constructor; [|now apply IH].
  intros Hin. apply in_map_iff in Hin. destruct Hin as (b & Hb & Hin).
  apply in_map_iff in Hin. destruct Hin as ([kb b'] & Heq & Hin). simpl in Heq. subst b'.
  apply Hk. apply in_map_iff. exists (kb, b). split; [|assumption].
  pose proof (proj1 (Forall_forall _ _) Hf' _ Hin) as Hkb. simpl in Ha, Hkb |- *.
  unfold area_location in Hb. inversion Hb as [[H1 H2 H3]].
  rewrite Ha, Hkb, H1, H2. reflexivity.
Qed.

Lemma distinct_locations_filter (keep : area_info -> bool) (areas : list area_info) :
  NoDup (map area_location areas) ->
  NoDup (map area_location (filter keep areas)).
Proof.
  induction areas as [|a areas IH]; intros Hnd; [exact Hnd|].
  cbn [map] in Hnd. apply NoDup_cons_iff in Hnd. destruct Hnd as [Ha Hrest].
  cbn [filter]. destruct (keep a); [|exact (IH Hrest)].
  cbn [map]. apply NoDup_cons; [|exact (IH Hrest)].
  intros Hin. apply Ha. apply in_map_iff in Hin.
  destruct Hin as (b & Hb & Hin). apply filter_In in Hin.
  apply in_map_iff. exists b. tauto.
Qed.

(** The target areas that the resolver returns have pairwise distinct
    locations, which is what the record count of the fetchers relies on. *)
Lemma resolved_areas_distinct (w : web) (input_df : list (string * string))
  (target_areas : dict area_info) (county_mapping : dict string) :
  convert_input_to_target_areas w input_df = Return (target_areas, county_mapping) ->
  NoDup (map area_location (valid_areas target_areas)).
Proof.
  unfold convert_input_to_target_areas. intros H.
  destruct (convert_rows w ([], []) input_df) as [acc|e] eqn:E; [|discriminate].
  simpl in H. destruct (fst acc) eqn:Ef; [discriminate|].
  inversion H; subst acc. clear H.
  unfold valid_areas. apply distinct_locations_filter, well_keyed_locations.
  change target_areas with (fst (target_areas, county_mapping)).
  apply (convert_rows_well_keyed w input_df ([], []) _); [|exact E].
  split; constructor.
Qed.

End ResolvedAreas.

(* ================================================================== *)
(** * Further properties of the code *)
(* ================================================================== *)

(* ------------------------------------------------------------------ *)
(** ** County lookup: the first match *)

Section LookupOrder.
Import Py Net area_converter.

Lemma match_county_skips (q : string) (before rest : list (list string)) :
  Forall (unmatched q) before ->
  match_county q (before ++ rest) = match_county q rest.
Proof.
  induction 1 as [|county before (name & Hn & Hp) _ IH]; [reflexivity|].
  cbn [app]. rewrite match_county_first, Hn, Hp. exact IH.
Qed.

End LookupOrder.

(** C10: the county FIPS lookup returns a string on every path. Whatever
    raises inside its guarded block gives "000"; a failed fetch of the
    county list (no connection, an HTTP error status, a body that is not a
    JSON table with a header row) gives "000", and so does a list in which
    no candidate matches, so that the two cases cannot be told apart; on
    success the result is the third column of the first candidate of the
    list that matches the query, and no result other than "000" comes
    about in another way. The resolution of the city goes on with whatever
    the lookup returns: with the county list out of reach Tampa is
    resolved all the same, with the county code "000". *)
Theorem get_county_fips_code_total
  (w : Net.web) (state_fips county_name census_api_key : string) :
  let url := area_converter.county_list_url state_fips census_api_key in
  let result :=
    area_converter.get_county_fips_code w state_fips county_name census_api_key in
  match area_converter.county_fips_lookup w state_fips county_name census_api_key with
  | Py.Return code => result = code
  | Py.Raise _ => result = "000"
  end
  /\ (fetch_failed (w url) = true -> result = "000")
  /\ (forall status_code headers counties,
        w url = Net.Response status_code (Net.Json (headers :: counties)) ->
        Net.is_http_error status_code = false ->
        Forall (unmatched (area_converter.clean_query county_name)) counties ->
        result = "000")
  /\ (forall status_code headers before county after name code,
        w url = Net.Response status_code
                  (Net.Json (headers :: before ++ county :: after)) ->
        Net.is_http_error status_code = false ->
        Forall (unmatched (area_converter.clean_query county_name)) before ->
        nth_error county 0 = Some name ->
        area_converter.partial_match (area_converter.clean_query county_name)
          (area_converter.clean_candidate name) = true ->
        nth_error county 2 = Some code ->
        result = code)
  /\ (result = "000" \/
      exists status_code headers counties county name,
        w url = Net.Response status_code (Net.Json (headers :: counties))
        /\ In county counties
        /\ nth_error county 0 = Some name
        /\ area_converter.partial_match (area_converter.clean_query county_name)
             (area_converter.clean_candidate name) = true
        /\ nth_error county 2 = Some result)
  /\ (forall target_areas county_mapping city state state_name status_code content
             county,
        Py.dict_get area_converter.state_mapping state = Some state_name ->
        w (area_converter.city_url city state_name)
        = Net.Response status_code content ->
        Net.is_http_error status_code = false ->
        area_converter.county_of_page content = Some county ->
        exists code,
          area_converter.convert_row w (target_areas, county_mapping) (city, state)
          = Py.Return
              (Py.dict_set target_areas (area_converter.area_id_of city state)
                 (area_converter.mk_area state county code
                    (area_converter.get_county_fips_code w code county
                       area_converter.census_key) city),
               Py.dict_set county_mapping county city))
  /\ area_converter.get_county_fips_code georgia_web "13" "Chatham County"
       area_converter.census_key = "051"
  /\ area_converter.get_county_fips_code tampa_without_counties "12"
       "Hillsborough County" area_converter.census_key = "000"
  /\ area_converter.convert_input_to_target_areas tampa_without_counties
       [("Tampa", "FL")]
     = Py.Return
         ([("tampa_fl",
            area_converter.mk_area "FL" "Hillsborough County" "12" "000" "Tampa")],
          [("Hillsborough County", "Tampa")]).
Proof.
  cbv zeta.
  split; [unfold area_converter.get_county_fips_code;
          now destruct (area_converter.county_fips_lookup _ _ _ _)|].
  split; [|split; [|split; [|split; [|split; [|repeat split; vm_compute; reflexivity]]]]].
  5:{ intros ta cm city state state_name status_code content county Hs Hw He Hc.
      unfold area_converter.convert_row. rewrite Hs, Hw, He, Hc.
      eexists. reflexivity. }
  3:{ intros status_code headers before county after name code Hw Hs Hb Hn Hp Hc.
      unfold area_converter.get_county_fips_code, area_converter.county_fips_lookup.
      rewrite Hw, Hs, (match_county_skips _ _ _ Hb), match_county_first, Hn, Hp, Hc.
      reflexivity. }
  all: unfold area_converter.get_county_fips_code, area_converter.county_fips_lookup;
    destruct (w (area_converter.county_list_url state_fips census_api_key))
      as [|status_code content] eqn:Hw.
  - reflexivity.
  - simpl fetch_failed. destruct (Net.is_http_error status_code); [reflexivity|].
    destruct content as [b|[|headers counties]|]; try reflexivity. discriminate.
  - intros; discriminate.
  - intros s h c H Hs HF. inversion H; subst. rewrite Hs.
    now rewrite match_county_unmatched.
  - now left.
  - destruct (Net.is_http_error status_code) eqn:Hs; [now left|].
    destruct content as [b|[|headers counties]|]; try (now left).
    destruct (area_converter.match_county
                (area_converter.clean_query county_name) counties)
      as [code|e] eqn:Hm; [|now left].
    destruct (match_county_returns _ _ _ Hm)
      as [->|(cy & nm & Hin & H0 & H1 & H2)]; [now left|].
    right. exists status_code, headers, counties, cy, nm. repeat split; auto.
Qed.

(** The theorem at work: Chatham County is the first candidate of the
    Georgia list and its code is returned. *)
Lemma get_county_fips_code_total_witness :
  area_converter.get_county_fips_code georgia_web "13" "Chatham County"
    area_converter.census_key = "051".
Proof.
  destruct (get_county_fips_code_total georgia_web "13" "Chatham County"
              area_converter.census_key) as (_ & _ & _ & Hfirst & _).
  apply (Hfirst 200%Z ["NAME"; "state"; "county"] []
           ["Chatham County, Georgia"; "13"; "051"]
           [ ["Clay County, Georgia"; "13"; "061"];
             ["Clayton County, Georgia"; "13"; "063"] ]
           "Chatham County, Georgia" "051"); try reflexivity.
  constructor.
Defined.

(** X1: the county lookup returns the code of the first candidate of the
    list whose cleaned name equals the cleaned query or contains it or is
    contained in it, whatever candidates follow. *)
Theorem county_lookup_returns_first_match
  (w : Net.web) (state_fips county_name census_api_key : string)
  (status_code : Z) (headers : list string)
  (before after : list (list string)) (county : list string) (name code : string) :
  w (area_converter.county_list_url state_fips census_api_key)
  = Net.Response status_code (Net.Json (headers :: before ++ county :: after)) ->
  Net.is_http_error status_code = false ->
  Forall (unmatched (area_converter.clean_query county_name)) before ->
  nth_error county 0 = Some name ->
  area_converter.partial_match (area_converter.clean_query county_name)
    (area_converter.clean_candidate name) = true ->
  nth_error county 2 = Some code ->
  area_converter.get_county_fips_code w state_fips county_name census_api_key = code.
Proof.
  intros Hw Hs Hb Hn Hp Hc.
  unfold area_converter.get_county_fips_code, area_converter.county_fips_lookup.
  rewrite Hw, Hs, (match_county_skips _ _ _ Hb), match_county_first, Hn, Hp, Hc.
  reflexivity.
Qed.

(** The theorem at work: for Clayton County the first match of the Georgia
    list is Clay County. *)
Lemma county_lookup_returns_first_match_witness :
  area_converter.get_county_fips_code georgia_web "13" "Clayton County"
    area_converter.census_key = "061".
Proof.
  apply (county_lookup_returns_first_match georgia_web "13" "Clayton County"
           area_converter.census_key 200 ["NAME"; "state"; "county"]
           [["Chatham County, Georgia"; "13"; "051"]]
           [["Clayton County, Georgia"; "13"; "063"]]
           ["Clay County, Georgia"; "13"; "061"] "Clay County, Georgia" "061");
    try reflexivity.
  constructor; [|constructor].
  exists "Chatham County, Georgia". split; reflexivity.
Defined.

(* ------------------------------------------------------------------ *)
(** ** Resolver: what a successful run returns *)

Section ResolverResult.
Import Py Net area_converter.

Lemma dict_get_set {V : Type} (d : dict V) (k k' : string) (v : V) :
  dict_get (dict_set d k v) k'
  = if String.eqb k k' then Some v else dict_get d k'.
Proof.
  induction d as [|[k0 v0] d IH]; simpl.
  - reflexivity.
  - destruct (String.eqb_spec k0 k) as [->|Hne]; simpl.
    + now destruct (String.eqb k k').
    + rewrite IH. destruct (String.eqb_spec k k') as [->|_]; [|reflexivity].
      destruct (String.eqb_spec k0 k'); [contradiction|reflexivity].
Qed.

Lemma dict_get_In {V : Type} (d : dict V) (k : string) (v : V) :
  dict_get d k = Some v -> In (k, v) d.
Proof.
  induction d as [|[k0 v0] d IH]; simpl; [discriminate|].
  destruct (String.eqb_spec k0 k) as [->|_].
  - intros H; inversion H. now left.
  - intros H. right. now apply IH.
Qed.

(** The two state tables have the same keys, and no code is "00". *)
Lemma state_fips_of_known (s name : string) :
  dict_get state_mapping s = Some name ->
  exists code, dict_get state_fips s = Some code /\ code <> "00".
Proof.
  intros H.
  assert (Hk : In s (map fst state_mapping))
    by (apply in_map_iff; exists (s, name); split; [reflexivity|now apply dict_get_In]).
  assert (Hall : forall k, In k (map fst state_mapping) ->
                 exists code, dict_get state_fips k = Some code /\ code <> "00").
  { apply Forall_forall.
    repeat (constructor; [eexists; split; [reflexivity|discriminate]|]).
    constructor. }
  now apply Hall.
Qed.

Lemma convert_rows_app (w : web) (before after : list (string * string)) :
  forall acc,
    convert_rows w acc (before ++ after)
    = bind (convert_rows w acc before) (fun acc' => convert_rows w acc' after).
Proof.
  induction before as [|row before IH]; intros acc; simpl; [reflexivity|].
  destruct (convert_row w acc row); simpl; auto.
Qed.

(** The two ways in which a pass of the loop goes on to the next row. *)
Lemma convert_row_returns (w : web) acc (c s : string) acc' :
  convert_row w acc (c, s) = Return acc' ->
  (dict_get state_mapping s = None /\ acc' = acc)
  \/ exists state_name status_code content county_name code,
       dict_get state_mapping s = Some state_name
       /\ dict_get state_fips s = Some code /\ code <> "00"
       /\ w (city_url c state_name) = Response status_code content
       /\ is_http_error status_code = false
       /\ county_of_page content = Some county_name
       /\ acc' = (dict_set (fst acc) (area_id_of c s)
                    (mk_area s county_name code
                       (get_county_fips_code w code county_name census_key) c),
                  dict_set (snd acc) county_name c).
Proof.
  unfold convert_row. destruct acc as [ta cm]. cbn [fst snd].
  destruct (dict_get state_mapping s) as [state_name|] eqn:Es;
    [|intros H; inversion H; now left].
  destruct (state_fips_of_known s state_name Es) as (code & Ec & Hc). rewrite Ec.
  destruct (w (city_url c state_name)) as [|status_code content] eqn:Ew; [discriminate|].
  destruct (is_http_error status_code) eqn:Eh.
  { destruct (status_code =? 404)%Z; discriminate. }
  destruct (county_of_page content) as [county_name|] eqn:Ep; [|discriminate].
  intros H. inversion H; subst. right.
  exists state_name, status_code, content, county_name, code. repeat split; auto.
Qed.

Lemma convert_row_keeps_keys (w : web) acc (row : string * string) acc' (k : string) :
  convert_row w acc row = Return acc' ->
  dict_mem (fst acc) k = true -> dict_mem (fst acc') k = true.
Proof.
  destruct row as [c s]. intros H Hk.
  destruct (convert_row_returns w acc c s acc' H)
    as [[_ ->]|(sn & sc & ct & cn & code & _ & _ & _ & _ & _ & _ & ->)];
    [exact Hk|].
  cbn [fst]. unfold dict_mem in *. rewrite dict_get_set.
  now destruct (String.eqb (area_id_of c s) k).
Qed.

Lemma convert_rows_keep_keys (w : web) (rows : list (string * string)) (k : string) :
  forall acc acc',
    convert_rows w acc rows = Return acc' ->
    dict_mem (fst acc) k = true -> dict_mem (fst acc') k = true.
Proof.
  induction rows as [|row rows IH]; intros acc acc' H Hk; simpl in H.
  - inversion H; subst. exact Hk.
  - destruct (convert_row w acc row) as [acc1|e] eqn:E; [|discriminate].
    simpl in H. apply (IH acc1 acc' H).
    now apply (convert_row_keeps_keys w acc row).
Qed.

Lemma convert_rows_store (w : web) (rows : list (string * string)) :
  forall acc acc',
    convert_rows w acc rows = Return acc' ->
    forall c s, In (c, s) rows -> known_state (c, s) = true ->
                dict_mem (fst acc') (area_id_of c s) = true.
Proof.
  induction rows as [|row rows IH]; intros acc acc' H c s Hin Hk; [contradiction|].
  simpl in H.
  destruct (convert_row w acc row) as [acc1|e] eqn:E; [|discriminate].
  simpl in H. destruct Hin as [->|Hin]; [|now apply (IH acc1 acc' H)].
  apply (convert_rows_keep_keys w rows _ acc1 acc' H).
  destruct (convert_row_returns w acc c s acc1 E)
    as [[Hn _]|(sn & sc & ct & cn & code & _ & _ & _ & _ & _ & _ & ->)].
  - unfold known_state, dict_mem in Hk. cbn [snd] in Hk. now rewrite Hn in Hk.
  - cbn [fst]. unfold dict_mem. now rewrite dict_get_set, String.eqb_refl.
Qed.

Lemma stems_from_incl (w : web) (rows all : list (string * string))
  (entry : string * area_info) :
  incl rows all -> stems_from w rows entry -> stems_from w all entry.
Proof.
  intros Hi (H1 & H2). split; [now apply Hi|exact H2].
Qed.

Lemma convert_rows_stem (w : web) (all rows : list (string * string)) :
  forall acc acc',
    incl rows all ->
    Forall (stems_from w all) (fst acc) ->
    convert_rows w acc rows = Return acc' ->
    Forall (stems_from w all) (fst acc').
Proof.
  induction rows as [|[c s] rows IH]; intros acc acc' Hi Hf H; simpl in H.
  - inversion H; subst. exact Hf.
  - destruct (convert_row w acc (c, s)) as [acc1|e] eqn:E; [|discriminate].
    simpl in H. apply (IH acc1 acc'); [|clear H|exact H].
    { intros x Hx. apply Hi. now right. }
    destruct (convert_row_returns w acc c s acc1 E)
      as [[_ ->]|(sn & sc & ct & cn & code & Hs & Hc & H0 & Hw & Hh & Hp & ->)];
      [exact Hf|].
    cbn [fst]. apply Forall_forall. intros entry He.
    destruct (dict_set_In _ _ _ _ He) as [->|Hold];
      [|now apply (proj1 (Forall_forall _ _) Hf)].
    unfold stems_from. cbn [fst snd city state county fips_state fips_county].
    split; [apply Hi; now left|]. split; [reflexivity|].
    split; [now exists sn, sc, ct|]. repeat split; assumption.
Qed.

End ResolverResult.

(** X2: when the resolver returns, every input row whose state code is a
    key of the table has an entry in the returned areas, under the
    identifier made of its city and state. *)
Theorem resolved_rows_are_stored (w : Net.web) (input_df : list (string * string))
  (target_areas : Py.dict area_converter.area_info) (county_mapping : Py.dict string) :
  area_converter.convert_input_to_target_areas w input_df
  = Py.Return (target_areas, county_mapping) ->
  target_areas <> []
  /\ forall city state,
       In (city, state) input_df -> known_state (city, state) = true ->
       Py.dict_mem target_areas (area_converter.area_id_of city state) = true.
Proof.
  unfold area_converter.convert_input_to_target_areas. intros H.
  destruct (area_converter.convert_rows w ([], []) input_df) as [acc|e] eqn:E;
    [|discriminate].
  simpl in H. destruct (fst acc) eqn:Ef; [discriminate|].
  inversion H; subst acc. clear H. cbn [fst] in Ef. split; [now rewrite Ef|].
  intros city state Hin Hk.
  exact (convert_rows_store w input_df _ _ E city state Hin Hk).
Qed.

Lemma resolved_rows_are_stored_witness :
  [("tampa_fl", tampa)] <> []
  /\ forall city state,
       In (city, state) [("Orlando", "ZZ"); ("Tampa", "FL")] ->
       known_state (city, state) = true ->
       Py.dict_mem [("tampa_fl", tampa)] (area_converter.area_id_of city state) = true.
Proof.
  exact (resolved_rows_are_stored tampa_web [("Orlando", "ZZ"); ("Tampa", "FL")]
           [("tampa_fl", tampa)] [("Hillsborough County", "Tampa")] eq_refl).
Defined.

(** X3: every area that the resolver returns stems from an input row with
    a known state code: its county is the one read from the city page,
    its state code is the one of the table (the default "00" is never
    used), and its county code is what the county lookup returns. *)
Theorem resolved_areas_stem_from_rows (w : Net.web) (input_df : list (string * string))
  (target_areas : Py.dict area_converter.area_info) (county_mapping : Py.dict string) :
  area_converter.convert_input_to_target_areas w input_df
  = Py.Return (target_areas, county_mapping) ->
  Forall (stems_from w input_df) target_areas.
Proof.
  unfold area_converter.convert_input_to_target_areas. intros H.
  destruct (area_converter.convert_rows w ([], []) input_df) as [acc|e] eqn:E;
    [|discriminate].
  simpl in H. destruct (fst acc) eqn:Ef; [discriminate|].
  inversion H; subst acc. clear H.
  change target_areas with (fst (target_areas, county_mapping)).
  apply (convert_rows_stem w input_df input_df ([], []) _);
    [apply incl_refl|constructor|exact E].
Qed.

Lemma resolved_areas_stem_from_rows_witness :
  Forall (stems_from tampa_web [("Orlando", "ZZ"); ("Tampa", "FL")])
         [("tampa_fl", tampa)].
Proof.
  exact (resolved_areas_stem_from_rows tampa_web [("Orlando", "ZZ"); ("Tampa", "FL")]
           [("tampa_fl", tampa)] [("Hillsborough County", "Tampa")] eq_refl).
Defined.

(** X4: the resolver stops at the first row that raises: when the rows
    before it are resolved and the row raises, the run raises the error of
    that row, whatever rows follow. *)
Theorem resolution_stops_at_first_failure (w : Net.web)
  (before after : list (string * string)) (row : string * string)
  (acc : Py.dict area_converter.area_info * Py.dict string)
  (e : area_converter.ValueError) :
  area_converter.convert_rows w ([], []) before = Py.Return acc ->
  area_converter.convert_row w acc row = Py.Raise e ->
  area_converter.convert_input_to_target_areas w (before ++ row :: after)
  = Py.Raise e.
Proof.
  intros Hb Hr. unfold area_converter.convert_input_to_target_areas.
  rewrite convert_rows_app, Hb. simpl. rewrite Hr. reflexivity.
Qed.

Lemma resolution_stops_at_first_failure_witness :
  area_converter.convert_input_to_target_areas tampa_web
    ([("Tampa", "FL")] ++ ("Miami", "FL") :: [("Orlando", "FL")])
  = Py.Raise (area_converter.ErrorScraping "Miami" "FL" area_converter.RequestException).
Proof.
  exact (resolution_stops_at_first_failure tampa_web [("Tampa", "FL")]
           [("Orlando", "FL")] ("Miami", "FL")
           ([("tampa_fl", tampa)], [("Hillsborough County", "Tampa")])
           _ eq_refl eq_refl).
Defined.

(* ------------------------------------------------------------------ *)
(** ** Census fetcher: what is requested and what is returned *)

Section CensusRequests.
Import Py Net Pandas area_converter census_data.

Lemma flat_map_agree {K T : Type} (f g : K -> list T) (ks : list K) :
  (forall k, In k ks -> f k = g k) -> flat_map f ks = flat_map g ks.
Proof.
  induction ks as [|k ks IH]; intros H; [reflexivity|].
  cbn [flat_map]. rewrite (H k (or_introl eq_refl)). f_equal.
  apply IH. intros; apply H; now right.
Qed.

Lemma map_agree {K T : Type} (f g : K -> T) (ks : list K) :
  (forall k, In k ks -> f k = g k) -> map f ks = map g ks.
Proof.
  induction ks as [|k ks IH]; intros H; [reflexivity|].
  cbn [map]. rewrite (H k (or_introl eq_refl)). f_equal.
  apply IH. intros; apply H; now right.
Qed.

Lemma read_acs_agree (w w' : web) (url : string) :
  w url = w' url -> read_acs w url = read_acs w' url.
Proof. unfold read_acs. now intros ->. Qed.

Lemma collect_agree (w w' : web) (key : string) (start_year end_year : Z)
  (target_areas : dict area_info) :
  (forall area year,
      In area (valid_areas target_areas) ->
      (start_year <= year <= end_year)%Z -> (2009 <= year)%Z ->
      w (acs_url year area key) = w' (acs_url year area key)) ->
  collect w key start_year end_year target_areas
  = collect w' key start_year end_year target_areas.
Proof.
  intros H. rewrite !collect_eq. f_equal.
  - apply flat_map_agree. intros y Hy. apply range_In in Hy.
    unfold year_population. destruct (Z.ltb_spec y 2009); [reflexivity|].
    apply map_agree. intros a Ha. unfold population_record.
    rewrite (read_acs_agree w w'); [reflexivity|apply H; auto; lia].
  - apply flat_map_agree. intros y Hy. apply range_In in Hy.
    unfold year_age. destruct (Z.ltb_spec y 2009); [reflexivity|].
    apply map_agree. intros a Ha. unfold age_record.
    rewrite (read_acs_agree w w'); [reflexivity|apply H; auto; lia].
Qed.

Lemma Forall2_flat_map {K S T : Type} (P : S -> T -> Prop)
  (f : K -> list S) (g : K -> list T) (ks : list K) :
  (forall k, Forall2 P (f k) (g k)) -> Forall2 P (flat_map f ks) (flat_map g ks).
Proof.
  intros H. induction ks as [|k ks IH]; [constructor|].
  cbn [flat_map]. now apply Forall2_app.
Qed.

Lemma Forall2_map_both {K S T : Type} (P : S -> T -> Prop)
  (f : K -> S) (g : K -> T) (ks : list K) :
  (forall k, P (f k) (g k)) -> Forall2 P (map f ks) (map g ks).
Proof.
  intros H. induction ks as [|k ks IH]; constructor; auto.
Qed.

Lemma range_first (a b : Z) : (a < b)%Z -> range a b = a :: range (a + 1) b.
Proof.
  intros H. unfold range.
  replace (Z.to_nat (b - a)) with (S (Z.to_nat (b - (a + 1)))) by lia.
  cbn [seq map]. f_equal; [lia|].
  rewrite <- seq_shift, map_map. apply map_agree. intros i _. lia.
Qed.

Lemma range_empty (a b : Z) : (b <= a)%Z -> range a b = [].
Proof.
  intros H. unfold range. now replace (Z.to_nat (b - a)) with 0%nat by lia.
Qed.

(** Number of the collected records of the years [a], ..., [b - 1]. *)
Lemma years_length {T : Type} (f : Z -> list T) (n : nat) (b : Z) :
  (forall y, List.length (f y) = if (y <? 2009)%Z then 0%nat else n) ->
  forall (m : nat) (a : Z), Z.to_nat (b - a) = m ->
    List.length (flat_map f (range a b))
    = (Z.to_nat (b - Z.max a 2009) * n)%nat.
Proof.
  intros Hf. induction m as [|m IH]; intros a Hm.
  - rewrite range_empty by lia.
    now replace (Z.to_nat (b - Z.max a 2009)) with 0%nat by lia.
  - rewrite range_first by lia. cbn [flat_map].
    rewrite length_app, Hf, (IH (a + 1)%Z) by lia.
    destruct (Z.ltb_spec a 2009).
    + now replace (Z.max (a + 1) 2009) with (Z.max a 2009) by lia.
    + replace (Z.to_nat (b - Z.max a 2009))
        with (S (Z.to_nat (b - Z.max (a + 1) 2009))) by lia.
      reflexivity.
Qed.

Lemma year_population_Forall (w : web) (key : string) (target_areas : dict area_info)
  (y : Z) (r : PopulationRecord) :
  In r (year_population w key target_areas y) ->
  (2009 <= y)%Z /\ exists area, In area (valid_areas target_areas)
                               /\ r = population_record w key y area.
Proof.
  unfold year_population. destruct (Z.ltb_spec y 2009); [intros []|].
  rewrite in_map_iff. intros (a & <- & Ha). split; [assumption|]. now exists a.
Qed.

Lemma column_max_bound (l : list Z) (m : Z) :
  In m l -> (forall x, In x l -> (x <= m)%Z) -> column_max l = m.
Proof.
  destruct l as [|h t]; [intros []|]. cbn [column_max]. intros Hin Hle.
  assert (Hfold : forall (t : list Z) (h : Z),
             (forall x, In x (h :: t) -> (x <= m)%Z) ->
             (fold_left Z.max t h <= m)%Z
             /\ (In m (h :: t) -> fold_left Z.max t h = m)).
  { clear. induction t as [|x t IH]; intros h Hle; cbn [fold_left].
    - split; [apply Hle; now left|]. now intros [->|[]].
    - destruct (IH (Z.max h x)) as [H1 H2].
      + intros y [<-|Hy]; [|apply Hle; right; now right].
        apply Z.max_lub; apply Hle; [now left|right; now left].
      + split; [exact H1|]. intros Hin. apply H2.
        assert (h <= m)%Z by (apply Hle; now left).
        assert (x <= m)%Z by (apply Hle; right; now left).
        destruct Hin as [->|[->|Hin]]; [left; lia|left; lia|now right]. }
  now apply (Hfold t h Hle).
Qed.

Lemma filter_year_flat_map {M : Type} (f : Z -> list (TimeSeriesRecord M))
  (years : list Z) (year : Z) :
  (forall y r, In r (f y) -> Year r = y) ->
  NoDup years -> In year years ->
  filter (fun r => (Year r =? year)%Z) (flat_map f years) = f year.
Proof.
  intros Hf Hnd Hin. rewrite <- flat_map_filtered.
  rewrite (flat_map_single (fun y => filter (fun r => (Year r =? year)%Z) (f y))
             years year Hnd Hin).
  - apply forallb_filter_id. apply forallb_forall. intros r Hr.
    apply Z.eqb_eq. now apply Hf.
  - intros y' _ Hne.
    assert (Hl : forall r, In r (f y') -> Year r = y') by (intros; now apply Hf).
    induction (f y') as [|r l IH]; [reflexivity|]. cbn [filter].
    rewrite (Hl r (or_introl eq_refl)).
    destruct (Z.eqb_spec y' year) as [->|_]; [contradiction|].
    apply IH. intros; apply Hl; now right.
Qed.

Lemma n_unique_single (l : list Z) (y : Z) :
  (forall x, In x l -> x = y) -> (n_unique l <= 1)%nat.
Proof.
  unfold n_unique. intros H.
  assert (Hn : NoDup (nodup Z.eq_dec l)) by apply NoDup_nodup.
  assert (Hy : forall x, In x (nodup Z.eq_dec l) -> x = y)
    by (intros x Hx; apply H; now apply (nodup_In Z.eq_dec)).
  destruct (nodup Z.eq_dec l) as [|a [|b t]]; cbn [List.length]; try lia.
  exfalso. inversion Hn as [|? ? Ha _]; subst. apply Ha.
  rewrite (Hy a), (Hy b); [now left|right; now left|now left].
Qed.

End CensusRequests.

(** X5: the census fetcher reads the network only at the addresses of the
    areas with a resolved county code and of the requested years from 2009
    on: two networks that agree there give the same results. An area without
    county code and a year before 2009 are never requested. *)
Theorem census_reads_only_valid_areas (sort_values : Pandas.sorter)
  (w w' : Net.web) (key : string) (start_year end_year : Z)
  (target_areas : Py.dict area_converter.area_info) :
  (forall area year,
      In area (valid_areas target_areas) ->
      (start_year <= year <= end_year)%Z -> (2009 <= year)%Z ->
      w (census_data.acs_url year area key) = w' (census_data.acs_url year area key)) ->
  census_data.collect w key start_year end_year target_areas
  = census_data.collect w' key start_year end_year target_areas
  /\ census_data.get_census_data sort_values w key start_year end_year target_areas
     = census_data.get_census_data sort_values w' key start_year end_year target_areas.
Proof.
  intros H. pose proof (collect_agree w w' key start_year end_year target_areas H) as E.
  split; [exact E|]. unfold census_data.get_census_data. now rewrite E.
Qed.

Lemma census_reads_only_valid_areas_witness :
  census_data.collect acs_web "k" 2008 2009
    [("tampa_fl", tampa);
     ("lakeland_fl", area_converter.mk_area "FL" "Polk County" "12" "000" "Lakeland")]
  = census_data.collect
      (fun url => if String.eqb url (census_data.acs_url 2009 tampa "k")
                  then acs_web url else Net.Response 200 Net.Malformed)
      "k" 2008 2009
      [("tampa_fl", tampa);
       ("lakeland_fl", area_converter.mk_area "FL" "Polk County" "12" "000" "Lakeland")].
Proof.
  refine (proj1 (census_reads_only_valid_areas Pandas.insertion_sort acs_web
           (fun url => if String.eqb url (census_data.acs_url 2009 tampa "k")
                       then acs_web url else Net.Response 200 Net.Malformed)
           "k" 2008 2009
           [("tampa_fl", tampa);
            ("lakeland_fl",
             area_converter.mk_area "FL" "Polk County" "12" "000" "Lakeland")] _)).
  intros area year Hin Hy H9.
  assert (year = 2009%Z) by lia. subst year.
  vm_compute in Hin. destruct Hin as [<-|[]].
  vm_compute. reflexivity.
Defined.

(** X6: the population rows and the age rows that the census fetcher
    collects go in pairs: the two lists have the same length and the rows
    at the same position carry the same year and the same location, and one
    has a null value exactly when the other has. *)
Theorem census_population_and_age_rows_are_paired
  (w : Net.web) (key : string) (start_year end_year : Z)
  (target_areas : Py.dict area_converter.area_info) :
  Forall2 (fun p g => Year p = Year g /\ location p = location g
                      /\ (census_data.Population p = None
                          <-> census_data.Median_Age g = None))
    (fst (census_data.collect w key start_year end_year target_areas))
    (snd (census_data.collect w key start_year end_year target_areas)).
Proof.
  rewrite collect_eq. cbn [fst snd]. apply Forall2_flat_map. intros y.
  unfold year_population, year_age. destruct (y <? 2009)%Z; [constructor|].
  apply Forall2_map_both. intros area.
  unfold population_record, age_record, census_data.Population,
    census_data.Median_Age. cbn [Year location City State County metrics].
  repeat split; destruct (census_data.read_acs w _) as [[p g]|]; simpl; congruence.
Qed.

(** X7: every population row that the census fetcher collects is the row
    of a requested year from 2009 on and of an area with a resolved county
    code, and the number of rows is the number of such years times the
    number of such areas. *)
Theorem census_rows_are_the_requested_ones
  (w : Net.web) (key : string) (start_year end_year : Z)
  (target_areas : Py.dict area_converter.area_info) :
  let all_population_data :=
    fst (census_data.collect w key start_year end_year target_areas) in
  Forall (fun r => (start_year <= Year r <= end_year)%Z /\ (2009 <= Year r)%Z
                   /\ exists area, In area (valid_areas target_areas)
                                   /\ r = population_record w key (Year r) area)
         all_population_data
  /\ List.length all_population_data
     = (Z.to_nat (end_year + 1 - Z.max start_year 2009)
        * List.length (valid_areas target_areas))%nat.
Proof.
  cbv zeta. rewrite collect_eq. cbn [fst]. split.
  - apply Forall_forall. intros r Hr. apply in_flat_map in Hr.
    destruct Hr as (y & Hy & Hr). apply range_In in Hy.
    destruct (year_population_Forall w key target_areas y r Hr) as (H9 & a & Ha & ->).
    cbn [population_record Year]. repeat split; try lia. now exists a.
  - apply (years_length _ _ _) with (m := Z.to_nat (end_year + 1 - start_year));
      [|reflexivity].
    intros y. unfold year_population. destruct (y <? 2009)%Z; [reflexivity|].
    now rewrite length_map.
Qed.

(** X8: when the last requested year is 2009 or later and some area has a
    resolved county code, the two frames that the census fetcher returns
    hold the rows of the last requested year: one (county, value) row for
    each area with a county code, in the order of the areas. *)
Theorem census_latest_rows_are_of_the_end_year (sort_values : Pandas.sorter)
  (w : Net.web) (key : string) (start_year end_year : Z)
  (target_areas : Py.dict area_converter.area_info) :
  (start_year <= end_year)%Z -> (2009 <= end_year)%Z ->
  valid_areas target_areas <> [] ->
  let fetched area :=
    census_data.read_acs w (census_data.acs_url end_year area key) in
  fst (census_data.get_census_data sort_values w key start_year end_year target_areas)
  = (map (fun area => (area_converter.county area, option_map fst (fetched area)))
         (valid_areas target_areas),
     map (fun area => (area_converter.county area, option_map snd (fetched area)))
         (valid_areas target_areas)).
Proof.
  intros Hse H9 Hv. cbv zeta. unfold census_data.get_census_data.
  rewrite collect_eq.
  set (years := Py.range start_year (end_year + 1)).
  assert (Hend : In end_year years) by (apply range_In; lia).
  assert (Hnd : NoDup years) by apply range_NoDup.
  assert (Hyp : forall y r, In r (year_population w key target_areas y) -> Year r = y).
  { intros y r Hr.
    destruct (year_population_Forall w key target_areas y r Hr) as (_ & a & _ & ->).
    reflexivity. }
  assert (Hya : forall y r, In r (year_age w key target_areas y) -> Year r = y).
  { intros y r. unfold year_age. destruct (y <? 2009)%Z; [intros []|].
    rewrite in_map_iff. now intros (a & <- & _). }
  assert (Hlast : year_population w key target_areas end_year
                  = map (population_record w key end_year) (valid_areas target_areas)).
  { unfold year_population. destruct (Z.ltb_spec end_year 2009); [lia|reflexivity]. }
  assert (Hlast' : year_age w key target_areas end_year
                   = map (age_record w key end_year) (valid_areas target_areas)).
  { unfold year_age. destruct (Z.ltb_spec end_year 2009); [lia|reflexivity]. }
  assert (Hmax : Pandas.column_max
                   (map Year (flat_map (year_population w key target_areas) years))
                 = end_year).
  { apply column_max_bound.
    - destruct (valid_areas target_areas) as [|a rest] eqn:Ea; [contradiction|].
      apply in_map_iff. exists (population_record w key end_year a).
      split; [reflexivity|]. apply in_flat_map. exists end_year.
      split; [assumption|]. rewrite Hlast. now left.
    - intros x Hx. apply in_map_iff in Hx. destruct Hx as (r & <- & Hr).
      apply in_flat_map in Hr. destruct Hr as (y & Hy & Hr).
      rewrite (Hyp y r Hr). apply range_In in Hy. lia. }
  destruct (flat_map (year_population w key target_areas) years) as [|r0 rest] eqn:Ep.
  { exfalso. destruct (valid_areas target_areas) as [|a rest] eqn:Ea; [contradiction|].
    assert (Hin : In (population_record w key end_year a)
                     (flat_map (year_population w key target_areas) years)).
    { apply in_flat_map. exists end_year. split; [assumption|].
      rewrite Hlast. now left. }
    rewrite Ep in Hin. exact Hin. }
  rewrite Hmax, <- Ep. cbn [fst]. unfold census_data.latest.
  rewrite (filter_year_flat_map _ years end_year Hyp Hnd Hend), Hlast.
  rewrite (filter_year_flat_map _ years end_year Hya Hnd Hend), Hlast'.
  rewrite !map_map. reflexivity.
Qed.

Lemma census_latest_rows_are_of_the_end_year_witness :
  fst (census_data.get_census_data Pandas.insertion_sort acs_web "k" 2014 2015
         [("tampa_fl", tampa)])
  = ([("Hillsborough County", Some 1350000%Z)],
     [("Hillsborough County", Some (365 # 10)%Q)]).
Proof.
  refine (eq_trans
            (census_latest_rows_are_of_the_end_year Pandas.insertion_sort acs_web "k"
               2014 2015 [("tampa_fl", tampa)] _ _ _) _).
  - lia.
  - lia.
  - discriminate.
  - vm_compute. reflexivity.
Defined.


(* ------------------------------------------------------------------ *)
(** ** Labour fetcher: batches, location keys and records *)

Section BlsRecords.
Import Py Pandas area_converter bls_data.

Lemma codes_fold_keys (areas : list area_info) :
  forall (codes : dict string) (k : string),
    In k (map fst
            (fold_left
               (fun codes area =>
                  if negb (census_data.has_valid_fips area) then codes
                  else dict_set codes (location_key_of area)
                         (fips_state area ++ fips_county area)%string)
               areas codes)) ->
    In k (map fst codes)
    \/ exists area, In area (filter census_data.has_valid_fips areas)
                    /\ k = location_key_of area.
Proof.
  induction areas as [|a areas IH]; intros codes k Hk; cbn [fold_left] in Hk;
    [now left|].
  destruct (IH _ k Hk) as [Hold|(b & Hb & ->)].
  - cbn [filter]. destruct (census_data.has_valid_fips a); cbn [negb] in Hold.
    + apply in_map_iff in Hold. destruct Hold as ([k' v] & <- & Hin).
      destruct (dict_set_In _ _ _ _ Hin) as [E|Hin'].
      * inversion E; subst. right. exists a. split; [now left|reflexivity].
      * left. apply in_map_iff. now exists (k', v).
    + now left.
  - right. exists b. split; [|reflexivity].
    cbn [filter]. destruct (census_data.has_valid_fips a); [now right|assumption].
Qed.

Lemma codes_keys (target_areas : dict area_info) (k : string) :
  In k (map fst (bls_area_codes target_areas)) ->
  exists area, In area (valid_areas target_areas) /\ k = location_key_of area.
Proof.
  intros H. destruct (codes_fold_keys _ _ _ H) as [[]|H']. exact H'.
Qed.

Lemma codes_fold_skip (areas : list area_info) :
  filter census_data.has_valid_fips areas = [] ->
  forall codes : dict string,
    fold_left
      (fun codes area =>
         if negb (census_data.has_valid_fips area) then codes
         else dict_set codes (location_key_of area)
                (fips_state area ++ fips_county area)%string)
      areas codes = codes.
Proof.
  induction areas as [|a areas IH]; intros Hf codes; [reflexivity|].
  cbn [filter] in Hf. cbn [fold_left].
  destruct (census_data.has_valid_fips a); [discriminate|]. now apply IH.
Qed.

Lemma year_series_fold_keys (codes : dict string) :
  forall (acc : list string * dict (string * data_type)) sid lk dt,
    In (sid, (lk, dt))
       (snd (fold_left
               (fun acc entry =>
                  let '(series_ids, series_to_location) := acc in
                  let '(location_key, area_code) := entry in
                  let unemp_series := ("LAUCN" ++ area_code ++ "0000000003")%string in
                  let emp_series := ("LAUCN" ++ area_code ++ "0000000005")%string in
                  (series_ids ++ [unemp_series; emp_series],
                   dict_set (dict_set series_to_location unemp_series
                               (location_key, rate_series))
                            emp_series (location_key, employed_series)))
               codes acc)) ->
    In (sid, (lk, dt)) (snd acc) \/ In lk (map fst codes).
Proof.
  induction codes as [|[k c] codes IH]; intros acc sid lk dt H; cbn [fold_left] in H;
    [now left|].
  destruct acc as [ids stl].
  destruct (IH _ sid lk dt H) as [Hold|Hin]; [|right; now right].
  cbn [snd] in Hold.
  destruct (dict_set_In _ _ _ _ Hold) as [E|Hold1];
    [inversion E; subst; right; now left|].
  destruct (dict_set_In _ _ _ _ Hold1) as [E|Hold2];
    [inversion E; subst; right; now left|].
  now left.
Qed.

Lemma year_series_keys (codes : dict string) sid lk dt :
  dict_get (snd (year_series codes)) sid = Some (lk, dt) -> In lk (map fst codes).
Proof.
  intros H. apply dict_get_In in H.
  destruct (year_series_fold_keys codes ([], []) sid lk dt H) as [[]|H']. exact H'.
Qed.

Lemma read_series_keys (stl : dict (string * data_type))
  (d d' : dict (option Q * option Q)) (s : series) (k : string) :
  read_series stl d s = Return d' -> In k (map fst d') ->
  In k (map fst d) \/ exists sid dt, dict_get stl sid = Some (k, dt).
Proof.
  unfold read_series.
  destruct (dict_get stl (seriesID s)) as [[lk dt]|] eqn:Es;
    [|intros H; inversion H; subst; now left].
  destruct (data s) as [|v vs]; [intros H; inversion H; subst; now left|].
  destruct (float_of_str v) as [value|]; [|discriminate].
  intros H Hk. inversion H; subst. clear H.
  apply in_map_iff in Hk. destruct Hk as ([k' m] & <- & Hin).
  destruct (dict_set_In _ _ _ _ Hin) as [E|Hin'].
  - inversion E; subst. right. now exists (seriesID s), dt.
  - left. apply in_map_iff. now exists (k', m).
Qed.

Lemma read_all_series_keys (stl : dict (string * data_type)) (l : list series) :
  forall (d d' : dict (option Q * option Q)) (k : string),
    read_all_series stl d l = Return d' -> In k (map fst d') ->
    In k (map fst d) \/ exists sid dt, dict_get stl sid = Some (k, dt).
Proof.
  induction l as [|s l IH]; intros d d' k H Hk; cbn [read_all_series] in H.
  - inversion H; subst. now left.
  - destruct (read_series stl d s) as [d1|] eqn:E; [|discriminate]. simpl in H.
    destruct (IH d1 d' k H Hk) as [H1|H1]; [|now right].
    exact (read_series_keys stl d d1 s k E H1).
Qed.

Lemma record_of_key_fields (year : Z) (k : string) (m : option Q * option Q)
  (r : EmploymentRecord) :
  record_of_key year k m = Some r -> Year r = year /\ metrics r = m.
Proof.
  unfold record_of_key.
  destruct (nth_error (split ", " (hd "" (split " (" k))) 1); [|discriminate].
  destruct (nth_error (split " (" k) 1); [|discriminate].
  intros H. inversion H. split; reflexivity.
Qed.

Lemma append_records_new (year : Z) (items : dict (option Q * option Q)) :
  forall acc, exists new,
    append_records year acc items = acc ++ new
    /\ Forall (fun r => Year r = year
                        /\ exists k, In k (map fst items)
                                     /\ record_of_key year k (metrics r) = Some r) new.
Proof.
  induction items as [|[k m] items IH]; intros acc; cbn [append_records].
  - exists []. split; [now rewrite app_nil_r|constructor].
  - destruct (record_of_key year k m) as [r|] eqn:E.
    + destruct (IH (acc ++ [r])) as (new & -> & Hnew).
      exists (r :: new). split; [now rewrite <- app_assoc|].
      destruct (record_of_key_fields year k m r E) as [Hy Hm].
      constructor.
      * split; [exact Hy|]. exists k. split; [now left|]. now rewrite Hm.
      * apply Forall_forall. intros x Hx.
        destruct (proj1 (Forall_forall _ _) Hnew x Hx) as (Hxy & k' & Hk' & Hr).
        split; [exact Hxy|]. exists k'. split; [now right|exact Hr].
    + exists []. split; [now rewrite app_nil_r|constructor].
Qed.

Lemma collect_batch_new (api : bls_api) (year : Z) (codes : dict string)
  (acc : list EmploymentRecord) (batch_series : list string) :
  exists new,
    collect_batch api year (snd (year_series codes)) acc batch_series = acc ++ new
    /\ Forall (fun r => Year r = year
                        /\ exists k, In k (map fst codes)
                                     /\ record_of_key year k (metrics r) = Some r) new.
Proof.
  assert (Hnone : exists new : list EmploymentRecord,
             acc = acc ++ new
             /\ Forall (fun r => Year r = year
                                 /\ exists k, In k (map fst codes)
                                              /\ record_of_key year k (metrics r)
                                                 = Some r) new)
    by (exists []; split; [now rewrite app_nil_r|constructor]).
  unfold collect_batch.
  destruct (api batch_series year) as [|status series_list]; [exact Hnone|].
  destruct (String.eqb status "REQUEST_SUCCEEDED"); [|exact Hnone].
  destruct (read_all_series (snd (year_series codes)) [] series_list) as [d|] eqn:E;
    [|exact Hnone].
  destruct (append_records_new year d acc) as (new & -> & Hnew).
  exists new. split; [reflexivity|].
  apply Forall_forall. intros r Hr.
  destruct (proj1 (Forall_forall _ _) Hnew r Hr) as (Hy & k & Hk & Hrec).
  split; [exact Hy|]. exists k. split; [|exact Hrec].
  destruct (read_all_series_keys _ _ _ _ k E Hk) as [[]|(sid & dt & Hs)].
  exact (year_series_keys codes sid k dt Hs).
Qed.

Lemma fold_appends {T B : Type} (f : list T -> B -> list T) (P : B -> T -> Prop) :
  (forall acc b, exists new, f acc b = acc ++ new /\ Forall (P b) new) ->
  forall (l : list B) (acc : list T), exists new,
    fold_left f l acc = acc ++ new
    /\ Forall (fun r => exists b, In b l /\ P b r) new.
Proof.
  intros Hf. induction l as [|b l IH]; intros acc; cbn [fold_left].
  - exists []. split; [now rewrite app_nil_r|constructor].
  - destruct (Hf acc b) as (n1 & E1 & H1). rewrite E1.
    destruct (IH (acc ++ n1)) as (n2 & -> & H2).
    exists (n1 ++ n2). split; [now rewrite app_assoc|].
    apply Forall_app. split.
    + apply Forall_forall. intros r Hr. exists b. split; [now left|].
      now apply (proj1 (Forall_forall _ _) H1).
    + apply Forall_forall. intros r Hr.
      destruct (proj1 (Forall_forall _ _) H2 r Hr) as (b' & Hb' & Hp).
      exists b'. split; [now right|exact Hp].
Qed.

Lemma collect_year_new (api : bls_api) (codes : dict string)
  (acc : list EmploymentRecord) (year : Z) :
  exists new,
    collect_year api codes acc year = acc ++ new
    /\ Forall (fun r => Year r = year
                        /\ exists k, In k (map fst codes)
                                     /\ record_of_key year k (metrics r) = Some r) new.
Proof.
  unfold collect_year.
  pose proof (fun acc b => collect_batch_new api year codes acc b) as Hb.
  destruct (year_series codes) as [series_ids stl]. cbn [snd] in Hb.
  destruct (fold_appends _ _ Hb (chunks batch_size series_ids) acc) as (new & -> & Hn).
  exists new. split; [reflexivity|].
  apply Forall_forall. intros r Hr.
  destruct (proj1 (Forall_forall _ _) Hn r Hr) as (_ & _ & H). exact H.
Qed.

(** Every collected employment record is of a requested year and made
    from the location key of an area with a resolved county code. *)
Lemma bls_collect_rows (api : bls_api) (start_year end_year : Z)
  (target_areas : dict area_info) :
  Forall (fun r => (start_year <= Year r <= end_year)%Z
                   /\ record_of_area target_areas r)
         (collect api start_year end_year target_areas).
Proof.
  unfold collect.
  pose proof (codes_keys target_areas) as Hk.
  destruct (bls_area_codes target_areas) as [|c0 codes]; [constructor|].
  pose proof (fun acc y => collect_year_new api (c0 :: codes) acc y) as Hy.
  destruct (fold_appends _ _ Hy (range start_year (end_year + 1)) [])
    as (new & -> & Hn).
  cbn [app]. apply Forall_forall. intros r Hr.
  destruct (proj1 (Forall_forall _ _) Hn r Hr) as (y & Hyr & Hry & k & Hkc & Hrec).
  apply range_In in Hyr. split; [lia|].
  destruct (Hk k Hkc) as (area & Ha & ->).
  exists area. split; [exact Ha|]. now rewrite Hry.
Qed.

Lemma bls_rows_years (api : bls_api) (start_year end_year : Z)
  (target_areas : dict area_info) :
  Forall (fun r => (start_year <= Year r <= end_year)%Z)
         (collect api start_year end_year target_areas).
Proof.
  apply Forall_forall. intros r Hr.
  exact (proj1 (proj1 (Forall_forall _ _)
                  (bls_collect_rows api start_year end_year target_areas) r Hr)).
Qed.

Lemma census_rows_years (w : Net.web) (key : string) (start_year end_year : Z)
  (target_areas : dict area_info) :
  Forall (fun r : census_data.PopulationRecord => (start_year <= Year r <= end_year)%Z)
         (fst (census_data.collect w key start_year end_year target_areas)).
Proof.
  rewrite collect_eq. cbn [fst]. apply Forall_forall. intros r Hr.
  apply in_flat_map in Hr. destruct Hr as (y & Hy & Hr). apply range_In in Hy.
  destruct (year_population_Forall w key target_areas y r Hr) as (_ & a & _ & ->).
  cbn [population_record Year]. lia.
Qed.

End BlsRecords.

Section LocationKeys.
Import Py area_converter bls_data.

Lemma string_app_nil_r (s : string) : (s ++ "")%string = s.
Proof. induction s as [|c s IH]; simpl; congruence. Qed.

Lemma string_app_assoc (s t u : string) :
  ((s ++ t) ++ u)%string = (s ++ (t ++ u))%string.
Proof. induction s as [|c s IH]; simpl; congruence. Qed.

Lemma free_of_app (c : ascii) (s t : string) :
  free_of c (s ++ t) = free_of c s && free_of c t.
Proof.
  unfold free_of. induction s as [|x s IH]; simpl; [reflexivity|].
  now rewrite IH, andb_assoc.
Qed.

(** A separator whose first character does not occur in the piece. *)
Lemma split_first_absent (a : ascii) (sep' : string) (s : string) :
  free_of a s = true ->
  forall cur, split_from (String a sep') 0 cur s = [(cur ++ s)%string].
Proof.
  induction s as [|c s IH]; intros Hf cur.
  - simpl. now rewrite string_app_nil_r.
  - unfold free_of in Hf. simpl in Hf. apply andb_true_iff in Hf. destruct Hf as [Hc Hs].
    cbn [split_from startswith].
    rewrite Ascii.eqb_sym. apply negb_true_iff in Hc. rewrite Hc. cbn [andb].
    rewrite (IH Hs). now rewrite string_app_assoc.
Qed.

Lemma split_skip (sep : string) (t rest : string) :
  forall cur, split_from sep (String.length t) cur (t ++ rest)
              = split_from sep 0 cur rest.
Proof. induction t as [|c t IH]; intros cur; simpl; [reflexivity|apply IH]. Qed.

Lemma startswith_app (p s : string) : startswith p (p ++ s) = true.
Proof.
  induction p as [|c p IH]; simpl; [reflexivity|].
  now rewrite Ascii.eqb_refl.
Qed.

Lemma split_at_first_absent (a : ascii) (sep' : string) (s rest : string) :
  free_of a s = true ->
  forall cur,
    split_from (String a sep') 0 cur (s ++ String a sep' ++ rest)
    = (cur ++ s)%string :: split_from (String a sep') 0 "" rest.
Proof.
  induction s as [|c s IH]; intros Hf cur.
  - cbn [append]. cbn [split_from].
    change (String a (sep' ++ rest)) with (String a sep' ++ rest)%string.
    rewrite startswith_app, string_app_nil_r. f_equal.
    replace (String.length (String a sep') - 1)%nat with (String.length sep')
      by (cbn [String.length]; lia).
    apply split_skip.
  - unfold free_of in Hf. simpl in Hf. apply andb_true_iff in Hf. destruct Hf as [Hc Hs].
    cbn [append split_from startswith].
    rewrite Ascii.eqb_sym. apply negb_true_iff in Hc. rewrite Hc. cbn [andb].
    rewrite (IH Hs). now rewrite string_app_assoc.
Qed.

(** A two-character separator whose second character does not occur in
    the piece. *)
Lemma split_at_second_absent (a b : ascii) (s rest : string) :
  Ascii.eqb b a = false -> free_of b s = true ->
  forall cur,
    split_from (String a (String b "")) 0 cur (s ++ String a (String b rest))
    = (cur ++ s)%string :: split_from (String a (String b "")) 0 "" rest.
Proof.
  intros Hab. induction s as [|c s IH]; intros Hf cur.
  - cbn [append split_from startswith]. rewrite !Ascii.eqb_refl. cbn [andb].
    rewrite string_app_nil_r. reflexivity.
  - unfold free_of in Hf. simpl in Hf. apply andb_true_iff in Hf. destruct Hf as [Hc Hs].
    cbn [append split_from].
    assert (Hno : startswith (String a (String b ""))
                    (String c (s ++ String a (String b rest))) = false).
    { cbn [startswith]. destruct (Ascii.eqb a c); [|reflexivity]. cbn [andb].
      destruct s as [|c' s'].
      - cbn [append]. now rewrite Hab.
      - cbn [append]. unfold free_of in Hs. simpl in Hs.
        apply andb_true_iff in Hs. destruct Hs as [Hc' _].
        apply negb_true_iff in Hc'. now rewrite Ascii.eqb_sym, Hc'. }
    rewrite Hno, (IH Hs). now rewrite string_app_assoc.
Qed.

Lemma split_second_absent (a b : ascii) (s : string) :
  free_of b s = true ->
  forall cur, split_from (String a (String b "")) 0 cur s = [(cur ++ s)%string].
Proof.
  induction s as [|c s IH]; intros Hf cur.
  - simpl. now rewrite string_app_nil_r.
  - unfold free_of in Hf. simpl in Hf. apply andb_true_iff in Hf. destruct Hf as [Hc Hs].
    cbn [split_from].
    assert (Hno : startswith (String a (String b "")) (String c s) = false).
    { cbn [startswith]. destruct (Ascii.eqb a c); [|reflexivity]. cbn [andb].
      destruct s as [|c' s']; [reflexivity|].
      unfold free_of in Hs. simpl in Hs.
      apply andb_true_iff in Hs. destruct Hs as [Hc' _].
      apply negb_true_iff in Hc'. now rewrite Ascii.eqb_sym, Hc'. }
    rewrite Hno, (IH Hs). now rewrite string_app_assoc.
Qed.

Lemma rstrip_with_app_last (p : ascii -> bool) (s : string) (c : ascii) :
  p c = true ->
  rstrip_with p (s ++ String c "") = rstrip_with p s.
Proof.
  intros Hc. induction s as [|x s IH]; simpl; [now rewrite Hc|].
  now rewrite IH.
Qed.

End LocationKeys.

(** X9: a request for a single year yields no strongest market, from the
    census fetcher and from the labour fetcher alike: the trend analysis
    needs records of at least two distinct years. *)
Theorem single_year_has_no_strongest_market (sort_values : Pandas.sorter)
  (w : Net.web) (key : string) (api : bls_data.bls_api) (year : Z)
  (target_areas : Py.dict area_converter.area_info) :
  snd (census_data.get_census_data sort_values w key year year target_areas) = None
  /\ snd (bls_data.get_bls_data sort_values api year year target_areas) = None.
Proof.
  split.
  - unfold census_data.get_census_data.
    destruct (census_data.collect w key year year target_areas) as [pops ages] eqn:E.
    assert (Hy : forall r, In r pops -> Year r = year).
    { pose proof (census_rows_years w key year year target_areas) as H.
      rewrite E in H. cbn [fst] in H. intros r Hr.
      pose proof (proj1 (Forall_forall _ _) H r Hr) as Hb. cbv beta in Hb. lia. }
    assert (Ht : census_data.population_trend sort_values pops = None).
    { unfold census_data.population_trend.
      assert (Pandas.n_unique (map Year pops) <= 1)%nat.
      { apply (n_unique_single _ year). intros x Hx. apply in_map_iff in Hx.
        destruct Hx as (r & <- & Hr). now apply Hy. }
      destruct (Nat.ltb_spec 1 (Pandas.n_unique (map Year pops))); [lia|].
      now rewrite andb_false_r. }
    rewrite Ht. now destruct pops.
  - unfold bls_data.get_bls_data.
    set (df := bls_data.collect api year year target_areas).
    assert (Hy : forall r, In r df -> Year r = year).
    { intros r Hr.
      pose proof (proj1 (Forall_forall _ _)
                    (bls_rows_years api year year target_areas) r Hr) as Hb.
      cbv beta in Hb. lia. }
    assert (Ht : bls_data.employment_trend sort_values df = None).
    { unfold bls_data.employment_trend.
      assert (Pandas.n_unique (map Year df) <= 1)%nat.
      { apply (n_unique_single _ year). intros x Hx. apply in_map_iff in Hx.
        destruct Hx as (r & <- & Hr). now apply Hy. }
      destruct (Nat.ltb_spec 1 (Pandas.n_unique (map Year df))); [lia|].
      now rewrite andb_false_r. }
    rewrite Ht. now destruct df.
Qed.

(** X10: when no target area has a resolved county code, the labour
    fetcher returns an empty frame and no strongest market, whatever the
    labour service would answer. *)
Theorem bls_without_county_codes_returns_nothing (sort_values : Pandas.sorter)
  (api : bls_data.bls_api) (start_year end_year : Z)
  (target_areas : Py.dict area_converter.area_info) :
  valid_areas target_areas = [] ->
  bls_data.collect api start_year end_year target_areas = []
  /\ bls_data.get_bls_data sort_values api start_year end_year target_areas
     = ([], None).
Proof.
  intros Hv.
  assert (E : bls_data.collect api start_year end_year target_areas = []).
  { unfold bls_data.collect, bls_data.bls_area_codes.
    now rewrite (codes_fold_skip _ Hv). }
  split; [exact E|]. unfold bls_data.get_bls_data. rewrite E. reflexivity.
Qed.

Lemma bls_without_county_codes_returns_nothing_witness :
  bls_data.get_bls_data Pandas.insertion_sort bls_ok 2015 2016
    [("lakeland_fl", area_converter.mk_area "FL" "Polk County" "12" "000" "Lakeland")]
  = ([], None).
Proof.
  exact (proj2 (bls_without_county_codes_returns_nothing Pandas.insertion_sort bls_ok
                  2015 2016
                  [("lakeland_fl",
                    area_converter.mk_area "FL" "Polk County" "12" "000" "Lakeland")]
                  eq_refl)).
Defined.

(** X11: every employment record that the labour fetcher collects is of a
    requested year and is made from the location key of a target area with
    a resolved county code. *)
Theorem bls_rows_are_of_requested_years_and_areas
  (api : bls_data.bls_api) (start_year end_year : Z)
  (target_areas : Py.dict area_converter.area_info) :
  Forall (fun r => (start_year <= Year r <= end_year)%Z
                   /\ record_of_area target_areas r)
         (bls_data.collect api start_year end_year target_areas).
Proof. apply bls_collect_rows. Qed.

(** X12: the location key of an area is taken apart into the city, state
    and county of the area again, provided that city and state hold no comma
    and no opening parenthesis, and the county holds no opening parenthesis
    and does not end with a closing one. *)
Theorem location_key_is_taken_apart_again
  (area : area_converter.area_info) (year : Z) (emp_data : option Q * option Q) :
  free_of "," (area_converter.city area) = true ->
  free_of "(" (area_converter.city area) = true ->
  free_of "," (area_converter.state area) = true ->
  free_of "(" (area_converter.state area) = true ->
  free_of "(" (area_converter.county area) = true ->
  Py.rstrip_with (Ascii.eqb ")") (area_converter.county area)
  = area_converter.county area ->
  bls_data.record_of_key year (bls_data.location_key_of area) emp_data
  = Some (mk_record year (area_converter.city area) (area_converter.state area)
            (area_converter.county area) emp_data).
Proof.
  intros Hc1 Hc2 Hs1 Hs2 Hk1 Hk2.
  destruct area as [s k fs fk c]. cbn [area_converter.city area_converter.state
    area_converter.county] in *.
  unfold bls_data.record_of_key, bls_data.location_key_of.
  cbn [area_converter.city area_converter.state area_converter.county].
  assert (Hparts : Py.split " (" (c ++ ", " ++ s ++ " (" ++ k ++ ")")
                   = [(c ++ ", " ++ s)%string; (k ++ ")")%string]).
  { unfold Py.split.
    replace (c ++ ", " ++ s ++ " (" ++ k ++ ")")%string
      with ((c ++ ", " ++ s) ++ String " " (String "(" (k ++ ")")))%string
      by (now rewrite !string_app_assoc).
    rewrite split_at_second_absent; [|reflexivity|].
    - cbn [append]. f_equal. rewrite split_second_absent; [reflexivity|].
      rewrite free_of_app, Hk1. reflexivity.
    - rewrite !free_of_app, Hc2, Hs2. reflexivity. }
  rewrite Hparts. cbn [hd nth_error].
  assert (Hcs : Py.split ", " (c ++ ", " ++ s) = [c; s]).
  { unfold Py.split.
    change (c ++ ", " ++ s)%string with (c ++ String "," " " ++ s)%string.
    rewrite split_at_first_absent by exact Hc1. cbn [append]. f_equal.
    now rewrite split_first_absent by exact Hs1. }
  rewrite Hcs. cbn [hd nth_error].
  rewrite rstrip_with_app_last by reflexivity. now rewrite Hk2.
Qed.

Lemma location_key_is_taken_apart_again_witness :
  bls_data.record_of_key 2015 (bls_data.location_key_of winter_park)
    (Some (35 # 10)%Q, None)
  = Some (mk_record 2015 "Winter Park" "FL" "Orange County" (Some (35 # 10)%Q, None)).
Proof.
  exact (location_key_is_taken_apart_again winter_park 2015 (Some (35 # 10)%Q, None)
           eq_refl eq_refl eq_refl eq_refl eq_refl eq_refl).
Defined.

(* ------------------------------------------------------------------ *)
(** ** Labour fetcher: the batches of a year *)

Section Batches.
Import Py bls_data.

Lemma chunks_fuel_concat {T : Type} (n : nat) :
  (0 < n)%nat ->
  forall (fuel : nat) (l : list T),
    (List.length l <= fuel)%nat -> concat (chunks_fuel fuel n l) = l.
Proof.
  intros Hn. induction fuel as [|fuel IH]; intros l Hl.
  - destruct l; [reflexivity|simpl in Hl; lia].
  - destruct l as [|x l]; [reflexivity|].
    cbn [chunks_fuel concat]. rewrite IH; [apply firstn_skipn|].
    rewrite length_skipn. cbn [List.length] in *. lia.
Qed.

Lemma chunks_fuel_sizes {T : Type} (n : nat) :
  (0 < n)%nat ->
  forall (fuel : nat) (l : list T),
    (List.length l <= fuel)%nat ->
    Forall (fun b => (1 <= List.length b <= n)%nat) (chunks_fuel fuel n l).
Proof.
  intros Hn. induction fuel as [|fuel IH]; intros l Hl.
  - destruct l; constructor.
  - destruct l as [|x l]; [constructor|].
    cbn [chunks_fuel]. constructor.
    + rewrite length_firstn. cbn [List.length]. lia.
    + apply IH. rewrite length_skipn. cbn [List.length] in *. lia.
Qed.

Lemma series_of_length (codes : dict string) :
  List.length (flat_map series_of codes) = (2 * List.length codes)%nat.
Proof. induction codes as [|e codes IH]; simpl; lia. Qed.

Lemma firstn_series (n : nat) :
  forall codes : dict string,
    firstn (n + n) (flat_map series_of codes) = flat_map series_of (firstn n codes).
Proof.
  induction n as [|n IH]; intros codes; [reflexivity|].
  destruct codes as [|e codes]; [reflexivity|].
  rewrite Nat.add_succ_r. cbn [plus flat_map series_of app firstn].
  now rewrite IH.
Qed.

Lemma skipn_series (n : nat) :
  forall codes : dict string,
    skipn (n + n) (flat_map series_of codes) = flat_map series_of (skipn n codes).
Proof.
  induction n as [|n IH]; intros codes; [reflexivity|].
  destruct codes as [|e codes]; [reflexivity|].
  rewrite Nat.add_succ_r. cbn [plus flat_map series_of app skipn].
  now rewrite IH.
Qed.

Lemma chunks_fuel_series (n : nat) :
  (0 < n)%nat ->
  forall (fuel' fuel : nat) (codes : dict string),
    (List.length codes <= fuel')%nat ->
    (List.length (flat_map series_of codes) <= fuel)%nat ->
    chunks_fuel fuel (n + n) (flat_map series_of codes)
    = map (flat_map series_of) (chunks_fuel fuel' n codes).
Proof.
  intros Hn. induction fuel' as [|fuel' IH]; intros fuel codes Hc Hs.
  - destruct codes; [|simpl in Hc; lia]. now destruct fuel.
  - destruct codes as [|e codes]; [now destruct fuel|].
    destruct fuel as [|fuel]; [simpl in Hs; lia|].
    change (flat_map series_of (e :: codes))
      with (hd "" (series_of e) :: tl (series_of e) ++ flat_map series_of codes) at 1.
    cbn [chunks_fuel map].
    change (hd "" (series_of e) :: tl (series_of e) ++ flat_map series_of codes)
      with (flat_map series_of (e :: codes)).
    rewrite firstn_series, skipn_series. f_equal. apply IH.
    + rewrite length_skipn. cbn [List.length] in *. lia.
    + rewrite series_of_length, length_skipn. rewrite series_of_length in Hs.
      cbn [List.length] in *. lia.
Qed.

Lemma year_series_fold_ids (codes : dict string) :
  forall acc : list string * dict (string * data_type),
    fst (fold_left
           (fun acc entry =>
              let '(series_ids, series_to_location) := acc in
              let '(location_key, area_code) := entry in
              let unemp_series := ("LAUCN" ++ area_code ++ "0000000003")%string in
              let emp_series := ("LAUCN" ++ area_code ++ "0000000005")%string in
              (series_ids ++ [unemp_series; emp_series],
               dict_set (dict_set series_to_location unemp_series
                           (location_key, rate_series))
                        emp_series (location_key, employed_series)))
           codes acc)
    = fst acc ++ flat_map series_of codes.
Proof.
  induction codes as [|[k c] codes IH]; intros [ids stl]; cbn [fold_left].
  - cbn [fst flat_map]. now rewrite app_nil_r.
  - rewrite IH. cbn [fst flat_map series_of snd]. now rewrite <- app_assoc.
Qed.

End Batches.

(** X13: the series of a year are requested in batches that split the
    list of series without losing, repeating or reordering any: each batch
    holds between 1 and 50 series, and since every location has two series
    and 50 is even, a batch holds both series of each of its (at most 25)
    locations. *)
Theorem batches_hold_whole_locations (codes : Py.dict string) :
  let series_ids := fst (bls_data.year_series codes) in
  let batches := bls_data.chunks bls_data.batch_size series_ids in
  series_ids = flat_map series_of codes
  /\ concat batches = series_ids
  /\ Forall (fun batch_series =>
               (1 <= List.length batch_series <= 50)%nat) batches
  /\ batches = map (flat_map series_of) (bls_data.chunks 25 codes).
Proof.
  cbv zeta.
  assert (E : fst (bls_data.year_series codes) = flat_map series_of codes)
    by (unfold bls_data.year_series; now rewrite year_series_fold_ids).
  rewrite E. unfold bls_data.chunks, bls_data.batch_size.
  split; [reflexivity|]. split; [|split].
  - apply chunks_fuel_concat; lia.
  - apply chunks_fuel_sizes; lia.
  - change 50%nat with (25 + 25)%nat. apply chunks_fuel_series; lia.
Qed.

(* ------------------------------------------------------------------ *)
(** ** Trend analysis: rates, order of the rows, strongest market *)

Section Rates.
Import Pandas.

Lemma Rpower_one (y : R) : Rpower 1 y = 1%R.
Proof. unfold Rpower. now rewrite ln_1, Rmult_0_r, exp_0. Qed.

Lemma Rpower_above_one (x y : R) :
  (0 < x)%R -> (0 < y)%R ->
  ((1 < Rpower x y)%R <-> (1 < x)%R) /\ (Rpower x y = 1%R <-> x = 1%R).
Proof.
  intros Hx Hy.
  destruct (Rtotal_order x 1) as [Hlt|[Heq|Hgt]].
  - pose proof (Rlt_Rpower_l x 1 y Hy (conj Hx Hlt)) as H.
    rewrite Rpower_one in H. split; split; intros; lra.
  - subst x. rewrite Rpower_one. split; split; intros; lra.
  - pose proof (Rlt_Rpower_l 1 x y Hy (conj Rlt_0_1 Hgt)) as H.
    rewrite Rpower_one in H. split; split; intros; lra.
Qed.

Lemma float_pow_root (x : R) (n : Z) :
  (0 <= x)%R -> (0 < n)%Z ->
  (float_pow x (1 / IZR n) ^ Z.to_nat n)%R = x.
Proof.
  intros Hx Hn. unfold float_pow.
  assert (Hnat : INR (Z.to_nat n) = IZR n)
    by (rewrite INR_IZR_INZ; f_equal; lia).
  assert (Hpos : (0 < IZR n)%R) by (now apply IZR_lt).
  destruct (Rlt_dec 0 x) as [H0|H0].
  - rewrite <- Rpower_pow by apply exp_pos.
    rewrite Rpower_mult, Hnat.
    replace (1 / IZR n * IZR n)%R with 1%R by (field; lra).
    now apply Rpower_1.
  - assert (x = 0%R) by lra. subst x.
    destruct (Z.to_nat n) as [|k] eqn:E; [lia|]. simpl. lra.
Qed.

End Rates.

(** X14: the reported growth rate compounds to the observed growth: for a
    growth row with a non-negative end population, the start population
    multiplied by (1 + CAGR/100) once for each analysed year gives the end
    population; the analysed years and the start population are positive. *)
Theorem growth_rate_compounds_to_end_population (sort_values : Pandas.sorter)
  (key : Pandas.group_key) (location_data : list census_data.PopulationRecord)
  (row : census_data.GrowthRow) :
  census_data.location_growth sort_values key location_data = Some row ->
  (0 <= census_data.End_Population row)%Z ->
  (0 < census_data.Years_Analyzed row)%Z
  /\ (0 < census_data.Start_Population row)%Z
  /\ (IZR (census_data.Start_Population row)
      * (1 + census_data.CAGR_Pct row / 100)
        ^ Z.to_nat (census_data.Years_Analyzed row))%R
     = IZR (census_data.End_Population row).
Proof.
  intros H He. apply location_growth_iff in H.
  destruct H as (first & final & s & e & _ & _ & _ & _ & _ & Hy & Hs & ->).
  cbn [census_data.End_Population census_data.Start_Population
       census_data.Years_Analyzed census_data.CAGR_Pct] in *.
  split; [lia|]. split; [exact Hs|].
  assert (Hs' : (0 < IZR s)%R) by (now apply IZR_lt).
  assert (He' : (0 <= IZR e)%R) by (now apply IZR_le).
  replace (1 + (Pandas.float_pow (IZR e / IZR s)
                  (1 / IZR (Year final - Year first)) - 1) * 100 / 100)%R
    with (Pandas.float_pow (IZR e / IZR s) (1 / IZR (Year final - Year first)))
    by (field).
  rewrite float_pow_root; [field; lra| |lia].
  apply Rmult_le_pos; [exact He'|]. left. now apply Rinv_0_lt_compat.
Qed.

Lemma growth_rate_compounds_to_end_population_witness :
  (IZR 100 * (1 + ((sqrt 2 - 1) * 100) / 100) ^ Z.to_nat 2)%R = IZR 200.
Proof.
  pose proof (growth_rate_compounds_to_end_population Pandas.insertion_sort
                ("Tampa", "FL", "Hillsborough County")
                [ mk_record 2017 "Tampa" "FL" "Hillsborough County" (Some 200%Z);
                  mk_record 2015 "Tampa" "FL" "Hillsborough County" (Some 100%Z) ]
                (census_data.mk_growth "Tampa" "FL" "Hillsborough County" 100 200
                   ((IZR 200 - IZR 100) / IZR 100 * 100)%R
                   ((Pandas.float_pow (IZR 200 / IZR 100) (1 / IZR (2017 - 2015)) - 1)
                    * 100)%R
                   (2017 - 2015))
                eq_refl ltac:(simpl; lia)) as (_ & _ & H).
  cbn [census_data.Start_Population census_data.End_Population
       census_data.CAGR_Pct census_data.Years_Analyzed] in H.
  replace (2017 - 2015)%Z with 2%Z in H by reflexivity.
  replace (IZR 200 / IZR 100)%R with 2%R in H by lra.
  replace (1 / 2)%R with (/ 2)%R in H by lra.
  rewrite float_pow_sqrt_2 in H. exact H.
Defined.

(** X15: the two growth rates of a row tell the direction of the change:
    for a non-negative end population, the CAGR and the total growth are
    positive exactly when the population grew and zero exactly when it
    stayed the same, and the CAGR is never below -100. *)
Theorem growth_rates_tell_the_direction (sort_values : Pandas.sorter)
  (key : Pandas.group_key) (location_data : list census_data.PopulationRecord)
  (row : census_data.GrowthRow) :
  census_data.location_growth sort_values key location_data = Some row ->
  (0 <= census_data.End_Population row)%Z ->
  let start_pop := census_data.Start_Population row in
  let end_pop := census_data.End_Population row in
  ((0 < census_data.CAGR_Pct row)%R <-> (start_pop < end_pop)%Z)
  /\ (census_data.CAGR_Pct row = 0%R <-> start_pop = end_pop)
  /\ ((0 < census_data.Total_Growth_Pct row)%R <-> (start_pop < end_pop)%Z)
  /\ (census_data.Total_Growth_Pct row = 0%R <-> start_pop = end_pop)
  /\ (-100 <= census_data.CAGR_Pct row)%R.
Proof.
  intros H He. apply location_growth_iff in H.
  destruct H as (first & final & s & e & _ & _ & _ & _ & _ & Hy & Hs & ->).
  cbn [census_data.End_Population census_data.Start_Population
       census_data.Total_Growth_Pct census_data.CAGR_Pct] in *. cbv zeta.
  assert (Hs' : (0 < IZR s)%R) by (now apply IZR_lt).
  assert (Hinv : (0 < / IZR s)%R) by (now apply Rinv_0_lt_compat).
  assert (Hn : (0 < 1 / IZR (Year final - Year first))%R).
  { apply Rdiv_lt_0_compat; [lra|]. apply IZR_lt. lia. }
  assert (Hlt : (IZR s < IZR e)%R <-> (s < e)%Z)
    by (split; [apply lt_IZR|apply IZR_lt]).
  assert (Heq : IZR s = IZR e <-> s = e)
    by (split; [apply eq_IZR|intros ->; reflexivity]).
  assert (Hx1 : (1 < IZR e / IZR s)%R <-> (IZR s < IZR e)%R).
  { split; intros Hc.
    - apply (Rmult_lt_compat_r (IZR s)) in Hc; [|exact Hs'].
      replace (IZR e / IZR s * IZR s)%R with (IZR e) in Hc by (field; lra). lra.
    - apply (Rmult_lt_reg_r (IZR s)); [exact Hs'|].
      replace (IZR e / IZR s * IZR s)%R with (IZR e) by (field; lra). lra. }
  assert (Hx0 : (IZR e / IZR s)%R = 1%R <-> IZR s = IZR e).
  { split; intros Hc.
    - apply (f_equal (fun v => v * IZR s)%R) in Hc.
      replace (IZR e / IZR s * IZR s)%R with (IZR e) in Hc by (field; lra). lra.
    - rewrite <- Hc. field. lra. }
  assert (Htot : ((IZR e - IZR s) / IZR s * 100
                  = (IZR e / IZR s - 1) * 100)%R) by (field; lra).
  rewrite Htot.
  assert (Hcagr :
            ((0 < (Pandas.float_pow (IZR e / IZR s)
                     (1 / IZR (Year final - Year first)) - 1) * 100)%R
             <-> (1 < IZR e / IZR s)%R)
            /\ ((Pandas.float_pow (IZR e / IZR s)
                   (1 / IZR (Year final - Year first)) - 1) * 100 = 0
                <-> IZR e / IZR s = 1)%R
            /\ (-100 <= (Pandas.float_pow (IZR e / IZR s)
                           (1 / IZR (Year final - Year first)) - 1) * 100)%R).
  { unfold Pandas.float_pow.
    destruct (Rlt_dec 0 (IZR e / IZR s)) as [H0|H0].
    - destruct (Rpower_above_one _ _ H0 Hn) as [Ha Hb].
      pose proof (exp_pos (1 / IZR (Year final - Year first) * ln (IZR e / IZR s)))
        as Hp. fold (Rpower (IZR e / IZR s) (1 / IZR (Year final - Year first))) in Hp.
      split; [|split]; [split; intros; [apply Ha|apply Ha in H]; lra
                       |split; intros; [apply Hb|apply Hb in H]; lra
                       |lra].
    - split; [|split]; [split; intros; lra|split; intros; lra|lra]. }
  destruct Hcagr as (Hc1 & Hc2 & Hc3).
  repeat split; try tauto; try lra.
  - intros Hc. apply Hlt, Hx1. lra.
  - intros Hc. apply Hlt, Hx1 in Hc. lra.
  - intros Hc. apply Heq, Hx0. lra.
  - intros Hc. apply Heq, Hx0 in Hc. lra.
Qed.

Lemma growth_rates_tell_the_direction_witness :
  ((0 < (Pandas.float_pow (IZR 200 / IZR 100) (1 / IZR (2017 - 2015)) - 1) * 100)%R
   <-> (100 < 200)%Z).
Proof.
  exact (proj1 (growth_rates_tell_the_direction Pandas.insertion_sort
                ("Tampa", "FL", "Hillsborough County")
                [ mk_record 2017 "Tampa" "FL" "Hillsborough County" (Some 200%Z);
                  mk_record 2015 "Tampa" "FL" "Hillsborough County" (Some 100%Z) ]
                (census_data.mk_growth "Tampa" "FL" "Hillsborough County" 100 200
                   ((IZR 200 - IZR 100) / IZR 100 * 100)%R
                   ((Pandas.float_pow (IZR 200 / IZR 100) (1 / IZR (2017 - 2015)) - 1)
                    * 100)%R
                   (2017 - 2015))
                eq_refl ltac:(simpl; lia))).
Defined.

Section StrongestWithoutStability.
Import Pandas.

Lemma sort_head_is_least {T : Type} (leb : T -> T -> bool) (sort_values : sorter)
  (l : list T) :
  total leb -> transitive leb -> sort_contract sort_values ->
  match hd_error (sort_values T leb l) with
  | None => l = []
  | Some r => In r l /\ forall x, In x l -> leb r x = true
  end.
Proof.
  intros Htot Htr [Hperm Hsorted].
  specialize (Hperm T leb l). specialize (Hsorted T leb l Htot Htr).
  destruct (sort_values T leb l) as [|r t]; cbn [hd_error].
  - now apply Permutation_nil.
  - split; [apply (Permutation_in _ Hperm); now left|].
    intros x Hx. apply (Permutation_in _ (Permutation_sym Hperm)) in Hx.
    inversion Hsorted as [|? ? _ Hall]; subst.
    destruct Hx as [<-|Hx]; [|now apply (proj1 (Forall_forall _ _) Hall)].
    destruct (Htot r r); assumption.
Qed.

End StrongestWithoutStability.

(** X16: with any sorting routine that returns the rows in order, the
    strongest market that the census fetcher reports is a location of the
    growth analysis whose CAGR no other location exceeds; nothing is
    reported exactly when the frame is empty or has a single year, or when
    no location could be analysed. The same holds for the employment
    fetcher and the composite score. *)
Theorem strongest_market_has_the_largest_metric (sort_values : Pandas.sorter)
  (population_df : list census_data.PopulationRecord)
  (employment_df : list bls_data.EmploymentRecord) :
  Pandas.sort_contract sort_values ->
  match census_data.population_trend sort_values population_df with
  | Some info =>
      exists row,
        In row (census_data.growth_analysis sort_values population_df)
        /\ info = census_data.info_of row
        /\ forall x, In x (census_data.growth_analysis sort_values population_df) ->
                     (census_data.CAGR_Pct x <= census_data.CAGR_Pct row)%R
  | None =>
      trend_runs population_df = false
      \/ census_data.growth_analysis sort_values population_df = []
  end
  /\ match bls_data.employment_trend sort_values employment_df with
     | Some info =>
         exists row,
           In row (bls_data.employment_analysis sort_values employment_df)
           /\ info = bls_data.einfo_of row
           /\ forall x,
                In x (bls_data.employment_analysis sort_values employment_df) ->
                (bls_data.Composite_Score x <= bls_data.Composite_Score row)%R
     | None =>
         trend_runs employment_df = false
         \/ bls_data.employment_analysis sort_values employment_df = []
     end.
Proof.
  intros Hc. split.
  - unfold census_data.population_trend. fold (trend_runs population_df).
    destruct (trend_runs population_df); [|now left].
    unfold census_data.strongest_market.
    pose proof (sort_head_is_least census_data.cagr_desc sort_values
                  (census_data.growth_analysis sort_values population_df)
                  (desc_total census_data.CAGR_Pct)
                  (desc_transitive census_data.CAGR_Pct) Hc) as H.
    destruct (hd_error _) as [row|]; cbn [option_map]; [|now right].
    destruct H as [Hin Hmax]. exists row. split; [exact Hin|]. split; [reflexivity|].
    intros x Hx. apply Rleb_true. exact (Hmax x Hx).
  - unfold bls_data.employment_trend. fold (trend_runs employment_df).
    destruct (trend_runs employment_df); [|now left].
    unfold bls_data.strongest_employment_market.
    pose proof (sort_head_is_least bls_data.composite_desc sort_values
                  (bls_data.employment_analysis sort_values employment_df)
                  (desc_total bls_data.Composite_Score)
                  (desc_transitive bls_data.Composite_Score) Hc) as H.
    destruct (hd_error _) as [row|]; cbn [option_map]; [|now right].
    destruct H as [Hin Hmax]. exists row. split; [exact Hin|]. split; [reflexivity|].
    intros x Hx. apply Rleb_true. exact (Hmax x Hx).
Qed.

Lemma strongest_market_has_the_largest_metric_witness :
  let population_df :=
    [ mk_record 2017 "Tampa" "FL" "Hillsborough County" (Some 200%Z);
      mk_record 2015 "Tampa" "FL" "Hillsborough County" (Some 100%Z) ] in
  match census_data.population_trend Pandas.insertion_sort population_df with
  | Some info =>
      exists row,
        In row (census_data.growth_analysis Pandas.insertion_sort population_df)
        /\ info = census_data.info_of row
        /\ forall x,
             In x (census_data.growth_analysis Pandas.insertion_sort population_df) ->
             (census_data.CAGR_Pct x <= census_data.CAGR_Pct row)%R
  | None =>
      trend_runs population_df = false
      \/ census_data.growth_analysis Pandas.insertion_sort population_df = []
  end.
Proof.
  exact (proj1 (strongest_market_has_the_largest_metric Pandas.insertion_sort
                  [ mk_record 2017 "Tampa" "FL" "Hillsborough County" (Some 200%Z);
                    mk_record 2015 "Tampa" "FL" "Hillsborough County" (Some 100%Z) ]
                  [] insertion_sort_contract)).
Defined.

Section GroupOrder.
Import Pandas.

Lemma string_compare_gt_lt (a b : string) :
  String.compare a b = Gt -> String.compare b a = Lt.
Proof. intros H. rewrite String.compare_antisym, H. reflexivity. Qed.

Lemma key_compare_gt_lt (a b : group_key) :
  key_compare a b = Gt -> key_lt b a.
Proof.
  destruct a as [[a1 a2] a3], b as [[b1 b2] b3]. unfold key_lt, key_compare.
  destruct (String.compare a1 b1) eqn:E1; try discriminate.
  - apply String.compare_eq_iff in E1. subst b1. rewrite string_compare_refl.
    destruct (String.compare a2 b2) eqn:E2; try discriminate.
    + apply String.compare_eq_iff in E2. subst b2. rewrite string_compare_refl.
      apply string_compare_gt_lt.
    + intros _. now rewrite (string_compare_gt_lt _ _ E2).
  - intros _. now rewrite (string_compare_gt_lt _ _ E1).
Qed.

Lemma key_lt_trans (a b c : group_key) : key_lt a b -> key_lt b c -> key_lt a c.
Proof.
  destruct a as [[a1 a2] a3], b as [[b1 b2] b3], c as [[c1 c2] c3].
  unfold key_lt, key_compare.
  destruct (String.compare a1 b1) eqn:E1; try discriminate.
  - apply String.compare_eq_iff in E1. subst b1.
    destruct (String.compare a1 c1) eqn:F1; try discriminate; [|reflexivity].
    destruct (String.compare a2 b2) eqn:E2; try discriminate.
    + apply String.compare_eq_iff in E2. subst b2.
      destruct (String.compare a2 c2) eqn:F2; try discriminate; [|reflexivity].
      apply string_compare_lt_trans.
    + destruct (String.compare b2 c2) eqn:F2; try discriminate.
      * apply String.compare_eq_iff in F2. subst c2. now rewrite E2.
      * now rewrite (string_compare_lt_trans _ _ _ E2 F2).
  - intros _. destruct (String.compare b1 c1) eqn:F1; try discriminate.
    + apply String.compare_eq_iff in F1. subst c1. now rewrite E1.
    + now rewrite (string_compare_lt_trans _ _ _ E1 F1).
Qed.

Lemma key_lt_irrefl (a : group_key) : ~ key_lt a a.
Proof.
  unfold key_lt. destruct a as [[a1 a2] a3]. unfold key_compare.
  now rewrite !string_compare_refl.
Qed.

Lemma insert_key_In (k x : group_key) (l : list group_key) :
  In x (insert_key k l) -> x = k \/ In x l.
Proof.
  induction l as [|h t IH]; cbn [insert_key].
  - intros [<-|[]]. now left.
  - destruct (key_compare k h).
    + now right.
    + intros [<-|H]; [now left|now right].
    + intros [<-|H]; [right; now left|].
      destruct (IH H) as [->|H']; [now left|right; now right].
Qed.

Lemma insert_key_sorted (k : group_key) (l : list group_key) :
  StronglySorted key_lt l -> StronglySorted key_lt (insert_key k l).
Proof.
  induction 1 as [|h t Ht IH Hh]; cbn [insert_key].
  - constructor; constructor.
  - destruct (key_compare k h) eqn:E.
    + now constructor.
    + constructor; [now constructor|]. constructor; [exact E|].
      apply Forall_forall. intros x Hx.
      apply (key_lt_trans k h x E). now apply (proj1 (Forall_forall _ _) Hh).
    + constructor; [exact IH|]. apply Forall_forall. intros x Hx.
      destruct (insert_key_In k x t Hx) as [->|Hx'].
      * now apply key_compare_gt_lt.
      * now apply (proj1 (Forall_forall _ _) Hh).
Qed.

Lemma group_keys_fold {T : Type} (key : T -> group_key) (df : list T) :
  forall acc,
    StronglySorted key_lt acc ->
    let keys := fold_left (fun acc r => insert_key (key r) acc) df acc in
    StronglySorted key_lt keys
    /\ forall k, In k keys -> In k acc \/ exists r, In r df /\ key r = k.
Proof.
  induction df as [|r df IH]; intros acc Hs; cbn [fold_left]; [split; auto|].
  destruct (IH (insert_key (key r) acc) (insert_key_sorted _ _ Hs)) as [H1 H2].
  split; [exact H1|]. intros k Hk.
  destruct (H2 k Hk) as [Hin|(r' & Hr' & <-)].
  - destruct (insert_key_In _ _ _ Hin) as [->|Hold]; [|now left].
    right. exists r. split; [now left|reflexivity].
  - right. exists r'. split; [now right|reflexivity].
Qed.

Lemma groupby_keys {T : Type} (key : T -> group_key) (df : list T) :
  StronglySorted key_lt (map fst (groupby key df))
  /\ Forall (fun g => exists r, In r df /\ key r = fst g) (groupby key df).
Proof.
  unfold groupby.
  destruct (group_keys_fold key df [] (SSorted_nil _)) as [H1 H2].
  cbv zeta in H1, H2. split.
  - rewrite map_map. cbn [fst]. now rewrite map_id.
  - apply Forall_forall. intros g Hg. apply in_map_iff in Hg.
    destruct Hg as (k & <- & Hk). cbn [fst].
    destruct (H2 k Hk) as [[]|H]. exact H.
Qed.

Lemma sorted_keys_distinct (l : list group_key) :
  StronglySorted key_lt l -> NoDup l.
Proof.
  induction 1 as [|h t Ht IH Hh]; constructor; [|exact IH].
  intros Hin. apply (key_lt_irrefl h).
  now apply (proj1 (Forall_forall _ _) Hh).
Qed.

(** The rows that a loop over the groups appends, one for a group at most. *)
Lemma analysis_rows_follow_groups {T Row : Type} (key : T -> group_key)
  (row_of : group_key -> list T -> option Row) (location_of : Row -> group_key)
  (df : list T) :
  (forall k data row, row_of k data = Some row -> location_of row = k) ->
  let analysis :=
    census_data.somes (map (fun g => row_of (fst g) (snd g)) (groupby key df)) in
  StronglySorted key_lt (map location_of analysis)
  /\ Forall (fun row => exists r, In r df /\ key r = location_of row) analysis.
Proof.
  intros Hloc. cbv zeta.
  destruct (groupby_keys key df) as [Hs Hf].
  induction (groupby key df) as [|g groups IH]; cbn [map census_data.somes].
  - split; constructor.
  - cbn [map] in Hs. inversion Hs as [|? ? Hs' Hall]; subst.
    inversion Hf as [|? ? Hg Hf']; subst.
    destruct (IH Hs' Hf') as [IH1 IH2].
    destruct (row_of (fst g) (snd g)) as [row|] eqn:E; [|split; assumption].
    cbn [census_data.somes map]. pose proof (Hloc _ _ _ E) as Hk. split.
    + constructor; [exact IH1|]. apply Forall_forall. intros k Hk'.
      rewrite Hk.
      apply in_map_iff in Hk'. destruct Hk' as (row' & <- & Hrow').
      clear -Hall Hrow' Hloc.
      induction groups as [|g' groups IHg]; [contradiction|].
      cbn [map] in Hall. inversion Hall as [|? ? H1 H2]; subst.
      cbn [map census_data.somes] in Hrow'.
      destruct (row_of (fst g') (snd g')) as [row''|] eqn:E'.
      * destruct Hrow' as [<-|Hrow']; [now rewrite (Hloc _ _ _ E')|now apply IHg].
      * now apply IHg.
    + constructor; [|exact IH2]. rewrite Hk. exact Hg.
Qed.

Lemma location_growth_location (sort_values : sorter) (k : group_key)
  (data : list census_data.PopulationRecord) (row : census_data.GrowthRow) :
  census_data.location_growth sort_values k data = Some row ->
  growth_location row = k.
Proof.
  intros H. apply location_growth_iff in H.
  destruct H as (first & final & s & e & _ & _ & _ & _ & _ & _ & _ & ->).
  now destruct k as [[c st] co].
Qed.

Lemma location_employment_location (sort_values : sorter) (k : group_key)
  (data : list bls_data.EmploymentRecord) (row : bls_data.EmploymentRow) :
  bls_data.location_employment sort_values k data = Some row ->
  employment_location row = k.
Proof.
  intros H. apply location_employment_iff in H.
  destruct H as (first & final & se & ee & su & eu & _ & _ & _ & _ & _ & _ & _ & _ & _ & ->).
  now destruct k as [[c st] co].
Qed.

End GroupOrder.

(** X17: the growth analysis holds at most one row for a location, the
    rows come in ascending order of (City, State, County), and every row
    is about a location that has a record in the frame; the same holds for
    the employment analysis. *)
Theorem analysis_rows_are_one_per_location (sort_values : Pandas.sorter)
  (population_df : list census_data.PopulationRecord)
  (employment_df : list bls_data.EmploymentRecord) :
  let growth := census_data.growth_analysis sort_values population_df in
  let analysis := bls_data.employment_analysis sort_values employment_df in
  (StronglySorted key_lt (map growth_location growth)
   /\ NoDup (map growth_location growth)
   /\ Forall (fun row => exists r, In r population_df
                                   /\ location r = growth_location row) growth)
  /\ (StronglySorted key_lt (map employment_location analysis)
      /\ NoDup (map employment_location analysis)
      /\ Forall (fun row => exists r, In r employment_df
                                      /\ location r = employment_location row)
                analysis).
Proof.
  cbv zeta. split.
  - destruct (analysis_rows_follow_groups location
                (census_data.location_growth sort_values) growth_location
                population_df (location_growth_location sort_values)) as [H1 H2].
    split; [exact H1|]. split; [now apply sorted_keys_distinct|exact H2].
  - destruct (analysis_rows_follow_groups location
                (bls_data.location_employment sort_values) employment_location
                employment_df (location_employment_location sort_values)) as [H1 H2].
    split; [exact H1|]. split; [now apply sorted_keys_distinct|exact H2].
Qed.

(* ------------------------------------------------------------------ *)
(** ** Crime table: shape of the parsed frame *)

Section ParsedFrame.
Import Py Pandas crime_data.

Lemma digits_never_end_with_count (s : string) :
  all_chars is_digit s = true -> endswith "_count" s = false.
Proof.
  induction s as [|c s IH]; intros H; [reflexivity|].
  cbn [endswith]. simpl in H. apply andb_true_iff in H. destruct H as [Hc Hs].
  rewrite (IH Hs), orb_false_r.
  destruct (String.eqb_spec "_count" (String c s)) as [E|_]; [|reflexivity].
  inversion E; subst. discriminate Hc.
Qed.

Lemma parser_column_is_no_year_column (c : string) :
  parser_column c ->
  endswith "_count" c && negb (String.eqb c "Crime_Type") = false.
Proof.
  intros [->|[->|H]]; [reflexivity|reflexivity|].
  rewrite digits_never_end_with_count; [reflexivity|].
  unfold isdigit in H. now destruct c.
Qed.

Lemma kept_frame_columns (records : list (dict string)) :
  Forall parser_column (columns (kept_frame records)).
Proof.
  unfold kept_frame. cbv zeta. cbn [select columns].
  apply Forall_forall. intros c Hc. apply filter_In in Hc. destruct Hc as [Hc _].
  destruct Hc as [<-|[<-|Hc]]; [now left|right; now left|].
  apply filter_In in Hc. right. right. tauto.
Qed.

Lemma kept_frame_has_crime_type (records : list (dict string)) (d : dict string) :
  In d records -> keyed d -> In "Crime_Type" (columns (kept_frame records)).
Proof.
  intros Hin [_ [v Hv]]. unfold kept_frame. cbv zeta. cbn [select columns].
  apply filter_In. split; [right; now left|].
  unfold has_column. apply existsb_eqb_In.
  exact (frame_of_dicts_columns records d "Crime_Type" v Hin Hv).
Qed.

Lemma fill_row_no_null (r : list cell) : Forall (fun c => isna c = false) (fill_row r).
Proof.
  unfold fill_row. apply Forall_forall. intros c Hc. apply in_map_iff in Hc.
  destruct Hc as (x & <- & _). now destruct x.
Qed.

Lemma fill_row_length (r : list cell) : List.length (fill_row r) = List.length r.
Proof. unfold fill_row. apply length_map. Qed.

Lemma kept_frame_rows_length (records : list (dict string)) :
  Forall (fun r => List.length r = List.length (columns (kept_frame records)))
         (rows (kept_frame records)).
Proof.
  unfold kept_frame. cbv zeta. cbn [select columns rows].
  apply Forall_forall. intros r Hr. apply in_map_iff in Hr.
  destruct Hr as (x & <- & _). apply length_map.
Qed.

(** The frame that the parser makes of the collected rows. *)
Lemma frame_of_rows_shape (records : list (dict string)) :
  Forall keyed records ->
  let df := frame_of_rows records in
  (records = [] -> df = mk_frame [] [])
  /\ (records <> [] -> In "Crime_Type" (columns df))
  /\ Forall parser_column (columns df)
  /\ Forall (fun r => List.length r = List.length (columns df)
                      /\ Forall (fun c => isna c = false) r) (rows df).
Proof.
  intros Hk. cbv zeta. destruct records as [|d records].
  { split; [reflexivity|]. split; [congruence|]. split; constructor. }
  rewrite (frame_of_rows_eq _ (keyed_not_empty d records Hk)). cbn [columns rows].
  split; [discriminate|]. split; [|split].
  - intros _. apply (kept_frame_has_crime_type _ d); [now left|].
    now inversion Hk.
  - apply kept_frame_columns.
  - apply Forall_forall. intros r Hr. apply in_map_iff in Hr.
    destruct Hr as (x & <- & Hx). apply keep_last_index_incl in Hx.
    split; [|apply fill_row_no_null].
    rewrite fill_row_length.
    exact (proj1 (Forall_forall _ _) (kept_frame_rows_length _) x Hx).
Qed.

Lemma parse_crime_table_rows (crtable : option crime_data.crtable) (city_name : string)
  (df : DataFrame) :
  parse_crime_table crtable city_name = Return (Some df) ->
  exists records, Forall keyed records /\ df = frame_of_rows records.
Proof.
  unfold parse_crime_table. destruct crtable as [t|]; [|discriminate].
  destruct (thead t) as [[ths|]|]; try discriminate.
  destruct (tbody t) as [body|]; [|discriminate].
  intros H. inversion H. eexists. split; [apply collect_rows_keyed|reflexivity].
Qed.

(** A frame with the columns that the parser keeps has no year column
    for the reconciliation to pick. *)
Lemma parser_columns_are_not_joined (demographic_data df : DataFrame)
  (target_areas : option (dict area_converter.area_info)) :
  Forall parser_column (columns df) ->
  is_empty df = true \/ In "Crime_Type" (columns df) ->
  data_analysis.add_crime demographic_data (Some df) target_areas
  = Return demographic_data.
Proof.
  intros Hcols Hct. unfold data_analysis.add_crime.
  destruct target_areas as [areas|]; [|reflexivity].
  destruct (is_empty df) eqn:Ee; [reflexivity|].
  destruct Hct as [Hct|Hct]; [discriminate|].
  assert (Hhas : has_column df "Crime_Type" = true)
    by (unfold has_column; now apply existsb_eqb_In).
  rewrite Hhas. cbn [negb]. cbv zeta.
  destruct (is_empty (mk_frame (columns df) _)); [reflexivity|].
  assert (Hy : data_analysis.year_columns
                 (mk_frame (columns df)
                    (filter (data_analysis.is_crime_index_row (columns df)) (rows df)))
               = []).
  { unfold data_analysis.year_columns. cbn [columns].
    clear Hhas Hct Ee. induction Hcols as [|c cols Hc Hrest IH]; [reflexivity|].
    cbn [filter]. now rewrite (parser_column_is_no_year_column c Hc). }
  now rewrite Hy.
Qed.

End ParsedFrame.

(** X18: the frame that the crime parser returns has the columns City and
    Crime_Type (when it has rows) and, besides them, only columns whose
    name is made of digits; every row has one cell for each column and no
    cell is null. *)
Theorem parsed_crime_frame_shape (crtable : option crime_data.crtable)
  (city_name : string) (df : Pandas.DataFrame) :
  crime_data.parse_crime_table crtable city_name = Py.Return (Some df) ->
  Forall parser_column (Pandas.columns df)
  /\ (Pandas.rows df <> [] ->
      In "City" (Pandas.columns df) /\ In "Crime_Type" (Pandas.columns df))
  /\ Forall (fun r => List.length r = List.length (Pandas.columns df)
                      /\ Forall (fun c => Pandas.isna c = false) r)
            (Pandas.rows df).
Proof.
  intros H. destruct (parse_crime_table_rows _ _ _ H) as (records & Hk & ->).
  destruct (frame_of_rows_shape records Hk) as (H0 & H1 & H2 & H3).
  split; [exact H2|]. split; [|exact H3].
  intros Hr. destruct records as [|d records]; [now rewrite (H0 eq_refl) in Hr|].
  split; [|apply H1; discriminate].
  rewrite (frame_of_rows_eq _ (keyed_not_empty d records Hk)). cbn [Pandas.columns].
  unfold kept_frame. cbv zeta. cbn [Pandas.select Pandas.columns].
  apply filter_In. split; [now left|].
  unfold Pandas.has_column. apply existsb_eqb_In.
  inversion Hk as [|? ? [[v Hv] _] _]; subst.
  exact (frame_of_dicts_columns (d :: records) d "City" v (or_introl eq_refl) Hv).
Qed.

Lemma parsed_crime_frame_shape_witness :
  Forall parser_column ["City"; "Crime_Type"; "2021"; "2022"].
Proof.
  exact (proj1 (parsed_crime_frame_shape (Some repeated_murders) "Tampa, FL" _
                  repeated_murders_run)).
Defined.

(** X19: a frame that the crime parser returns is never joined to the
    reconciled table: the reconciliation looks for year columns whose name
    ends with _count, the parser names them by digits only, and so the
    table comes back as it was, without a crime column. *)
Theorem parsed_crime_frame_is_not_joined (crtable : option crime_data.crtable)
  (city_name : string) (df demographic_data : Pandas.DataFrame)
  (target_areas : option (Py.dict area_converter.area_info)) :
  crime_data.parse_crime_table crtable city_name = Py.Return (Some df) ->
  data_analysis.add_crime demographic_data (Some df) target_areas
  = Py.Return demographic_data.
Proof.
  intros H. destruct (parse_crime_table_rows _ _ _ H) as (records & Hk & ->).
  destruct (frame_of_rows_shape records Hk) as (H0 & H1 & H2 & _).
  apply parser_columns_are_not_joined; [exact H2|].
  destruct records as [|d records]; [left; now rewrite (H0 eq_refl)|].
  right. apply H1. discriminate.
Qed.

Lemma parsed_crime_frame_is_not_joined_witness :
  data_analysis.add_crime population_table
    (Some (Pandas.mk_frame ["City"; "Crime_Type"; "2021"; "2022"]
      [ [Pandas.Str "Tampa, FL"; Pandas.Str "Murders";
         Pandas.Str "12 (3.4)"; Pandas.Str "10 (2.9)"];
        [Pandas.Str "Tampa, FL"; Pandas.Str "Murders";
         Pandas.Str "15 (4.0)"; Pandas.Str "0"];
        [Pandas.Str "Tampa, FL"; Pandas.Str "Crime Index";
         Pandas.Str "345.2"; Pandas.Str "Not Found"] ]))
    (Some [("tampa_fl", tampa)])
  = Py.Return population_table.
Proof.
  exact (parsed_crime_frame_is_not_joined (Some repeated_murders) "Tampa, FL" _
           population_table (Some [("tampa_fl", tampa)]) repeated_murders_run).
Defined.

(* ------------------------------------------------------------------ *)
(** ** Crime scraper: which tables are collected *)

Section Scraper.
Import Py Pandas state_crime.

Lemma scrape_city_new (s : site) (all_crime_data : list DataFrame) (info : city_info) :
  exists new,
    scrape_city s all_crime_data info = all_crime_data ++ new
    /\ Forall (fun df => exists crtable other,
                   s (detail_url info) = Page other (Some crtable)
                   /\ crime_data.parse_crime_table (Some crtable) (city_name info)
                      = Return (Some df)
                   /\ is_empty df = false) new.
Proof.
  assert (Hnone : exists new : list DataFrame,
             all_crime_data = all_crime_data ++ new
             /\ Forall (fun df => exists crtable other,
                            s (detail_url info) = Page other (Some crtable)
                            /\ crime_data.parse_crime_table (Some crtable)
                                 (city_name info) = Return (Some df)
                            /\ is_empty df = false) new)
    by (exists []; split; [now rewrite app_nil_r|constructor]).
  unfold scrape_city.
  destruct (String.eqb (detail_url info) ""); [exact Hnone|].
  destruct (s (detail_url info)) as [|other [crtable|]] eqn:Es; try exact Hnone.
  destruct (crime_data.parse_crime_table (Some crtable) (city_name info))
    as [[df|]|] eqn:Ep; try exact Hnone.
  destruct (is_empty df) eqn:Ee; [exact Hnone|].
  exists [df]. split; [reflexivity|]. constructor; [|constructor].
  now exists crtable, other.
Qed.

Lemma scrape_state_new (s : site) (input_df : list (string * string))
  (all_crime_data : list DataFrame) (state_abbr : string) :
  exists new,
    scrape_state s input_df all_crime_data state_abbr = all_crime_data ++ new
    /\ Forall (frame_of_listed_city s input_df) new.
Proof.
  assert (Hnone : exists new : list DataFrame,
             all_crime_data = all_crime_data ++ new
             /\ Forall (frame_of_listed_city s input_df) new)
    by (exists []; split; [now rewrite app_nil_r|constructor]).
  unfold scrape_state.
  destruct (dict_get state_mapping state_abbr) as [state_name|] eqn:Em;
    [|exact Hnone].
  set (state_cities :=
         map fst (filter (fun row => String.eqb (snd row) state_abbr) input_df)).
  assert (Hcity : forall c, In c state_cities -> In (c, state_abbr) input_df).
  { intros c Hc. apply in_map_iff in Hc. destruct Hc as ([c' st] & <- & Hin).
    apply filter_In in Hin. destruct Hin as [Hin E]. cbn [snd fst] in *.
    apply String.eqb_eq in E. now subst. }
  destruct state_cities as [|c0 cs] eqn:Ec; [exact Hnone|]. rewrite <- Ec in *.
  destruct (s (state_url state_name)) as [|[rows|] other] eqn:Es; try exact Hnone.
  cbv zeta.
  set (filtered :=
         filter (is_user_city state_abbr (map lower state_cities))
                (fold_left city_of_row rows [])).
  assert (Hf : forall info, In info filtered ->
                 In info (fold_left city_of_row rows [])
                 /\ exists city, In (city, state_abbr) input_df
                      /\ lower (strip (replace (", " ++ state_abbr) ""
                                         (city_name info))) = lower city).
  { intros info Hi. apply filter_In in Hi. destruct Hi as [Hi Hu].
    split; [exact Hi|]. unfold is_user_city in Hu. cbv zeta in Hu.
    apply existsb_exists in Hu. destruct Hu as (lc & Hlc & E).
    apply String.eqb_eq in E. apply in_map_iff in Hlc.
    destruct Hlc as (city & <- & Hcin). exists city. split; [now apply Hcity|exact E]. }
  assert (Hfold : exists new,
             fold_left (scrape_city s) filtered all_crime_data = all_crime_data ++ new
             /\ Forall (frame_of_listed_city s input_df) new).
  { destruct (fold_appends (scrape_city s) _ (scrape_city_new s) filtered
                all_crime_data) as (new & E & Hn).
    exists new. split; [exact E|].
    apply Forall_forall. intros df Hdf.
    destruct (proj1 (Forall_forall _ _) Hn df Hdf)
      as (info & Hi & crtable & other' & Hs' & Hp & He).
    destruct (Hf info Hi) as (Hrow & city & Hcin & Hl).
    now exists city, state_abbr, state_name, rows, other, info, crtable, other'. }
  destruct filtered; [exact Hnone|exact Hfold].
Qed.

Lemma scraped_frames_listed (s : site) (input_df : list (string * string)) :
  Forall (frame_of_listed_city s input_df) (scraped_frames s input_df).
Proof.
  unfold scraped_frames.
  destruct (fold_appends (scrape_state s input_df)
              (fun _ => frame_of_listed_city s input_df)
              (scrape_state_new s input_df) (unique (map snd input_df)) [])
    as (new & -> & Hn).
  cbn [app]. apply Forall_forall. intros df Hdf.
  destruct (proj1 (Forall_forall _ _) Hn df Hdf) as (_ & _ & H). exact H.
Qed.

Lemma union_fold_In (l : list string) (c : string) :
  forall acc,
    In c (fold_left (fun cols c => if existsb (String.eqb c) cols then cols
                                   else cols ++ [c]) l acc)
    <-> In c acc \/ In c l.
Proof.
  induction l as [|x l IH]; intros acc; cbn [fold_left].
  - split; [now left|now intros [H|[]]].
  - rewrite IH. destruct (existsb (String.eqb x) acc) eqn:E.
    + apply existsb_eqb_In in E. split.
      * intros [H|H]; [now left|right; now right].
      * intros [H|[<-|H]]; [now left|now left|now right].
    + rewrite in_app_iff. cbn [In]. tauto.
Qed.

Lemma concat_columns_In (frames : list DataFrame) (c : string) :
  In c (columns (concat_frames frames))
  <-> exists df, In df frames /\ In c (columns df).
Proof.
  unfold concat_frames. cbn [columns].
  assert (H : forall acc,
             In c (fold_left
                     (fun cols df =>
                        fold_left (fun cols c => if existsb (String.eqb c) cols then cols
                                                 else cols ++ [c]) (columns df) cols)
                     frames acc)
             <-> In c acc \/ exists df, In df frames /\ In c (columns df)).
  { induction frames as [|f frames IH]; intros acc; cbn [fold_left].
    - split; [now left|]. intros [H|(df & [] & _)]. exact H.
    - rewrite IH, union_fold_In. split.
      + intros [[H|H]|(df & Hdf & Hc)]; [now left|right; exists f; split; [now left|exact H]|].
        right. exists df. split; [now right|exact Hc].
      + intros [H|(df & [<-|Hdf] & Hc)]; [left; now left|left; now right|].
        right. now exists df. }
  rewrite H. split; [intros [[]|H']; exact H'|now right].
Qed.

Lemma listed_city_frame_shape (s : site) (input_df : list (string * string))
  (df : DataFrame) :
  frame_of_listed_city s input_df df ->
  Forall parser_column (columns df) /\ In "Crime_Type" (columns df).
Proof.
  intros (city & st & sn & rows & other & info & crtable & other' & _ & _ & _ & _ & _
          & _ & Hp & He).
  destruct (parse_crime_table_rows _ _ _ Hp) as (records & Hk & ->).
  destruct (frame_of_rows_shape records Hk) as (H0 & H1 & H2 & _).
  split; [exact H2|]. apply H1. intros ->. now rewrite (H0 eq_refl) in He.
Qed.

Lemma unique_fold_filter (p : string -> bool) (l : list string) :
  forall seen,
    fold_left (fun seen x => if existsb (String.eqb x) seen then seen else seen ++ [x])
              (filter p l) (filter p seen)
    = filter p
        (fold_left (fun seen x => if existsb (String.eqb x) seen then seen
                                  else seen ++ [x]) l seen).
Proof.
  induction l as [|x l IH]; intros seen; [reflexivity|].
  cbn [filter fold_left]. destruct (p x) eqn:Ep.
  - cbn [fold_left].
    assert (E : existsb (String.eqb x) (filter p seen) = existsb (String.eqb x) seen).
    { destruct (existsb (String.eqb x) seen) eqn:Es.
      - apply existsb_eqb_In. apply filter_In. split; [now apply existsb_eqb_In|exact Ep].
      - destruct (existsb (String.eqb x) (filter p seen)) eqn:Ef; [|reflexivity].
        apply existsb_eqb_In, filter_In in Ef. destruct Ef as [Ef _].
        apply existsb_eqb_In in Ef. congruence. }
    rewrite E. destruct (existsb (String.eqb x) seen); [apply IH|].
    rewrite <- IH. rewrite filter_app. cbn [filter]. now rewrite Ep.
  - destruct (existsb (String.eqb x) seen); [apply IH|].
    rewrite <- IH. rewrite filter_app. cbn [filter]. rewrite Ep.
    now rewrite app_nil_r.
Qed.

Lemma scrape_states_skip (s : site) (input_df : list (string * string))
  (states : list string) :
  forall all_crime_data,
    fold_left (scrape_state s input_df) states all_crime_data
    = fold_left (scrape_state s input_df) (filter (dict_mem state_mapping) states)
                all_crime_data.
Proof.
  induction states as [|st states IH]; intros acc; [reflexivity|].
  cbn [filter fold_left]. unfold dict_mem at 1.
  destruct (dict_get state_mapping st) eqn:E.
  - cbn [fold_left]. apply IH.
  - unfold scrape_state at 2. rewrite E. apply IH.
Qed.

Lemma scrape_state_of_known_rows (s : site) (input_df : list (string * string))
  (all_crime_data : list DataFrame) (state_abbr : string) :
  scrape_state s (filter scraped_state input_df) all_crime_data state_abbr
  = scrape_state s input_df all_crime_data state_abbr.
Proof.
  unfold scrape_state.
  destruct (dict_get state_mapping state_abbr) as [state_name|] eqn:E; [|reflexivity].
  assert (Hf : filter (fun row => String.eqb (snd row) state_abbr)
                      (filter scraped_state input_df)
               = filter (fun row => String.eqb (snd row) state_abbr) input_df).
  { induction input_df as [|[c st] rows IH]; [reflexivity|].
    cbn [filter]. unfold scraped_state at 1. cbn [snd]. unfold dict_mem.
    destruct (String.eqb_spec st state_abbr) as [->|Hne].
    - rewrite E. cbn [filter snd]. rewrite String.eqb_refl. f_equal. exact IH.
    - destruct (dict_get state_mapping st); [|exact IH].
      cbn [filter snd]. destruct (String.eqb_spec st state_abbr); [contradiction|].
      exact IH. }
  now rewrite Hf.
Qed.

Lemma fold_left_agree {T B : Type} (f g : T -> B -> T) (l : list B) :
  (forall acc b, f acc b = g acc b) ->
  forall acc, fold_left f l acc = fold_left g l acc.
Proof.
  intros H. induction l as [|b l IH]; intros acc; [reflexivity|].
  cbn [fold_left]. now rewrite H, IH.
Qed.

Lemma scraped_frames_of_known_rows (s : site) (input_df : list (string * string)) :
  scraped_frames s (filter scraped_state input_df) = scraped_frames s input_df.
Proof.
  unfold scraped_frames.
  rewrite (fold_left_agree _ _ _ (scrape_state_of_known_rows s input_df)).
  rewrite (scrape_states_skip s input_df (unique (map snd input_df))).
  f_equal. unfold unique.
  rewrite <- (unique_fold_filter (dict_mem state_mapping) (map snd input_df) []).
  cbn [filter]. f_equal.
  clear. induction input_df as [|[c st] rows IH]; [reflexivity|].
  cbn [filter map]. unfold scraped_state at 1. cbn [snd].
  destruct (dict_mem state_mapping st); cbn [map snd]; now rewrite IH.
Qed.

End Scraper.

(** X20: every frame that the crime scraper collects is the parsed crime
    table of a city that the page of a state of the input lists, whose
    listed name, without the state suffix and whatever the case, is the
    name of an input city of that state; the table has rows. *)
Theorem scraped_frames_are_of_listed_input_cities (s : state_crime.site)
  (input_df : list (string * string)) :
  Forall (frame_of_listed_city s input_df) (state_crime.scraped_frames s input_df).
Proof. apply scraped_frames_listed. Qed.

(** X21: the crime frame that the scraper returns is never joined to the
    reconciled table: whatever the site delivers, its year columns are
    named by digits and none ends with _count, so that the reconciliation
    returns the same table as without crime data. *)
Theorem scraped_crime_data_is_not_joined (s : state_crime.site)
  (input_df : list (string * string))
  (population_df age_df : Pandas.DataFrame) (employment_df : option Pandas.DataFrame)
  (target_areas : option (Py.dict area_converter.area_info)) :
  Forall parser_column (Pandas.columns (state_crime.get_state_crime_data s input_df))
  /\ data_analysis.analyze_and_visualize_data population_df age_df employment_df
       (Some (state_crime.get_state_crime_data s input_df)) target_areas
     = data_analysis.analyze_and_visualize_data population_df age_df employment_df
         None target_areas.
Proof.
  assert (Hshape :
            Forall parser_column
                   (Pandas.columns (state_crime.get_state_crime_data s input_df))
            /\ (Pandas.is_empty (state_crime.get_state_crime_data s input_df) = true
                \/ In "Crime_Type"
                      (Pandas.columns (state_crime.get_state_crime_data s input_df)))).
  { unfold state_crime.get_state_crime_data.
    pose proof (scraped_frames_listed s input_df) as Hl.
    destruct (state_crime.scraped_frames s input_df) as [|f frames];
      [split; [constructor|now left]|].
    split.
    - apply Forall_forall. intros c Hc. apply concat_columns_In in Hc.
      destruct Hc as (df & Hdf & Hc).
      pose proof (proj1 (Forall_forall _ _) Hl df Hdf) as Hdf'.
      destruct (listed_city_frame_shape s input_df df Hdf') as [Hcols _].
      now apply (proj1 (Forall_forall _ _) Hcols).
    - right. apply concat_columns_In. exists f. split; [now left|].
      inversion Hl as [|? ? Hf _]; subst.
      now destruct (listed_city_frame_shape s input_df f Hf). }
  destruct Hshape as [Hcols Hct]. split; [exact Hcols|].
  unfold data_analysis.analyze_and_visualize_data.
  destruct (data_analysis.merge_population_age population_df age_df) as [d1|e];
    [|reflexivity].
  cbn [Py.bind].
  destruct (data_analysis.add_employment d1 employment_df) as [d2|e]; [|reflexivity].
  cbn [Py.bind].
  now rewrite (parser_columns_are_not_joined d2 _ target_areas Hcols Hct).
Qed.

(** X22: the crime scraper passes over the rows whose state code is not a
    key of its table: it returns the same frame as for the input without
    those rows, and an empty frame when no row has a known state code. *)
Theorem scraper_skips_unknown_states (s : state_crime.site)
  (input_df : list (string * string)) :
  state_crime.get_state_crime_data s input_df
  = state_crime.get_state_crime_data s (filter scraped_state input_df)
  /\ (filter scraped_state input_df = [] ->
      state_crime.get_state_crime_data s input_df = Pandas.empty_frame).
Proof.
  assert (E : state_crime.get_state_crime_data s input_df
              = state_crime.get_state_crime_data s (filter scraped_state input_df))
    by (unfold state_crime.get_state_crime_data;
        now rewrite scraped_frames_of_known_rows).
  split; [exact E|]. intros H. rewrite E, H. reflexivity.
Qed.

Example tampa_site_run :
  state_crime.get_state_crime_data tampa_site [("Miami", "FL"); ("tampa", "FL")]
  = Pandas.mk_frame ["City"; "Crime_Type"; "2021"; "2022"]
      [ [Pandas.Str "Tampa, FL"; Pandas.Str "Murders";
         Pandas.Str "12 (3.4)"; Pandas.Str "10 (2.9)"];
        [Pandas.Str "Tampa, FL"; Pandas.Str "Murders";
         Pandas.Str "15 (4.0)"; Pandas.Str "0"];
        [Pandas.Str "Tampa, FL"; Pandas.Str "Crime Index";
         Pandas.Str "345.2"; Pandas.Str "Not Found"] ].
Proof. vm_compute. reflexivity. Qed.

(* ------------------------------------------------------------------ *)
(** ** Reconciliation: counties of crime cities, latest year column *)

Section CityCounty.
Import Py Pandas area_converter data_analysis.

Lemma mapping_fold_has_city (areas : list area_info) (a : area_info) :
  forall acc : dict string,
    In a areas \/ dict_mem acc (city a) = true ->
    dict_mem (fold_left (fun m area => dict_set m (city area) (county area)) areas acc)
             (city a) = true.
Proof.
  induction areas as [|b areas IH]; intros acc H; cbn [fold_left].
  - destruct H as [[]|H]; exact H.
  - apply IH. destruct H as [[->|H]|H]; [right|now left|right].
    + unfold dict_mem. now rewrite dict_get_set, String.eqb_refl.
    + unfold dict_mem in *. rewrite dict_get_set.
      now destruct (String.eqb (city b) (city a)).
Qed.

End CityCounty.

(** X23: a city of the crime table whose name contains the name of a
    target city, or is contained in it, whatever the case, is given the
    county of a target area whose city matches it, and never falls back to
    its own name. *)
Theorem matching_crime_city_gets_a_target_county
  (target_areas : Py.dict area_converter.area_info) (x : string)
  (area : area_converter.area_info) :
  In area (Py.dict_values target_areas) ->
  data_analysis.city_matches x
    (area_converter.city area, area_converter.county area) = true ->
  exists matched,
    In matched (Py.dict_values target_areas)
    /\ data_analysis.city_matches x
         (area_converter.city matched, area_converter.county matched) = true
    /\ data_analysis.county_of_city
         (data_analysis.city_to_county_mapping target_areas) x
       = area_converter.county matched.
Proof.
  intros Hin Hm.
  pose proof (mapping_fold_has_city (Py.dict_values target_areas) area []
                (or_introl Hin)) as Hkey.
  fold (data_analysis.city_to_county_mapping target_areas) in Hkey.
  unfold Py.dict_mem in Hkey.
  destruct (Py.dict_get (data_analysis.city_to_county_mapping target_areas)
              (area_converter.city area)) as [v|] eqn:Eg; [|discriminate].
  apply dict_get_In in Eg.
  destruct (county_of_city_first_match
              (data_analysis.city_to_county_mapping target_areas) x)
    as [(m1 & c & k & m2 & Emap & Hck & _ & Hres)|[Hnone _]].
  - assert (He : In (c, k) (data_analysis.city_to_county_mapping target_areas))
      by (rewrite Emap; apply in_or_app; right; now left).
    destruct (city_to_county_mapping_In target_areas (c, k) He) as (b & Hb & Eb).
    inversion Eb; subst c k. exists b. repeat split; assumption.
  - specialize (Hnone _ Eg). unfold data_analysis.city_matches in *.
    cbn [fst] in *. congruence.
Qed.

Lemma matching_crime_city_gets_a_target_county_witness :
  exists matched,
    In matched (Py.dict_values florida_areas)
    /\ data_analysis.city_matches "Winter Park, FL"
         (area_converter.city matched, area_converter.county matched) = true
    /\ data_analysis.county_of_city
         (data_analysis.city_to_county_mapping florida_areas) "Winter Park, FL"
       = area_converter.county matched.
Proof.
  apply (matching_crime_city_gets_a_target_county florida_areas "Winter Park, FL"
           winter_park).
  - simpl. right. left. reflexivity.
  - reflexivity.
Defined.

Section YearOrder.
Import Py.

Lemma digits_value_acc (s : string) :
  forall acc : Z,
    digits_value acc s = (acc * 10 ^ Z.of_nat (String.length s) + digits_value 0 s)%Z.
Proof.
  induction s as [|c s IH]; intros acc.
  - cbn [digits_value String.length]. change (10 ^ Z.of_nat 0)%Z with 1%Z. lia.
  - cbn [digits_value String.length]. rewrite (IH (10 * acc + digit_value c)%Z).
    rewrite (IH (10 * 0 + digit_value c)%Z).
    rewrite Nat2Z.inj_succ, Z.pow_succ_r by lia. ring.
Qed.

Lemma digit_value_range (c : ascii) :
  is_digit c = true ->
  (0 <= digit_value c <= 9)%Z /\ digit_value c = (Z.of_N (N_of_ascii c) - 48)%Z.
Proof.
  unfold is_digit, digit_value, nat_of_ascii. intros H.
  apply andb_true_iff in H. destruct H as [H1 H2].
  apply Nat.leb_le in H1, H2. lia.
Qed.

Lemma digits_value_bound (s : string) :
  all_chars is_digit s = true ->
  (0 <= digits_value 0 s < 10 ^ Z.of_nat (String.length s))%Z.
Proof.
  induction s as [|c s IH]; intros H.
  - cbn. lia.
  - simpl in H. apply andb_true_iff in H. destruct H as [Hc Hs].
    cbn [digits_value String.length]. rewrite digits_value_acc.
    rewrite Nat2Z.inj_succ, Z.pow_succ_r by lia.
    destruct (digit_value_range c Hc) as [Hr _]. specialize (IH Hs). nia.
Qed.

(** Strings of digits of the same length, followed by the same text,
    compare as their values do. *)
Lemma compare_digits (d1 : string) :
  forall (d2 s : string),
    String.length d1 = String.length d2 ->
    all_chars is_digit d1 = true -> all_chars is_digit d2 = true ->
    match String.compare (d1 ++ s) (d2 ++ s) with
    | Eq => digits_value 0 d1 = digits_value 0 d2
    | Lt => (digits_value 0 d1 < digits_value 0 d2)%Z
    | Gt => (digits_value 0 d2 < digits_value 0 d1)%Z
    end.
Proof.
  induction d1 as [|c1 r1 IH]; intros [|c2 r2] s Hl H1 H2; try discriminate.
  - cbn [append]. now rewrite string_compare_refl.
  - cbn [append String.compare]. cbn [String.length] in Hl.
    simpl in H1, H2. apply andb_true_iff in H1, H2.
    destruct H1 as [Hc1 Hr1], H2 as [Hc2 Hr2].
    cbn [digits_value]. rewrite (digits_value_acc r1), (digits_value_acc r2).
    replace (String.length r2) with (String.length r1) by lia.
    pose proof (digits_value_bound r1 Hr1) as B1.
    pose proof (digits_value_bound r2 Hr2) as B2.
    replace (String.length r2) with (String.length r1) in B2 by lia.
    destruct (digit_value_range c1 Hc1) as [_ E1].
    destruct (digit_value_range c2 Hc2) as [_ E2].
    unfold Ascii.compare.
    destruct (N.compare_spec (N_of_ascii c1) (N_of_ascii c2)) as [E|L|L].
    + specialize (IH r2 s ltac:(lia) Hr1 Hr2).
      assert (digit_value c1 = digit_value c2) by (rewrite E1, E2, E; reflexivity).
      destruct (String.compare (r1 ++ s) (r2 ++ s)); nia.
    + nia.
    + nia.
Qed.

End YearOrder.

(** X24: among year columns made of digit strings of one length followed
    by _count, the column taken for the latest year is the one of the
    largest year number. *)
Theorem latest_year_col_is_the_largest_year (years : list string) (n : nat) :
  years <> [] ->
  Forall (fun y => Py.all_chars Py.is_digit y = true /\ String.length y = n) years ->
  exists latest_year,
    In latest_year years
    /\ data_analysis.latest_year_col (map (fun y => y ++ "_count")%string years)
       = (latest_year ++ "_count")%string
    /\ forall y, In y years ->
                 (Py.digits_value 0 y <= Py.digits_value 0 latest_year)%Z.
Proof.
  intros Hne Hall. destruct years as [|y0 rest]; [contradiction|].
  cbn [map].
  destruct (latest_year_col_max (y0 ++ "_count")%string
              (map (fun y => y ++ "_count")%string rest)) as [Hin Hmax].
  change (In (data_analysis.latest_year_col
                ((y0 ++ "_count")%string :: map (fun y => (y ++ "_count")%string) rest))
             (map (fun y => (y ++ "_count")%string) (y0 :: rest))) in Hin.
  apply in_map_iff in Hin. destruct Hin as (latest & El & Hl).
  exists latest. split; [exact Hl|]. split; [now rewrite El|].
  intros y Hy.
  assert (Hle : String.leb (y ++ "_count") (latest ++ "_count") = true).
  { rewrite El. apply Hmax.
    exact (in_map (fun y => (y ++ "_count")%string) (y0 :: rest) y Hy). }
  destruct (proj1 (Forall_forall _ _) Hall y Hy) as [Hd Hn].
  destruct (proj1 (Forall_forall _ _) Hall latest Hl) as [Hd' Hn'].
  pose proof (compare_digits y latest "_count" ltac:(congruence) Hd Hd') as Hc.
  unfold String.leb in Hle.
  destruct (String.compare (y ++ "_count") (latest ++ "_count"));
    [lia|lia|discriminate].
Qed.

Lemma latest_year_col_is_the_largest_year_witness :
  exists latest_year,
    In latest_year ["2021"; "2023"; "2022"]
    /\ data_analysis.latest_year_col
         (map (fun y => y ++ "_count")%string ["2021"; "2023"; "2022"])
       = (latest_year ++ "_count")%string
    /\ forall y, In y ["2021"; "2023"; "2022"] ->
                 (Py.digits_value 0 y <= Py.digits_value 0 latest_year)%Z.
Proof.
  apply (latest_year_col_is_the_largest_year ["2021"; "2023"; "2022"] 4).
  - discriminate.
  - repeat constructor.
Defined.

(* ------------------------------------------------------------------ *)
(** ** Input handler: city names and year range *)

Section TitleCase.
Import Py input_handler.

Lemma lower_char_space (c : ascii) : is_space (lower_char c) = is_space c.
Proof. destruct c as [[] [] [] [] [] [] [] []]; reflexivity. Qed.

Lemma upper_char_space (c : ascii) : is_space (upper_char c) = is_space c.
Proof. destruct c as [[] [] [] [] [] [] [] []]; reflexivity. Qed.

Lemma lower_char_idem (c : ascii) : lower_char (lower_char c) = lower_char c.
Proof. destruct c as [[] [] [] [] [] [] [] []]; reflexivity. Qed.

Lemma upper_char_idem (c : ascii) : upper_char (upper_char c) = upper_char c.
Proof. destruct c as [[] [] [] [] [] [] [] []]; reflexivity. Qed.

Lemma upper_lower_char (c : ascii) : upper_char (lower_char c) = upper_char c.
Proof. destruct c as [[] [] [] [] [] [] [] []]; reflexivity. Qed.

Lemma lower_upper_char (c : ascii) : lower_char (upper_char c) = lower_char c.
Proof. destruct c as [[] [] [] [] [] [] [] []]; reflexivity. Qed.

Lemma lower_idem (s : string) : lower (lower s) = lower s.
Proof. induction s as [|c s IH]; simpl; [reflexivity|]. now rewrite lower_char_idem, IH. Qed.

Lemma upper_idem (s : string) : upper (upper s) = upper s.
Proof. induction s as [|c s IH]; simpl; [reflexivity|]. now rewrite upper_char_idem, IH. Qed.

Lemma lower_upper (s : string) : lower (upper s) = lower s.
Proof. induction s as [|c s IH]; simpl; [reflexivity|]. now rewrite lower_upper_char, IH. Qed.

Lemma lower_app (s t : string) : lower (s ++ t) = (lower s ++ lower t)%string.
Proof. induction s as [|c s IH]; simpl; [reflexivity|]. now rewrite IH. Qed.

Lemma upper_app (s t : string) : upper (s ++ t) = (upper s ++ upper t)%string.
Proof. induction s as [|c s IH]; simpl; [reflexivity|]. now rewrite IH. Qed.

Lemma lower_empty (s : string) : String.eqb (lower s) "" = String.eqb s "".
Proof. now destruct s. Qed.

Lemma upper_empty (s : string) : String.eqb (upper s) "" = String.eqb s "".
Proof. now destruct s. Qed.

Lemma capitalize_idem (w : string) : capitalize (capitalize w) = capitalize w.
Proof. destruct w as [|c r]; simpl; [reflexivity|]. now rewrite upper_char_idem, lower_idem. Qed.

Lemma capitalize_lower (w : string) : capitalize (lower w) = capitalize w.
Proof. destruct w as [|c r]; simpl; [reflexivity|]. now rewrite upper_lower_char, lower_idem. Qed.

Lemma capitalize_upper (w : string) : capitalize (upper w) = capitalize w.
Proof. destruct w as [|c r]; simpl; [reflexivity|]. now rewrite upper_char_idem, lower_upper. Qed.

Lemma words_from_lower (s : string) :
  forall cur, words_from (lower cur) (lower s) = map lower (words_from cur s).
Proof.
  induction s as [|c s IH]; intros cur; cbn [lower words_from].
  - rewrite lower_empty. now destruct (String.eqb cur "").
  - rewrite lower_char_space, lower_empty. destruct (is_space c).
    + destruct (String.eqb cur ""); [apply (IH "")|].
      cbn [map]. f_equal. apply (IH "").
    + rewrite <- IH, lower_app. reflexivity.
Qed.

Lemma words_from_upper (s : string) :
  forall cur, words_from (upper cur) (upper s) = map upper (words_from cur s).
Proof.
  induction s as [|c s IH]; intros cur; cbn [upper words_from].
  - rewrite upper_empty. now destruct (String.eqb cur "").
  - rewrite upper_char_space, upper_empty. destruct (is_space c).
    + destruct (String.eqb cur ""); [apply (IH "")|].
      cbn [map]. f_equal. apply (IH "").
    + rewrite <- IH, upper_app. reflexivity.
Qed.

Lemma words_lstrip (s : string) : words (lstrip s) = words s.
Proof.
  unfold words. induction s as [|c s IH]; [reflexivity|].
  cbn [lstrip]. destruct (is_space c) eqn:E; [|reflexivity].
  rewrite IH. cbn [words_from]. now rewrite E.
Qed.

Lemma words_from_rstrip (s : string) :
  forall cur, words_from cur (rstrip_with is_space s) = words_from cur s.
Proof.
  induction s as [|c s IH]; intros cur; [reflexivity|].
  cbn [rstrip_with].
  destruct (rstrip_with is_space s) as [|c' r'] eqn:E.
  - destruct (is_space c) eqn:Ec; cbn [words_from]; rewrite Ec.
    + rewrite <- (IH ""). cbn [words_from]. now destruct (String.eqb cur "").
    + now rewrite <- IH.
  - change (words_from cur (String c (String c' r')))
      with (if is_space c
            then if String.eqb cur "" then words_from "" (String c' r')
                 else cur :: words_from "" (String c' r')
            else words_from (cur ++ String c "") (String c' r')).
    rewrite !IH. reflexivity.
Qed.

Lemma words_strip (s : string) : words (strip s) = words s.
Proof.
  unfold strip, rstrip. unfold words at 1. rewrite words_from_rstrip.
  apply words_lstrip.
Qed.

Lemma title_case_eq (s : string) :
  convert_to_title_case s = join " " (map capitalize (words s)).
Proof.
  unfold convert_to_title_case. destruct (String.eqb_spec s "") as [->|_];
    [reflexivity|]. now rewrite words_strip.
Qed.

Lemma is_word_app_char (cur : string) (c : ascii) :
  (cur = "" \/ is_word cur) -> is_space c = false ->
  is_word (cur ++ String c "").
Proof.
  intros H Hc. split; [now destruct cur|].
  destruct H as [->|[_ H]]; [simpl; now rewrite Hc|].
  induction cur as [|x cur IH]; simpl in *; [now rewrite Hc|].
  apply andb_true_iff in H. destruct H as [Hx H]. rewrite Hx. now apply IH.
Qed.

Lemma words_from_are_words (s : string) :
  forall cur, (cur = "" \/ is_word cur) -> Forall is_word (words_from cur s).
Proof.
  induction s as [|c s IH]; intros cur H; cbn [words_from].
  - destruct (String.eqb_spec cur "") as [->|Hne]; [constructor|].
    destruct H as [->|H]; [contradiction|]. constructor; [exact H|constructor].
  - destruct (is_space c) eqn:Ec.
    + destruct (String.eqb_spec cur "") as [->|Hne]; [apply IH; now left|].
      destruct H as [->|H]; [contradiction|].
      constructor; [exact H|apply IH; now left].
    + apply IH. right. now apply is_word_app_char.
Qed.

Lemma capitalize_word (w : string) : is_word w -> is_word (capitalize w).
Proof.
  intros [Hne H]. destruct w as [|c r]; [contradiction|].
  split; [discriminate|]. simpl in *. apply andb_true_iff in H. destruct H as [Hc Hr].
  rewrite upper_char_space, Hc. cbn [andb].
  clear -Hr. induction r as [|x r IH]; simpl in *; [reflexivity|].
  apply andb_true_iff in Hr. destruct Hr as [Hx Hr].
  now rewrite lower_char_space, Hx, IH.
Qed.

Lemma words_from_word (w : string) :
  Py.all_chars (fun c => negb (is_space c)) w = true ->
  forall cur rest, words_from cur (w ++ rest) = words_from (cur ++ w) rest.
Proof.
  induction w as [|c w IH]; intros H cur rest.
  - cbn [append]. now rewrite string_app_nil_r.
  - simpl in H. apply andb_true_iff in H. destruct H as [Hc Hw].
    apply negb_true_iff in Hc. cbn [append words_from]. rewrite Hc.
    rewrite (IH Hw). now rewrite string_app_assoc.
Qed.

Lemma words_join (ws : list string) :
  Forall is_word ws -> words (join " " ws) = ws.
Proof.
  unfold words. induction 1 as [|w ws [Hne Hw] Hws IH]; [reflexivity|].
  destruct ws as [|w' ws'].
  - cbn [join]. rewrite <- (string_app_nil_r w) at 1.
    rewrite (words_from_word w Hw "" ""). cbn [append words_from].
    destruct (String.eqb_spec w ""); [contradiction|reflexivity].
  - change (join " " (w :: w' :: ws'))
      with (w ++ String " " (join " " (w' :: ws')))%string.
    rewrite (words_from_word w Hw ""). cbn [append words_from].
    change (is_space " ") with true. cbv iota.
    destruct (String.eqb_spec w ""); [contradiction|]. now rewrite IH.
Qed.

Lemma words_of_blank (s : string) :
  forall cur, words_from cur s = [] -> cur = "" /\ lstrip s = "".
Proof.
  induction s as [|c s IH]; intros cur; cbn [words_from lstrip].
  - destruct (String.eqb_spec cur ""); [auto|discriminate].
  - destruct (is_space c).
    + destruct (String.eqb_spec cur "") as [->|_]; [|discriminate].
      intros H. split; [reflexivity|]. now apply (IH "").
    + intros H. destruct (IH _ H) as [E _]. now destruct cur.
Qed.

Lemma join_not_empty (w : string) (ws : list string) :
  w <> "" -> join " " (w :: ws) <> "".
Proof. destruct w; [contradiction|]. now destruct ws. Qed.

Lemma title_case_idem (s : string) :
  convert_to_title_case (convert_to_title_case s) = convert_to_title_case s.
Proof.
  rewrite (title_case_eq (convert_to_title_case s)), (title_case_eq s).
  assert (Hw : Forall is_word (map capitalize (words s))).
  { apply Forall_forall. intros w Hw. apply in_map_iff in Hw.
    destruct Hw as (x & <- & Hx). apply capitalize_word.
    exact (proj1 (Forall_forall _ _) (words_from_are_words s "" (or_introl eq_refl)) x Hx). }
  rewrite (words_join _ Hw), map_map. f_equal.
  apply map_ext. intros w. apply capitalize_idem.
Qed.

Lemma title_case_not_empty (s : string) :
  strip s <> "" -> convert_to_title_case s <> "".
Proof.
  intros H. rewrite title_case_eq.
  destruct (words s) as [|w ws] eqn:E.
  - exfalso. apply H. unfold words in E. destruct (words_of_blank s "" E) as [_ El].
    unfold strip. now rewrite El.
  - cbn [map]. apply join_not_empty.
    pose proof (words_from_are_words s "" (or_introl eq_refl)) as Hw.
    fold (words s) in Hw. rewrite E in Hw. inversion Hw as [|? ? [Hne _] _]; subst.
    now destruct w.
Qed.

End TitleCase.

Section AsciiText.
Import Py input_handler.

Lemma is_ascii_app (s1 s2 : string) :
  is_ascii (s1 ++ s2) = is_ascii s1 && is_ascii s2.
Proof.
  unfold is_ascii. induction s1 as [|c s1 IH]; [reflexivity|].
  cbn [append all_chars]. now rewrite IH, andb_assoc.
Qed.

Lemma is_ascii_cons (c : ascii) (s : string) :
  is_ascii (String c s) = true <->
  (nat_of_ascii c <? 128)%nat = true /\ is_ascii s = true.
Proof. unfold is_ascii. cbn [all_chars]. apply andb_true_iff. Qed.

Lemma upper_char_ascii (c : ascii) :
  (nat_of_ascii c <? 128)%nat = true ->
  (nat_of_ascii (upper_char c) <? 128)%nat = true.
Proof. destruct c as [[] [] [] [] [] [] [] []]; vm_compute; auto. Qed.

Lemma lower_char_ascii (c : ascii) :
  (nat_of_ascii c <? 128)%nat = true ->
  (nat_of_ascii (lower_char c) <? 128)%nat = true.
Proof. destruct c as [[] [] [] [] [] [] [] []]; vm_compute; auto. Qed.

Lemma upper_ascii (s : string) : is_ascii s = true -> is_ascii (upper s) = true.
Proof.
  induction s as [|c s IH]; [reflexivity|]. cbn [upper].
  rewrite !is_ascii_cons. intros [Hc Hs]. split; [now apply upper_char_ascii|auto].
Qed.

Lemma lower_ascii (s : string) : is_ascii s = true -> is_ascii (lower s) = true.
Proof.
  induction s as [|c s IH]; [reflexivity|]. cbn [lower].
  rewrite !is_ascii_cons. intros [Hc Hs]. split; [now apply lower_char_ascii|auto].
Qed.

Lemma capitalize_ascii (word : string) :
  is_ascii word = true -> is_ascii (capitalize word) = true.
Proof.
  destruct word as [|c r]; [reflexivity|]. cbn [capitalize].
  rewrite !is_ascii_cons. intros [Hc Hs].
  split; [now apply upper_char_ascii|now apply lower_ascii].
Qed.

Lemma lstrip_ascii (s : string) : is_ascii s = true -> is_ascii (lstrip s) = true.
Proof.
  induction s as [|c s IH]; [reflexivity|]. cbn [lstrip]. intros H.
  destruct (is_space c); [|exact H]. apply IH. now apply is_ascii_cons in H.
Qed.

Lemma rstrip_with_ascii (p : ascii -> bool) (s : string) :
  is_ascii s = true -> is_ascii (rstrip_with p s) = true.
Proof.
  induction s as [|c s IH]; [reflexivity|]. cbn [rstrip_with]. intros H.
  apply is_ascii_cons in H. destruct H as [Hc Hs]. specialize (IH Hs).
  destruct (rstrip_with p s) as [|c' r'].
  - destruct (p c); [reflexivity|]. now apply is_ascii_cons.
  - now apply is_ascii_cons.
Qed.

Lemma strip_ascii (s : string) : is_ascii s = true -> is_ascii (strip s) = true.
Proof. intros H. unfold strip, rstrip. now apply rstrip_with_ascii, lstrip_ascii. Qed.

Lemma words_from_ascii (s : string) :
  forall cur,
    is_ascii cur = true -> is_ascii s = true ->
    Forall (fun w => is_ascii w = true) (words_from cur s).
Proof.
  induction s as [|c s IH]; intros cur Hcur Hs; cbn [words_from].
  - destruct (String.eqb cur ""); constructor; [exact Hcur|constructor].
  - apply is_ascii_cons in Hs. destruct Hs as [Hc Hs].
    destruct (is_space c).
    + destruct (String.eqb cur ""); [now apply IH|].
      constructor; [exact Hcur|now apply IH].
    + apply IH; [|exact Hs]. rewrite is_ascii_app, Hcur.
      now apply is_ascii_cons.
Qed.

Lemma join_ascii (l : list string) :
  Forall (fun w => is_ascii w = true) l -> is_ascii (join " " l) = true.
Proof.
  induction 1 as [|x l Hx Hl IH]; [reflexivity|].
  destruct l as [|y l]; [exact Hx|].
  change (join " " (x :: y :: l)) with (x ++ " " ++ join " " (y :: l))%string.
  now rewrite !is_ascii_app, Hx, IH.
Qed.

Lemma title_case_ascii (city_name : string) :
  is_ascii city_name = true -> is_ascii (convert_to_title_case city_name) = true.
Proof.
  intros H. unfold convert_to_title_case.
  destruct (String.eqb city_name ""); [exact H|].
  apply join_ascii, Forall_forall. intros w Hw. apply in_map_iff in Hw.
  destruct Hw as (x & <- & Hx). apply capitalize_ascii.
  exact (proj1 (Forall_forall _ _)
           (words_from_ascii (strip city_name) "" eq_refl (strip_ascii _ H)) x Hx).
Qed.

End AsciiText.

(** X25: the title case of a city name of ASCII characters is a normal
    form: the result is ASCII text again, converting twice gives the same
    as converting once, the case of the typed letters and the blanks around
    and between the words do not matter, and the result consists of the
    capitalized words of the name with single blanks between them. (Of a
    name with other characters nothing is stated: there the case
    conversions of Python are not those of [input_handler].) *)
Theorem title_case_is_a_normal_form (city_name : string) :
  is_ascii city_name = true ->
  is_ascii (input_handler.convert_to_title_case city_name) = true
  /\ input_handler.convert_to_title_case
       (input_handler.convert_to_title_case city_name)
     = input_handler.convert_to_title_case city_name
  /\ input_handler.convert_to_title_case (Py.lower city_name)
     = input_handler.convert_to_title_case city_name
  /\ input_handler.convert_to_title_case (input_handler.upper city_name)
     = input_handler.convert_to_title_case city_name
  /\ input_handler.convert_to_title_case (Py.strip city_name)
     = input_handler.convert_to_title_case city_name
  /\ input_handler.words (input_handler.convert_to_title_case city_name)
     = map input_handler.capitalize (input_handler.words city_name)
  /\ input_handler.convert_to_title_case city_name
     = input_handler.join " "
         (map input_handler.capitalize (input_handler.words city_name)).
Proof.
  intros Hascii.
  split; [now apply title_case_ascii|].
  split; [apply title_case_idem|].
  split; [|split; [|split; [|split]]].
  - rewrite !title_case_eq. unfold input_handler.words.
    change (input_handler.words_from "" (Py.lower city_name))
      with (input_handler.words_from (Py.lower "") (Py.lower city_name)).
    rewrite (words_from_lower city_name ""), map_map. f_equal.
    apply map_ext. intros w. apply capitalize_lower.
  - rewrite !title_case_eq. unfold input_handler.words.
    change (input_handler.words_from "" (input_handler.upper city_name))
      with (input_handler.words_from (input_handler.upper "")
              (input_handler.upper city_name)).
    rewrite (words_from_upper city_name ""), map_map. f_equal.
    apply map_ext. intros w. apply capitalize_upper.
  - rewrite !title_case_eq. now rewrite words_strip.
  - rewrite title_case_eq. apply words_join.
    apply Forall_forall. intros w Hw. apply in_map_iff in Hw.
    destruct Hw as (x & <- & Hx). apply capitalize_word.
    exact (proj1 (Forall_forall _ _)
             (words_from_are_words city_name "" (or_introl eq_refl)) x Hx).
  - apply title_case_eq.
Qed.

(** The theorem at work on a name typed with blanks and in mixed case. *)
Lemma title_case_is_a_normal_form_witness :
  input_handler.convert_to_title_case "  sT.   aUGUSTINE " = "St. Augustine"
  /\ input_handler.convert_to_title_case "St. Augustine" = "St. Augustine".
Proof.
  destruct (title_case_is_a_normal_form "  sT.   aUGUSTINE " eq_refl)
    as (_ & Hidem & _).
  split; [reflexivity|exact Hidem].
Defined.

Section UserInput.
Import Py input_handler.

Lemma read_cities_normalized (n : nat) :
  forall lines cities cities' rest,
    (List.length lines <= n)%nat ->
    Forall normalized_city cities ->
    read_cities lines cities = Return (cities', rest) ->
    cities' <> [] /\ Forall normalized_city cities'.
Proof.
  induction n as [|n IH]; intros lines cities cities' rest Hl Hn H;
    (destruct lines as [|line lines']; [discriminate|]);
    cbn [List.length] in Hl; [lia|].
  cbn [read_cities] in H.
  destruct (String.eqb (lower (strip line)) "done").
  - destruct (Nat.eqb_spec (List.length cities) 0) as [E|E].
    + apply (IH lines' cities cities' rest); [lia|exact Hn|exact H].
    + inversion H; subst. split; [|exact Hn]. now destruct cities'.
  - destruct (String.eqb_spec (strip line) "") as [E|E]; cbn [negb] in H.
    + apply (IH lines' cities cities' rest); [lia|exact Hn|exact H].
    + destruct lines' as [|line' rest']; [discriminate|].
      refine (IH rest' _ cities' rest _ _ H); [cbn [List.length] in Hl; lia|].
      apply Forall_app. split; [exact Hn|]. constructor; [|constructor].
      unfold normalized_city. cbn [fst snd]. split; [|split].
      * rewrite !title_case_eq, words_strip, <- title_case_eq.
        now apply title_case_not_empty.
      * apply title_case_idem.
      * apply upper_idem.
Qed.

Lemma read_year_bounds (lo hi : Z) (lines : list string) :
  forall year rest,
    read_year lo hi lines = Return (year, rest) -> (lo <= year <= hi)%Z.
Proof.
  induction lines as [|line lines IH]; intros year rest H; [discriminate|].
  cbn [read_year] in H.
  destruct (negb (isdigit (strip line)) || negb (String.length (strip line) =? 4)%nat);
    [now apply (IH year rest)|].
  destruct (int_of_str (strip line)) as [y|]; [|discriminate].
  destruct (Z.ltb_spec y lo); cbn [orb] in H; [now apply (IH year rest)|].
  destruct (Z.ltb_spec hi y); [now apply (IH year rest)|].
  inversion H; subst. lia.
Qed.

Lemma input_rows_fields (today : string) (start_year end_year : Z)
  (cities : list (string * string)) :
  forall i,
    map (fun r => (City r, State r)) (input_rows today start_year end_year i cities)
    = cities
    /\ Forall (fun r => Start_Year r = start_year /\ End_Year r = end_year
                        /\ Analysis_Date r = today)
              (input_rows today start_year end_year i cities)
    /\ map ID (input_rows today start_year end_year i cities)
       = map (fun k => (i + Z.of_nat k + 1)%Z) (seq 0 (List.length cities)).
Proof.
  induction cities as [|[c s] cities IH]; intros i; cbn [input_rows map List.length seq].
  - repeat split. constructor.
  - destruct (IH (i + 1)%Z) as (H1 & H2 & H3). split; [|split].
    + cbn [City State]. now rewrite H1.
    + constructor; [repeat split|exact H2].
    + cbn [ID]. f_equal; [lia|]. rewrite H3, <- seq_shift, map_map.
      apply map_ext. intros k. lia.
Qed.

(** What [get_user_input] returns: the rows of the typed cities with the
    two years. *)
Lemma get_user_input_returns (current_year : Z) (today : string)
  (lines : list string) (rows : list input_row) :
  get_user_input current_year today lines = Return rows ->
  exists cities start_year end_year,
    rows = input_rows today start_year end_year 0 cities
    /\ cities <> [] /\ Forall normalized_city cities
    /\ (2009 <= start_year <= end_year)%Z /\ (end_year <= current_year - 2)%Z.
Proof.
  unfold get_user_input. intros H.
  destruct (read_cities lines []) as [[cities l1]|] eqn:Ec; [|discriminate].
  cbn [bind] in H.
  destruct (read_year 2009 (current_year - 2) l1) as [[start_year l2]|] eqn:Es;
    [|discriminate].
  cbn [bind] in H.
  destruct (read_year start_year (current_year - 2) l2) as [[end_year l3]|] eqn:Ee;
    [|discriminate].
  cbn [bind] in H. inversion H; subst rows.
  destruct (read_cities_normalized _ lines [] cities l1 (Nat.le_refl _)
              (Forall_nil _) Ec) as [Hne Hn].
  pose proof (read_year_bounds _ _ _ _ _ Es).
  pose proof (read_year_bounds _ _ _ _ _ Ee).
  exists cities, start_year, end_year. repeat split; try assumption; lia.
Qed.

Lemma read_cities_ascii (n : nat) :
  forall lines cities cities' rest,
    (List.length lines <= n)%nat ->
    Forall (fun line => is_ascii line = true) lines ->
    Forall (fun city => is_ascii (fst city) = true /\ is_ascii (snd city) = true)
           cities ->
    read_cities lines cities = Return (cities', rest) ->
    Forall (fun city => is_ascii (fst city) = true /\ is_ascii (snd city) = true)
           cities'.
Proof.
  induction n as [|n IH]; intros lines cities cities' rest Hl Hlines Hn H;
    (destruct lines as [|line lines']; [discriminate|]);
    cbn [List.length] in Hl; [lia|].
  inversion Hlines as [|? ? Hline Hlines']; subst.
  cbn [read_cities] in H.
  destruct (String.eqb (lower (strip line)) "done").
  - destruct (Nat.eqb_spec (List.length cities) 0) as [E|E].
    + apply (IH lines' cities cities' rest); [lia|exact Hlines'|exact Hn|exact H].
    + inversion H; subst. exact Hn.
  - destruct (String.eqb_spec (strip line) "") as [E|E]; cbn [negb] in H.
    + apply (IH lines' cities cities' rest); [lia|exact Hlines'|exact Hn|exact H].
    + destruct lines' as [|line' rest']; [discriminate|].
      inversion Hlines' as [|? ? Hline' Hrest']; subst.
      refine (IH rest' _ cities' rest _ Hrest' _ H); [cbn [List.length] in Hl; lia|].
      apply Forall_app. split; [exact Hn|]. constructor; [|constructor].
      cbn [fst snd]. split.
      * now apply title_case_ascii, strip_ascii.
      * now apply upper_ascii, strip_ascii.
Qed.

End UserInput.

(** X26: when get_user_input returns on typed lines of ASCII characters,
    the frame has at least one row; all rows carry the same start and end
    year with 2009 <= start <= end <= current year - 2; every city is not
    empty and in title case, every state is in upper case, cities and
    states are ASCII text, and the rows are numbered from 1 on. (Of lines
    with other characters nothing is stated: there the case conversions of
    Python are not those of [input_handler].) *)
Theorem user_input_is_validated (current_year : Z) (today : string)
  (lines : list string) (rows : list input_handler.input_row) :
  Forall (fun line => is_ascii line = true) lines ->
  input_handler.get_user_input current_year today lines = Py.Return rows ->
  rows <> []
  /\ (exists start_year end_year,
        (2009 <= start_year <= end_year)%Z /\ (end_year <= current_year - 2)%Z
        /\ Forall (fun r => input_handler.Start_Year r = start_year
                            /\ input_handler.End_Year r = end_year) rows)
  /\ Forall (fun r => normalized_city (input_handler.City r, input_handler.State r))
            rows
  /\ Forall (fun r => is_ascii (input_handler.City r) = true
                      /\ is_ascii (input_handler.State r) = true) rows
  /\ map input_handler.ID rows
     = map (fun k => (Z.of_nat k + 1)%Z) (seq 0 (List.length rows)).
Proof.
  intros Hascii H.
  destruct (get_user_input_returns _ _ _ _ H)
    as (cities & s & e & Hrows & Hne & Hn & Hy & Hm).
  assert (Ha : Forall (fun city => is_ascii (fst city) = true
                                   /\ is_ascii (snd city) = true) cities).
  { unfold input_handler.get_user_input in H.
    destruct (input_handler.read_cities lines []) as [[cities0 l1]|] eqn:Ec;
      [|discriminate].
    pose proof (read_cities_ascii _ lines [] cities0 l1 (Nat.le_refl _) Hascii
                  (Forall_nil _) Ec) as Ha0.
    cbn [Py.bind] in H.
    destruct (input_handler.read_year 2009 (current_year - 2) l1)
      as [[s0 l2]|]; [|discriminate].
    cbn [Py.bind] in H.
    destruct (input_handler.read_year s0 (current_year - 2) l2)
      as [[e0 l3]|]; [|discriminate].
    cbn [Py.bind] in H. inversion H as [Hr]. rewrite Hrows in Hr.
    assert (E : cities0 = cities).
    { rewrite <- (proj1 (input_rows_fields today s0 e0 cities0 0)),
        <- (proj1 (input_rows_fields today s e cities 0)). now rewrite Hr. }
    now rewrite <- E. }
  subst rows.
  destruct (input_rows_fields today s e cities 0) as (H1 & H2 & H3).
  assert (Hlen : List.length (input_handler.input_rows today s e 0 cities)
                 = List.length cities)
    by (rewrite <- H1 at 2; now rewrite length_map).
  split; [|split; [|split; [|split]]].
  - intros E. rewrite E in H1. cbn in H1. now subst cities.
  - exists s, e. split; [exact Hy|]. split; [exact Hm|].
    apply Forall_forall. intros r Hr.
    destruct (proj1 (Forall_forall _ _) H2 r Hr) as (A & B & _). now split.
  - apply Forall_forall. intros r Hr.
    apply (proj1 (Forall_forall _ _) Hn).
    rewrite <- H1. now apply (in_map (fun r => (input_handler.City r,
                                                 input_handler.State r))).
  - apply Forall_forall. intros r Hr.
    apply (proj1 (Forall_forall _ _) Ha (input_handler.City r, input_handler.State r)).
    rewrite <- H1. now apply (in_map (fun r => (input_handler.City r,
                                                 input_handler.State r))).
  - rewrite H3, Hlen. apply map_ext. intros k. lia.
Qed.

(** The theorem at work on the lines typed for St. Augustine. *)
Lemma user_input_is_validated_witness :
  Forall (fun line => is_ascii line = true) typed_lines
  /\ input_handler.get_user_input 2026 "2026-11-03" typed_lines
     = Py.Return [ input_handler.mk_input 1 "St. Augustine" "FL" "2026-11-03"
                     2015 2020 ]
  /\ Forall (fun r => is_ascii (input_handler.City r) = true
                      /\ is_ascii (input_handler.State r) = true)
            [ input_handler.mk_input 1 "St. Augustine" "FL" "2026-11-03" 2015 2020 ].
Proof.
  assert (Hlines : Forall (fun line => is_ascii line = true) typed_lines)
    by (repeat constructor).
  split; [exact Hlines|]. split; [reflexivity|].
  exact (proj1 (proj2 (proj2 (proj2
           (user_input_is_validated 2026 "2026-11-03" typed_lines
              [ input_handler.mk_input 1 "St. Augustine" "FL" "2026-11-03"
                  2015 2020 ]
              Hlines eq_refl))))).
Defined.

(** X27: the years that get_user_input returns are all fetched by the
    census fetcher: none is skipped for being before 2009, so that the
    number of collected population rows is the number of requested years
    times the number of areas with a resolved county code. *)
Theorem years_of_user_input_are_all_fetched (current_year : Z) (today : string)
  (lines : list string) (first : input_handler.input_row)
  (others : list input_handler.input_row)
  (w : Net.web) (key : string) (target_areas : Py.dict area_converter.area_info) :
  input_handler.get_user_input current_year today lines
  = Py.Return (first :: others) ->
  let start_year := input_handler.Start_Year first in
  let end_year := input_handler.End_Year first in
  (2009 <= start_year <= end_year)%Z
  /\ List.length (fst (census_data.collect w key start_year end_year target_areas))
     = (Z.to_nat (end_year - start_year + 1)
        * List.length (valid_areas target_areas))%nat.
Proof.
  intros H. cbv zeta.
  destruct (get_user_input_returns _ _ _ _ H)
    as (cities & s & e & Er & Hne & Hn & Hy & Hm).
  destruct cities as [|[c st] cities]; [contradiction|].
  cbn [input_handler.input_rows] in Er. inversion Er; subst first others.
  cbn [input_handler.Start_Year input_handler.End_Year].
  split; [exact Hy|].
  rewrite collect_eq. cbn [fst].
  rewrite (years_length (year_population w key target_areas)
             (List.length (valid_areas target_areas)) (e + 1)
             ltac:(intros y; unfold year_population; destruct (y <? 2009)%Z;
                   [reflexivity|now rewrite length_map])
             (Z.to_nat (e + 1 - s)) s eq_refl).
  f_equal. lia.
Qed.

Lemma years_of_user_input_are_all_fetched_witness :
  (2009 <= 2015 <= 2020)%Z
  /\ List.length (fst (census_data.collect acs_web "k" 2015 2020 [("tampa_fl", tampa)]))
     = (Z.to_nat (2020 - 2015 + 1) * List.length (valid_areas [("tampa_fl", tampa)]))%nat.
Proof.
  exact (years_of_user_input_are_all_fetched 2026 "2026-11-03" typed_lines
           (input_handler.mk_input 1 "St. Augustine" "FL" "2026-11-03" 2015 2020) []
           acs_web "k" [("tampa_fl", tampa)] eq_refl).
Defined.

(* ------------------------------------------------------------------ *)
(** ** Crime table: the stored cell values *)

Section CellValues.
Import Py crime_data.

Lemma uint_digits (d : Decimal.uint) :
  all_chars is_digit (NilEmpty.string_of_uint d) = true.
Proof. induction d; simpl; auto. Qed.

Lemma uint_value_acc (d : Decimal.uint) :
  forall acc : positive,
    digits_value (Z.pos acc) (NilEmpty.string_of_uint d)
    = Z.pos (Pos.of_uint_acc d acc).
Proof.
  induction d; intros acc; cbn [NilEmpty.string_of_uint digits_value Pos.of_uint_acc];
    [reflexivity| | | | | | | | | |];
    rewrite <- IHd; f_equal;
    match goal with
    | |- context [digit_value ?c] =>
        let v := eval vm_compute in (digit_value c) in
        change (digit_value c) with v
    end; lia.
Qed.

Lemma uint_value (d : Decimal.uint) :
  digits_value 0 (NilEmpty.string_of_uint d) = Z.of_N (Pos.of_uint d).
Proof.
  induction d; cbn [NilEmpty.string_of_uint digits_value Pos.of_uint];
    [reflexivity|exact IHd| | | | | | | | |];
    apply (uint_value_acc d).
Qed.

Lemma str_of_int_digits (n : Z) :
  (0 <= n)%Z ->
  str_of_int n <> "" /\ all_chars is_digit (str_of_int n) = true
  /\ digits_value 0 (str_of_int n) = n.
Proof.
  intros Hn. unfold str_of_int. destruct n as [|p|p]; [repeat split; discriminate| |lia].
  cbn [Z.to_int NilZero.string_of_int]. unfold NilZero.string_of_uint.
  pose proof (DecimalPos.Unsigned.of_to p) as Hp.
  pose proof (uint_value (Pos.to_uint p)) as Hv.
  pose proof (uint_digits (Pos.to_uint p)) as Hd.
  rewrite Hp in Hv. cbn [Z.of_N] in Hv.
  destruct (Pos.to_uint p); [discriminate Hp|..];
    (split; [discriminate|split; [exact Hd|exact Hv]]).
Qed.

Lemma digits_no_space (s : string) :
  all_chars is_digit s = true -> strip s = s.
Proof.
  intros H. unfold strip, rstrip.
  assert (Hl : lstrip s = s).
  { destruct s as [|c s]; [reflexivity|]. simpl in H. apply andb_true_iff in H.
    destruct H as [Hc _]. cbn [lstrip].
    destruct c as [[] [] [] [] [] [] [] []]; try discriminate Hc; reflexivity. }
  rewrite Hl. induction s as [|c s IH]; [reflexivity|].
  simpl in H. apply andb_true_iff in H. destruct H as [Hc Hs].
  cbn [rstrip_with]. rewrite IH; [|exact Hs|].
  - destruct s; [|reflexivity].
    destruct c as [[] [] [] [] [] [] [] []]; try discriminate Hc; reflexivity.
  - destruct s as [|c' s']; [reflexivity|]. simpl in Hs. apply andb_true_iff in Hs.
    destruct Hs as [Hc' _]. cbn [lstrip].
    destruct c' as [[] [] [] [] [] [] [] []]; try discriminate Hc'; reflexivity.
Qed.

Lemma int_of_digits (s : string) :
  s <> "" -> all_chars is_digit s = true -> int_of_str s = Some (digits_value 0 s).
Proof.
  intros Hne H. unfold int_of_str. rewrite (digits_no_space s H).
  assert (Hs : split_sign s = (false, s)).
  { destruct s as [|c s]; [contradiction|]. simpl in H. apply andb_true_iff in H.
    destruct H as [Hc _].
    destruct c as [[] [] [] [] [] [] [] []]; try discriminate Hc; reflexivity. }
  rewrite Hs. unfold isdigit. destruct s; [contradiction|]. now rewrite H.
Qed.

Lemma digits_value_nonneg (s : string) :
  forall acc, (0 <= acc)%Z -> (0 <= digits_value acc s)%Z.
Proof.
  induction s as [|c s IH]; intros acc H; cbn [digits_value]; [exact H|].
  apply IH. unfold digit_value. lia.
Qed.

Lemma int_of_str_digits_nonneg (s : string) (n : Z) :
  all_chars is_digit s = true -> int_of_str s = Some n -> (0 <= n)%Z.
Proof.
  intros H. destruct s as [|c r]; [discriminate|].
  rewrite int_of_digits by (discriminate || exact H).
  intros E. inversion E. apply digits_value_nonneg. unfold digit_value. lia.
Qed.

Lemma remove_commas_step (c : ascii) (r : string) :
  replace "," "" (String c r)
  = if Ascii.eqb c "," then replace "," "" r else String c (replace "," "" r).
Proof.
  unfold replace. cbn [replace_from startswith String.length Nat.sub append].
  rewrite (Ascii.eqb_sym "," c). destruct (Ascii.eqb c ","); reflexivity.
Qed.

Lemma remove_commas_digits (s : string) :
  all_chars is_count_char s = true ->
  all_chars is_digit (replace "," "" s) = true.
Proof.
  induction s as [|c s IH]; intros H; [reflexivity|].
  simpl in H. apply andb_true_iff in H. destruct H as [Hc Hs].
  rewrite remove_commas_step. destruct (Ascii.eqb c ",") eqn:E; [now apply IH|].
  unfold is_count_char in Hc. rewrite E, orb_false_r in Hc.
  cbn [all_chars]. now rewrite Hc, IH.
Qed.

Lemma remove_commas_none (s : string) :
  all_chars is_digit s = true -> replace "," "" s = s.
Proof.
  induction s as [|c s IH]; intros H; [reflexivity|].
  simpl in H. apply andb_true_iff in H. destruct H as [Hc Hs].
  rewrite remove_commas_step, (IH Hs).
  destruct (Ascii.eqb_spec c ",") as [->|_]; [discriminate Hc|reflexivity].
Qed.

Lemma group_thousands_chars (s : string) :
  all_chars is_digit s = true ->
  all_chars is_count_char (group_thousands s) = true
  /\ replace "," "" (group_thousands s) = s.
Proof.
  induction s as [|c s IH]; intros H; [split; reflexivity|].
  simpl in H. apply andb_true_iff in H. destruct H as [Hc Hs].
  destruct (IH Hs) as [H1 H2]. cbn [group_thousands].
  assert (Hcc : is_count_char c = true) by (unfold is_count_char; now rewrite Hc).
  assert (Hnc : Ascii.eqb c "," = false)
    by (destruct (Ascii.eqb_spec c ",") as [->|_]; [discriminate Hc|reflexivity]).
  destruct ((String.length s mod 3 =? 0)%nat && (0 <? String.length s)%nat).
  - split.
    + cbn [all_chars append]. now rewrite Hcc, H1.
    + rewrite remove_commas_step, Hnc. cbn [append].
      rewrite remove_commas_step. cbn [Ascii.eqb Bool.eqb]. now rewrite H2.
  - split.
    + cbn [all_chars]. now rewrite Hcc, H1.
    + now rewrite remove_commas_step, Hnc, H2.
Qed.

Lemma group_thousands_not_empty (s : string) : s <> "" -> group_thousands s <> "".
Proof.
  destruct s as [|c s]; [contradiction|]. intros _. cbn [group_thousands].
  now destruct (_ && _).
Qed.

Lemma count_prefix_chars (s : string) :
  all_chars is_count_char (count_prefix s) = true.
Proof.
  induction s as [|c s IH]; [reflexivity|]. cbn [count_prefix].
  fold (is_count_char c). destruct (is_count_char c) eqn:E; [|reflexivity].
  cbn [all_chars]. now rewrite E, IH.
Qed.

Lemma count_prefix_app (a rest : string) :
  all_chars is_count_char a = true ->
  count_prefix (a ++ rest) = (a ++ count_prefix rest)%string.
Proof.
  induction a as [|c a IH]; intros H; [reflexivity|].
  simpl in H. apply andb_true_iff in H. destruct H as [Hc Ha].
  cbn [append count_prefix]. fold (is_count_char c). now rewrite Hc, (IH Ha).
Qed.

Lemma count_chars_no_paren (a : string) :
  all_chars is_count_char a = true -> free_of "(" a = true.
Proof.
  unfold free_of. induction a as [|c a IH]; intros H; [reflexivity|].
  simpl in H. apply andb_true_iff in H. destruct H as [Hc Ha].
  cbn [all_chars]. rewrite (IH Ha), andb_true_r.
  destruct (Ascii.eqb_spec c "(") as [->|_]; [discriminate Hc|reflexivity].
Qed.

Lemma rate_search_skip (a rest : string) :
  free_of "(" a = true -> rate_search (a ++ rest) = rate_search rest.
Proof.
  unfold free_of. induction a as [|c a IH]; intros H; [reflexivity|].
  simpl in H. apply andb_true_iff in H. destruct H as [Hc Ha].
  apply negb_true_iff in Hc. cbn [append rate_search]. rewrite Hc. now apply IH.
Qed.

Lemma take_until_paren_closed (r rest : string) :
  free_of ")" r = true ->
  take_until_paren (r ++ String ")" rest) = (r, true).
Proof.
  unfold free_of. induction r as [|c r IH]; intros H; [reflexivity|].
  simpl in H. apply andb_true_iff in H. destruct H as [Hc Hr].
  apply negb_true_iff in Hc. cbn [append take_until_paren]. now rewrite Hc, (IH Hr).
Qed.

Lemma take_until_paren_free (s : string) :
  free_of ")" (fst (take_until_paren s)) = true.
Proof.
  unfold free_of. induction s as [|c s IH]; [reflexivity|].
  cbn [take_until_paren]. destruct (Ascii.eqb c ")") eqn:E; [reflexivity|].
  destruct (take_until_paren s) as [inner closed]. cbn [fst all_chars] in *.
  now rewrite E, IH.
Qed.

Lemma rate_search_some (s r : string) :
  rate_search s = Some r -> r <> "" /\ free_of ")" r = true.
Proof.
  induction s as [|c s IH]; [discriminate|]. cbn [rate_search].
  destruct (Ascii.eqb c "("); [|exact IH].
  pose proof (take_until_paren_free s) as Hf.
  destruct (take_until_paren s) as [[|a inner] [|]]; try exact IH.
  intros H. inversion H; subst. split; [discriminate|exact Hf].
Qed.

(** The value stored for a cell: a count with its thousands grouped,
    alone or followed by a rate in parentheses. *)
Lemma format_cell_form (cell_text : string) :
  exists raw_count,
    (0 <= raw_count)%Z
    /\ format_cell cell_text
       = match rate_search cell_text with
         | Some rate_per_100k =>
             (format_count raw_count ++ " (" ++ rate_per_100k ++ ")")%string
         | None => format_count raw_count
         end.
Proof.
  unfold format_cell.
  set (count_str := match count_prefix cell_text with
                    | EmptyString => "0"
                    | m => replace "," "" m
                    end).
  assert (Hd : all_chars is_digit count_str = true).
  { unfold count_str. pose proof (count_prefix_chars cell_text) as Hc.
    destruct (count_prefix cell_text); [reflexivity|].
    now apply remove_commas_digits. }
  destruct (int_of_str count_str) as [n|] eqn:E.
  - exists n. split; [exact (int_of_str_digits_nonneg _ _ Hd E)|reflexivity].
  - exists 0%Z. split; [lia|reflexivity].
Qed.

Lemma format_count_again (n : Z) (rest : string) :
  (0 <= n)%Z -> count_prefix rest = "" ->
  match count_prefix (format_count n ++ rest) with
  | EmptyString => "0"
  | m => replace "," "" m
  end = str_of_int n
  /\ free_of "(" (format_count n) = true.
Proof.
  intros Hn Hr. destruct (str_of_int_digits n Hn) as (Hne & Hd & _).
  destruct (group_thousands_chars _ Hd) as [Hc Hrm].
  unfold format_count. rewrite (count_prefix_app _ rest Hc), Hr, string_app_nil_r.
  split; [|now apply count_chars_no_paren].
  pose proof (group_thousands_not_empty _ Hne) as Hg.
  destruct (group_thousands (str_of_int n)); [contradiction|exact Hrm].
Qed.

End CellValues.

(** X28: the value stored for a cell of the crime table is in normal
    form: it is a non-negative count with its thousands grouped, alone or
    followed by the rate in parentheses, and formatting a stored value
    again gives the same value. *)
Theorem stored_cell_value_is_a_normal_form (cell_text : string) :
  (exists raw_count,
      (0 <= raw_count)%Z
      /\ crime_data.format_cell cell_text
         = match crime_data.rate_search cell_text with
           | Some rate_per_100k =>
               (crime_data.format_count raw_count ++ " (" ++ rate_per_100k ++ ")")%string
           | None => crime_data.format_count raw_count
           end)
  /\ crime_data.format_cell (crime_data.format_cell cell_text)
     = crime_data.format_cell cell_text.
Proof.
  split; [apply format_cell_form|].
  destruct (format_cell_form cell_text) as (n & Hn & E). rewrite E.
  destruct (str_of_int_digits n Hn) as (Hne & Hd & Hv).
  destruct (crime_data.rate_search cell_text) as [rate|] eqn:Er.
  - destruct (rate_search_some _ _ Er) as [Hrne Hrf].
    destruct (format_count_again n (" (" ++ rate ++ ")")%string Hn eq_refl)
      as [Hc Hp].
    unfold crime_data.format_cell at 1. rewrite Hc.
    rewrite (int_of_digits _ Hne Hd), Hv.
    rewrite (rate_search_skip _ _ Hp).
    cbn [append crime_data.rate_search Ascii.eqb Bool.eqb].
    rewrite (take_until_paren_closed rate "" Hrf).
    destruct rate; [contradiction|reflexivity].
  - destruct (format_count_again n "" Hn eq_refl) as [Hc Hp].
    rewrite string_app_nil_r in Hc.
    unfold crime_data.format_cell at 1. rewrite Hc.
    rewrite (int_of_digits _ Hne Hd), Hv.
    rewrite <- (string_app_nil_r (crime_data.format_count n)) at 1.
    rewrite (rate_search_skip _ _ Hp). reflexivity.
Qed.

(* ------------------------------------------------------------------ *)
(** ** Labour fetcher: what is requested *)

Section BlsRequests.
Import Py bls_data.

Lemma fold_left_agree_in {T B : Type} (f g : T -> B -> T) (l : list B) :
  (forall acc b, In b l -> f acc b = g acc b) ->
  forall acc, fold_left f l acc = fold_left g l acc.
Proof.
  induction l as [|b l IH]; intros H acc; [reflexivity|].
  cbn [fold_left]. rewrite (H acc b (or_introl eq_refl)).
  apply IH. intros acc' b' Hb'. apply H. now right.
Qed.

Lemma collect_batch_agree (api api' : bls_api) (year : Z)
  (series_to_location : dict (string * data_type))
  (all_employment_data : list EmploymentRecord) (batch_series : list string) :
  api batch_series year = api' batch_series year ->
  collect_batch api year series_to_location all_employment_data batch_series
  = collect_batch api' year series_to_location all_employment_data batch_series.
Proof. unfold collect_batch. now intros ->. Qed.

End BlsRequests.

(** X29: the labour fetcher asks the labour service only for the batches
    of the series of the areas with a resolved county code and only for the
    requested years: two services that agree on those requests give the same
    collected records and the same results. *)
Theorem bls_reads_only_requested_batches (sort_values : Pandas.sorter)
  (api api' : bls_data.bls_api) (start_year end_year : Z)
  (target_areas : Py.dict area_converter.area_info) :
  (forall batch_series year,
      In batch_series
         (bls_data.chunks bls_data.batch_size
            (fst (bls_data.year_series (bls_data.bls_area_codes target_areas)))) ->
      (start_year <= year <= end_year)%Z ->
      api batch_series year = api' batch_series year) ->
  bls_data.collect api start_year end_year target_areas
  = bls_data.collect api' start_year end_year target_areas
  /\ bls_data.get_bls_data sort_values api start_year end_year target_areas
     = bls_data.get_bls_data sort_values api' start_year end_year target_areas.
Proof.
  intros H.
  assert (E : bls_data.collect api start_year end_year target_areas
              = bls_data.collect api' start_year end_year target_areas).
  { unfold bls_data.collect.
    destruct (bls_data.bls_area_codes target_areas) as [|c0 codes]; [reflexivity|].
    apply fold_left_agree_in. intros acc year Hy. apply range_In in Hy.
    unfold bls_data.collect_year.
    destruct (bls_data.year_series (c0 :: codes)) as [series_ids stl]. cbn [fst] in H.
    apply fold_left_agree_in. intros acc' batch Hb.
    apply collect_batch_agree. apply H; [exact Hb|lia]. }
  split; [exact E|]. unfold bls_data.get_bls_data. now rewrite E.
Qed.

Lemma bls_reads_only_requested_batches_witness :
  bls_data.collect bls_ok 2015 2016 [("tampa_fl", tampa)]
  = bls_data.collect bls_two_years 2015 2016 [("tampa_fl", tampa)].
Proof.
  refine (proj1 (bls_reads_only_requested_batches Pandas.insertion_sort bls_ok
                   bls_two_years 2015 2016 [("tampa_fl", tampa)] _)).
  intros batch year _ Hy. unfold bls_two_years.
  destruct (Z.leb_spec 2015 year); [|lia].
  destruct (Z.leb_spec year 2016); [reflexivity|lia].
Defined.

(* ------------------------------------------------------------------ *)
(** ** From the resolver to the census fetcher *)

Section UnresolvedCounty.
Import Py Net Pandas area_converter census_data.

Lemma failed_county_list_gives_no_code (w : web)
  (state_fips county_name census_api_key : string) :
  fetch_failed (w (county_list_url state_fips census_api_key)) = true ->
  get_county_fips_code w state_fips county_name census_api_key = "000".
Proof.
  unfold get_county_fips_code, county_fips_lookup, fetch_failed.
  destruct (w (county_list_url state_fips census_api_key))
    as [|status_code content]; [reflexivity|].
  destruct (is_http_error status_code); [reflexivity|]. cbn [orb].
  destruct content as [| [|headers counties] |]; try reflexivity. discriminate.
Qed.

Lemma filter_none {T : Type} (p : T -> bool) (l : list T) :
  (forall x, In x l -> p x = false) -> filter p l = [].
Proof.
  induction l as [|x l IH]; intros H; [reflexivity|].
  cbn [filter]. rewrite (H x (or_introl eq_refl)). apply IH.
  intros y Hy. apply H. now right.
Qed.

Lemma same_location_same_area (areas : list area_info) (a b : area_info) :
  NoDup (map area_location areas) -> In a areas -> In b areas ->
  area_location a = area_location b -> a = b.
Proof.
  induction areas as [|x areas IH]; intros Hnd Ha Hb E; [contradiction|].
  cbn [map] in Hnd. apply NoDup_cons_iff in Hnd. destruct Hnd as [Hx Hnd].
  destruct Ha as [->|Ha], Hb as [->|Hb]; [reflexivity| | |now apply IH].
  - exfalso. apply Hx. rewrite E. now apply in_map.
  - exfalso. apply Hx. rewrite <- E. now apply in_map.
Qed.

End UnresolvedCounty.

(** X30: an area that the resolver returns although the county list of
    its state could not be fetched carries the county code "000", and the
    census fetcher passes it over: the collected frames hold no row of its
    location, not even a null one. *)
Theorem area_without_county_list_gets_no_census_rows
  (w w' : Net.web) (key : string) (start_year end_year : Z)
  (input_df : list (string * string))
  (target_areas : Py.dict area_converter.area_info) (county_mapping : Py.dict string)
  (area_id : string) (area : area_converter.area_info) :
  area_converter.convert_input_to_target_areas w input_df
  = Py.Return (target_areas, county_mapping) ->
  In (area_id, area) target_areas ->
  fetch_failed
    (w (area_converter.county_list_url (area_converter.fips_state area)
          area_converter.census_key)) = true ->
  area_converter.fips_county area = "000"
  /\ forall year,
       records_for year (area_location area)
         (fst (census_data.collect w' key start_year end_year target_areas)) = []
       /\ records_for year (area_location area)
            (snd (census_data.collect w' key start_year end_year target_areas)) = [].
Proof.
  intros Hconv Hin Hfail.
  assert (Hstem : Forall (stems_from w input_df) target_areas).
  { unfold area_converter.convert_input_to_target_areas in Hconv.
    destruct (area_converter.convert_rows w ([], []) input_df) as [acc|e] eqn:E;
      [|discriminate].
    simpl in Hconv. destruct (fst acc) eqn:Ef; [discriminate|].
    inversion Hconv; subst acc.
    change target_areas with (fst (target_areas, county_mapping)).
    apply (convert_rows_stem w input_df input_df ([], []) _);
      [apply incl_refl|constructor|exact E]. }
  assert (Hkeyed : NoDup (map area_location (Py.dict_values target_areas))).
  { unfold area_converter.convert_input_to_target_areas in Hconv.
    destruct (area_converter.convert_rows w ([], []) input_df) as [acc|e] eqn:E;
      [|discriminate].
    simpl in Hconv. destruct (fst acc) eqn:Ef; [discriminate|].
    inversion Hconv; subst acc.
    apply well_keyed_locations.
    change target_areas with (fst (target_areas, county_mapping)).
    apply (convert_rows_well_keyed w input_df ([], []) _); [|exact E].
    split; constructor. }
  destruct (proj1 (Forall_forall _ _) Hstem _ Hin) as (_ & _ & _ & _ & _ & Hcode).
  cbn [snd] in Hcode.
  rewrite (failed_county_list_gives_no_code w _ _ _ Hfail) in Hcode.
  split; [exact Hcode|].
  assert (Ha : In area (Py.dict_values target_areas))
    by (unfold Py.dict_values; now apply (in_map snd _ (area_id, area))).
  assert (Hother : forall b, In b (valid_areas target_areas) ->
                     Pandas.key_eqb (area_location b) (area_location area) = false).
  { intros b Hb. unfold valid_areas in Hb. apply filter_In in Hb.
    destruct Hb as [Hb Hv].
    destruct (Pandas.key_eqb (area_location b) (area_location area)) eqn:Ek;
      [|reflexivity].
    apply key_eqb_eq in Ek.
    rewrite (same_location_same_area _ b area Hkeyed Hb Ha Ek) in Hv.
    unfold census_data.has_valid_fips in Hv. now rewrite Hcode in Hv. }
  intros year. rewrite collect_eq. cbn [fst snd]. unfold records_for. split.
  - apply filter_none. intros r Hr. apply in_flat_map in Hr.
    destruct Hr as (y & _ & Hr).
    destruct (year_population_Forall w' key target_areas y r Hr) as (_ & b & Hb & ->).
    change (location (population_record w' key y b)) with (area_location b).
    now rewrite (Hother b Hb), andb_false_r.
  - apply filter_none. intros r Hr. apply in_flat_map in Hr.
    destruct Hr as (y & _ & Hr). unfold year_age in Hr.
    destruct (y <? 2009)%Z; [contradiction|].
    apply in_map_iff in Hr. destruct Hr as (b & <- & Hb).
    change (location (age_record w' key y b)) with (area_location b).
    now rewrite (Hother b Hb), andb_false_r.
Qed.

Lemma area_without_county_list_gets_no_census_rows_witness :
  area_converter.fips_county
    (area_converter.mk_area "FL" "Hillsborough County" "12" "000" "Tampa") = "000"
  /\ forall year,
       records_for year ("Tampa", "FL", "Hillsborough County")
         (fst (census_data.collect acs_web "k" 2015 2016
                 [("tampa_fl",
                   area_converter.mk_area "FL" "Hillsborough County" "12" "000"
                     "Tampa")])) = []
       /\ records_for year ("Tampa", "FL", "Hillsborough County")
            (snd (census_data.collect acs_web "k" 2015 2016
                    [("tampa_fl",
                      area_converter.mk_area "FL" "Hillsborough County" "12" "000"
                        "Tampa")])) = [].
Proof.
  exact (area_without_county_list_gets_no_census_rows tampa_without_counties acs_web
           "k" 2015 2016 [("Tampa", "FL")]
           [("tampa_fl",
             area_converter.mk_area "FL" "Hillsborough County" "12" "000" "Tampa")]
           [("Hillsborough County", "Tampa")] "tampa_fl"
           (area_converter.mk_area "FL" "Hillsborough County" "12" "000" "Tampa")
           eq_refl (or_introl eq_refl) eq_refl).
Defined.

(* ------------------------------------------------------------------ *)
(** ** Labour fetcher: a failed request *)

Section FailedRequest.
Import Py bls_data.

Lemma collect_batch_failed (api : bls_api) (year : Z)
  (series_to_location : dict (string * data_type))
  (all_employment_data : list EmploymentRecord) (batch_series : list string) :
  request_failed (api batch_series year) = true ->
  collect_batch api year series_to_location all_employment_data batch_series
  = all_employment_data.
Proof.
  unfold collect_batch, request_failed.
  destruct (api batch_series year) as [|status series_list]; [reflexivity|].
  now destruct (String.eqb status "REQUEST_SUCCEEDED").
Qed.

Lemma collect_year_failed (api : bls_api) (codes : dict string)
  (all_employment_data : list EmploymentRecord) (year : Z) :
  (forall batch_series, request_failed (api batch_series year) = true) ->
  collect_year api codes all_employment_data year = all_employment_data.
Proof.
  intros H. unfold collect_year.
  destruct (year_series codes) as [series_ids series_to_location].
  induction (chunks batch_size series_ids) as [|b bs IH]; [reflexivity|].
  cbn [fold_left]. now rewrite collect_batch_failed.
Qed.

Lemma collect_years_failed (api : bls_api) (codes : dict string) (year : Z)
  (years : list Z) :
  (forall batch_series, request_failed (api batch_series year) = true) ->
  forall all_employment_data,
    Forall (fun r => Year r <> year) all_employment_data ->
    Forall (fun r => Year r <> year)
           (fold_left (collect_year api codes) years all_employment_data).
Proof.
  intros H. induction years as [|y years IH]; intros acc Hacc; [exact Hacc|].
  cbn [fold_left]. apply IH.
  destruct (Z.eq_dec y year) as [->|Hne]; [now rewrite collect_year_failed|].
  destruct (collect_year_new api codes acc y) as (new & -> & Hnew).
  apply Forall_app. split; [exact Hacc|].
  apply Forall_forall. intros r Hr.
  destruct (proj1 (Forall_forall _ _) Hnew r Hr) as [Hy _]. congruence.
Qed.

End FailedRequest.

(** C2: the labour fetcher has no placeholder. When its requests for a
    year fail (the request raises, or the status is not REQUEST_SUCCEEDED),
    the collected records hold no record of that year at all, for no
    location: the (area, year) pairs of that year are absent, where the
    census fetcher appends a null-valued record. With the request for 2016
    failing, Tampa has a record for 2015 and none for 2016. *)
Theorem failed_bls_request_leaves_no_record
  (api : bls_data.bls_api) (start_year end_year : Z)
  (target_areas : Py.dict area_converter.area_info) (year : Z) :
  (forall batch_series, request_failed (api batch_series year) = true) ->
  Forall (fun r => Year r <> year)
         (bls_data.collect api start_year end_year target_areas)
  /\ (forall k,
        records_for year k (bls_data.collect api start_year end_year target_areas)
        = [])
  /\ bls_data.collect bls_2016_down 2015 2016 [("tampa_fl", tampa)]
     = [ mk_record 2015 "Tampa" "FL" "Hillsborough County"
           (Some (35 # 10)%Q, Some (700000 # 1)%Q) ]
  /\ fst (census_data.collect acs_web "k" 2015 2016 [("tampa_fl", tampa)])
     = [ mk_record 2015 "Tampa" "FL" "Hillsborough County" (Some 1350000%Z);
         mk_record 2016 "Tampa" "FL" "Hillsborough County" None ].
Proof.
  intros H.
  assert (Hall : Forall (fun r => Year r <> year)
                        (bls_data.collect api start_year end_year target_areas)).
  { unfold bls_data.collect.
    destruct (bls_data.bls_area_codes target_areas) as [|c0 codes]; [constructor|].
    apply collect_years_failed; [exact H|constructor]. }
  split; [exact Hall|]. split; [|split; vm_compute; reflexivity].
  intros k. unfold records_for. apply filter_none. intros r Hr.
  pose proof (proj1 (Forall_forall _ _) Hall r Hr) as Hy. cbv beta in Hy.
  destruct (Z.eqb_spec (Year r) year); [contradiction|reflexivity].
Qed.

(** The theorem at work: the request for 2016 fails. *)
Lemma failed_bls_request_leaves_no_record_witness :
  Forall (fun r => Year r <> 2016%Z)
         (bls_data.collect bls_2016_down 2015 2016 [("tampa_fl", tampa)])
  /\ records_for 2016 ("Tampa", "FL", "Hillsborough County")
       (bls_data.collect bls_2016_down 2015 2016 [("tampa_fl", tampa)])
     = [].
Proof.
  destruct (failed_bls_request_leaves_no_record bls_2016_down 2015 2016
              [("tampa_fl", tampa)] 2016 (fun _ => eq_refl)) as (Hall & Hnone & _).
  split; [exact Hall|exact (Hnone ("Tampa", "FL", "Hillsborough County"))].
Defined.

(* ------------------------------------------------------------------ *)
(** ** Crime index and the reconciled table *)

(** C1: the crime index of the scraped table is not joined. The
    reconciliation takes for year columns the columns whose name ends with
    _count; the parser names the year columns by digits only. So for every
    table that the parser returns the reconciliation returns what it
    returns without crime data. For Orlando and Tampa, with the crime
    table of Tampa scraped (it is not empty and has a Crime Index row) and
    both target areas given, the reconciled table has the columns County,
    Population and Median Age and no Crime_Index column: the county rows
    are there, the crime index of Tampa is not joined to Hillsborough
    County. *)
Theorem crime_index_of_scraped_table_is_not_joined :
  (forall (crtable : option crime_data.crtable) (city_name : string)
          (crime_df population_df age_df : Pandas.DataFrame)
          (employment_df : option Pandas.DataFrame)
          (target_areas : option (Py.dict area_converter.area_info)),
      crime_data.parse_crime_table crtable city_name = Py.Return (Some crime_df) ->
      data_analysis.analyze_and_visualize_data population_df age_df employment_df
        (Some crime_df) target_areas
      = data_analysis.analyze_and_visualize_data population_df age_df employment_df
          None target_areas)
  /\ let crime_df :=
       state_crime.get_state_crime_data tampa_site
         [("Orlando", "FL"); ("Tampa", "FL")] in
     Pandas.is_empty crime_df = false
     /\ existsb (data_analysis.is_crime_index_row (Pandas.columns crime_df))
                (Pandas.rows crime_df) = true
     /\ data_analysis.year_columns crime_df = []
     /\ data_analysis.analyze_and_visualize_data population_table age_table None
          (Some crime_df) (Some orlando_tampa_areas)
        = Py.Return
            (Pandas.mk_frame ["County"; "Population"; "Median Age"]
               [ [Pandas.Str "Hillsborough County"; Pandas.Num 1350000;
                  Pandas.Num (372 # 10)];
                 [Pandas.Str "Orange County"; Pandas.Num 1400000;
                  Pandas.Num (355 # 10)] ]).
Proof.
  split.
  - intros crtable city_name crime_df population_df age_df employment_df target_areas H.
    destruct (parse_crime_table_rows _ _ _ H) as (records & Hk & ->).
    destruct (frame_of_rows_shape records Hk) as (H0 & H1 & H2 & _).
    assert (Hct : Pandas.is_empty (crime_data.frame_of_rows records) = true
                  \/ In "Crime_Type" (Pandas.columns (crime_data.frame_of_rows records))).
    { destruct records as [|d records]; [left; now rewrite (H0 eq_refl)|].
      right. apply H1. discriminate. }
    unfold data_analysis.analyze_and_visualize_data.
    destruct (data_analysis.merge_population_age population_df age_df) as [d1|e];
      [|reflexivity].
    cbn [Py.bind].
    destruct (data_analysis.add_employment d1 employment_df) as [d2|e]; [|reflexivity].
    cbn [Py.bind].
    now rewrite (parser_columns_are_not_joined d2 _ target_areas H2 Hct).
  - cbv zeta. repeat split; vm_compute; reflexivity.
Qed.

(* ------------------------------------------------------------------ *)
(** ** Strongest market: what is reported *)

Section ReportedMarket.
Import Py Pandas.

Lemma sort_pair {M : Type} (sort_values : sorter) (a b : TimeSeriesRecord M) :
  sort_contract sort_values -> (Year a < Year b)%Z ->
  sort_values _ census_data.year_leb [a; b] = [a; b].
Proof.
  intros [Hperm Hsorted] Hlt.
  specialize (Hperm _ (@census_data.year_leb M) [a; b]).
  specialize (Hsorted _ (@census_data.year_leb M) [a; b]
                year_leb_total year_leb_transitive).
  apply Permutation_sym, Permutation_length_2_inv in Hperm.
  destruct Hperm as [E|E]; [exact E|].
  rewrite E in Hsorted. inversion Hsorted as [|? ? _ Hall]; subst.
  inversion Hall as [|? ? Hba _]; subst.
  unfold census_data.year_leb in Hba. lia.
Qed.

Lemma latest_first_sort_contract : sort_contract latest_first_sort.
Proof.
  split; intros A leb l; unfold latest_first_sort.
  - assert (H : forall acc,
               Permutation (fold_left (fun sorted x => insert_sorted leb x sorted) l acc)
                           (acc ++ l)).
    { induction l as [|x l IH]; intros acc; cbn [fold_left].
      - now rewrite app_nil_r.
      - rewrite IH, insert_sorted_perm. apply Permutation_middle. }
    exact (H []).
  - intros Htot Htrans.
    assert (H : forall acc,
               StronglySorted (fun a b => leb a b = true) acc ->
               StronglySorted (fun a b => leb a b = true)
                 (fold_left (fun sorted x => insert_sorted leb x sorted) l acc)).
    { induction l as [|x l IH]; intros acc Hacc; cbn [fold_left]; [exact Hacc|].
      apply IH. now apply insert_sorted_sorted. }
    apply H. constructor.
Qed.

Lemma two_city_growth (sort_values : sorter) (end_orlando end_tampa : Z) :
  sort_contract sort_values ->
  census_data.growth_analysis sort_values (two_city_population end_orlando end_tampa)
  = [ growth_row ("Orlando", "FL", "Orange County") 2015 2016 100000 end_orlando;
      growth_row ("Tampa", "FL", "Hillsborough County") 2015 2016 100000 end_tampa ].
Proof.
  intros Hc. unfold census_data.growth_analysis.
  replace (groupby location (two_city_population end_orlando end_tampa))
    with [ (("Orlando", "FL", "Orange County"),
            [ mk_record 2015 "Orlando" "FL" "Orange County" (Some 100000%Z);
              mk_record 2016 "Orlando" "FL" "Orange County" (Some end_orlando) ]);
           (("Tampa", "FL", "Hillsborough County"),
            [ mk_record 2015 "Tampa" "FL" "Hillsborough County" (Some 100000%Z);
              mk_record 2016 "Tampa" "FL" "Hillsborough County" (Some end_tampa) ]) ]
    by reflexivity.
  cbn [map fst snd].
  assert (Hrow : forall c s k e,
             census_data.location_growth sort_values (c, s, k)
               [ mk_record 2015 c s k (Some 100000%Z); mk_record 2016 c s k (Some e) ]
             = Some (growth_row (c, s, k) 2015 2016 100000 e)).
  { intros c s k e. apply location_growth_iff. cbv zeta.
    rewrite (sort_pair sort_values _ _ Hc) by (cbn; lia).
    exists (mk_record 2015 c s k (Some 100000%Z)), (mk_record 2016 c s k (Some e)),
      100000%Z, e.
    repeat split; cbn; lia. }
  now rewrite !Hrow.
Qed.

Lemma one_year_cagr (key : group_key) (start_pop end_pop : Z) :
  (0 < start_pop)%Z -> (0 < end_pop)%Z ->
  census_data.CAGR_Pct (growth_row key 2015 2016 start_pop end_pop)
  = ((IZR end_pop / IZR start_pop - 1) * 100)%R.
Proof.
  intros Hs He. unfold growth_row. cbn [census_data.CAGR_Pct].
  replace (2016 - 2015)%Z with 1%Z by reflexivity.
  replace (1 / 1)%R with 1%R by lra.
  rewrite float_pow_1; [reflexivity|].
  apply Rdiv_lt_0_compat; now apply IZR_lt.
Qed.




Lemma Rleb_same (x y : R) : x = y -> Rleb x y = true.
Proof. intros ->. apply Rleb_true. lra. Qed.

End ReportedMarket.


(** Which of several locations with the maximal metric is reported is
    settled by the sorting routine: Orlando and Tampa both grow by 10
    percent; a stable insertion sort reports Orlando, the location analysed
    first, and an insertion sort that is not stable reports Tampa. *)
Lemma tie_is_settled_by_the_sorting_routine :
  Pandas.sort_contract latest_first_sort
  /\ option_map census_data.info_city
       (census_data.population_trend Pandas.insertion_sort
          (two_city_population 110000 110000)) = Some "Orlando"
  /\ option_map census_data.info_city
       (census_data.population_trend latest_first_sort
          (two_city_population 110000 110000)) = Some "Tampa".
Proof.
  split; [exact latest_first_sort_contract|].
  assert (Hrun : trend_runs (two_city_population 110000 110000) = true)
    by reflexivity.
  assert (Htie : forall a b,
             census_data.cagr_desc
               (growth_row a 2015 2016 100000 110000)
               (growth_row b 2015 2016 100000 110000) = true).
  { intros a b. unfold census_data.cagr_desc. apply Rleb_same.
    now rewrite !one_year_cagr by lia. }
  split.
  - unfold census_data.population_trend.
    fold (trend_runs (two_city_population 110000 110000)). rewrite Hrun.
    rewrite (two_city_growth _ _ _ insertion_sort_contract).
    unfold census_data.strongest_market, Pandas.insertion_sort.
    cbn [fold_right Pandas.insert_sorted]. rewrite Htie. reflexivity.
  - unfold census_data.population_trend.
    fold (trend_runs (two_city_population 110000 110000)). rewrite Hrun.
    rewrite (two_city_growth _ _ _ latest_first_sort_contract).
    unfold census_data.strongest_market, latest_first_sort.
    cbn [fold_left Pandas.insert_sorted]. rewrite Htie. reflexivity.
Qed.


